(** * User management REST API (app.py): a shallow embedding

    The Flask application keeps a process-wide list [users] of user
    dictionaries, rewrites [users.json] after every successful change and
    answers six routes.  This development embeds the helpers and the route
    handlers of [app.py] as functions over an explicit state (the list in
    memory and the text of the file) and proves properties of them.

    Conventions of the embedding.
    - Python [str] is [string]; characters are code points below 256.
      Case mapping ([str.lower]) and white space ([str.strip]) are Python's
      on that range.
    - Python [int] is [Z]; limits of the interpreter (digits of an integer
      text, recursion depth) are not part of the embedding.
    - A request body parsed by [request.get_json(force=True, silent=True)]
      is a [json] value; [JNull] is Python's [None], which is also what an
      absent or unparsable body yields.
    - An element of [users] is a [user] record: the dictionaries the
      program itself builds have an integer ["id"], strings ["name"],
      ["email"], ["created_at"], and a string ["updated_at"] once updated.
    - [datetime.utcnow()] is read from the environment: handlers take the
      text [now] of the clock as an argument.
    - An exception no handler catches ends the request (Flask answers 500);
      it is the outcome [Unhandled].  What the handler assigned before the
      exception stays assigned.
    - [users.json] is a text.  [json.dump] and [json.load] of Python's
      library are embedded as an encoder of user dictionaries and a scanner
      of JSON texts that follow [json.encoder] and [json.decoder]; the
      scanner answers [Unmodelled] on a text whose value the embedding has
      no term for. *)

From Stdlib Require Import ZArith List String Ascii Bool Lia Arith.
From Stdlib Require Import SpecFloat.
From Stdlib Require Import Decimal DecimalString DecimalFacts DecimalPos DecimalN DecimalZ.
Import ListNotations.

Local Open Scope string_scope.
Local Open Scope list_scope.

(** ** Python strings *)

(** [str.isspace] on one character. *)
Definition isspace (c : ascii) : bool :=
  let n := nat_of_ascii c in
  (((9 <=? n) && (n <=? 13)) || ((28 <=? n) && (n <=? 32))
   || (n =? 133) || (n =? 160))%nat.

(** [str.lower] on one character: A-Z and the upper-case letters of
    Latin-1 (U+00C0 to U+00DE but the multiplication sign U+00D7). *)
Definition lower_char (c : ascii) : ascii :=
  let n := nat_of_ascii c in
  if (((65 <=? n) && (n <=? 90))
      || ((192 <=? n) && (n <=? 222) && negb (n =? 215)))%nat
  then ascii_of_nat (n + 32) else c.

Fixpoint lower (s : string) : string :=
  match s with
  | EmptyString => EmptyString
  | String c r => String (lower_char c) (lower r)
  end.

Fixpoint lstrip (s : string) : string :=
  match s with
  | EmptyString => EmptyString
  | String c r => if isspace c then lstrip r else s
  end.

Fixpoint rstrip (s : string) : string :=
  match s with
  | EmptyString => EmptyString
  | String c r =>
      match rstrip r with
      | EmptyString => if isspace c then EmptyString else String c EmptyString
      | r' => String c r'
      end
  end.

(** [s.strip()] *)
Definition strip (s : string) : string := rstrip (lstrip s).

(** [q in s] for two strings: [q] occurs in [s] as a substring. *)
Fixpoint contains (q s : string) : bool :=
  prefix q s ||
  match s with
  | EmptyString => false
  | String _ r => contains q r
  end.

(** [l[start:stop]] for a list and two integers: a negative bound counts
    from the end, and both are clamped to the list. *)
Definition slice_bound (len i : Z) : Z :=
  if (i <? 0)%Z then Z.max (i + len) 0 else Z.min i len.

Definition slice {A : Type} (l : list A) (start stop : Z) : list A :=
  let len := Z.of_nat (List.length l) in
  let a := slice_bound len start in
  let b := slice_bound len stop in
  firstn (Z.to_nat (b - a)) (skipn (Z.to_nat a) l).

(** ** JSON values as Python objects *)

#[warnings="-register-all"]
Inductive json : Type :=
| JNull
| JBool (b : bool)
| JInt (z : Z)
| JFloat (f : spec_float)
| JStr (s : string)
| JList (l : list json)
| JDict (d : list (string * json)).

(** A [dict] keeps its items in insertion order; keys are unique. *)
Definition dict : Type := list (string * json).

Fixpoint dict_get (d : dict) (k : string) : option json :=
  match d with
  | [] => None
  | (k', v) :: r => if k' =? k then Some v else dict_get r k
  end.

(** [d[k] = v]: replaces the value in place, or appends a new item. *)
Fixpoint dict_set (d : dict) (k : string) (v : json) : dict :=
  match d with
  | [] => [(k, v)]
  | (k', v') :: r => if k' =? k then (k', v) :: r else (k', v') :: dict_set r k v
  end.

(** [bool(v)] *)
Definition truthy (v : json) : bool :=
  match v with
  | JNull => false
  | JBool b => b
  | JInt z => negb (z =? 0)%Z
  | JFloat (S754_zero _) => false
  | JFloat _ => true
  | JStr s => negb (s =? EmptyString)
  | JList l => match l with [] => false | _ => true end
  | JDict d => match d with [] => false | _ => true end
  end.

(** [isinstance(v, str)] *)
Definition is_str (v : json) : bool :=
  match v with JStr _ => true | _ => false end.

(** ** Exceptions *)

Inductive exn : Type := TypeError | AttributeError | KeyError.

Inductive res (A : Type) : Type :=
| Ret (a : A)
| Raise (e : exn).
Arguments Ret {A} a.
Arguments Raise {A} e.

Definition bind {A B : Type} (c : res A) (k : A -> res B) : res B :=
  match c with
  | Ret a => k a
  | Raise e => Raise e
  end.

Notation "x <- c ;; k" := (bind c (fun x => k))
  (at level 61, c at next level, right associativity).

(** [a or b], where only [b] can raise and is evaluated when [a] is false. *)
Definition por (a : bool) (b : res bool) : res bool :=
  if a then Ret true else b.

(** [any(u for u in l if f(u))] over non-empty dictionaries [u]: the
    condition is evaluated item by item up to the first that holds. *)
Fixpoint any_if {A : Type} (f : A -> res bool) (l : list A) : res bool :=
  match l with
  | [] => Ret false
  | x :: r => b <- f x ;; if (b : bool) then Ret true else any_if f r
  end.

(** [v.get(k)] *)
Definition py_get (v : json) (k : string) : res json :=
  match v with
  | JDict d => Ret (match dict_get d k with Some x => x | None => JNull end)
  | _ => Raise AttributeError
  end.

(** [v[k]] with a string [k] *)
Definition py_getitem (v : json) (k : string) : res json :=
  match v with
  | JDict d => match dict_get d k with Some x => Ret x | None => Raise KeyError end
  | _ => Raise TypeError
  end.

(** [v.lower()] and [v.strip()] *)
Definition py_lower (v : json) : res string :=
  match v with JStr s => Ret (lower s) | _ => Raise AttributeError end.

Definition py_strip (v : json) : res string :=
  match v with JStr s => Ret (strip s) | _ => Raise AttributeError end.

(** ["@" in v]: substring of a string, element of a list, key of a dict;
    the other values are not iterable. *)
Definition is_at (v : json) : bool :=
  match v with JStr s => s =? "@" | _ => false end.

Definition py_contains_at (v : json) : res bool :=
  match v with
  | JStr s => Ret (contains "@" s)
  | JList l => Ret (existsb is_at l)
  | JDict d => Ret (existsb (fun kv => fst kv =? "@") d)
  | _ => Raise TypeError
  end.

(** [len(v.strip())] *)
Definition py_len_strip (v : json) : res nat :=
  s <- py_strip v ;; Ret (String.length s).

(** ** The store *)

Record user : Type := mkUser {
  id : Z;
  name : string;
  email : string;
  created_at : string;
  updated_at : option string
}.

(** The dictionary a record stands for, keys in the order the program
    inserts them. *)
Definition user_to_dict (u : user) : json :=
  JDict ([("id", JInt (id u)); ("name", JStr (name u));
          ("email", JStr (email u)); ("created_at", JStr (created_at u))]
         ++ match updated_at u with
            | Some t => [("updated_at", JStr t)]
            | None => []
            end).

(** [next_id] (lines 30-34) *)
Definition next_id (users : list user) : Z :=
  match users with
  | [] => 1
  | u :: r => fold_left Z.max (map id r) (id u) + 1
  end%Z.

(** [find_user] (lines 36-37) *)
Definition find_user (users : list user) (user_id : Z) : option user :=
  find (fun u => (id u =? user_id)%Z) users.

(** [validate_user_payload] (lines 39-50) *)
Definition validate_user_payload (payload : json) (require_email : bool)
  : res (bool * option string) :=
  match payload with
  | JDict _ =>
      name <- py_get payload "name" ;;
      email <- py_get payload "email" ;;
      bad_name <- por (negb (truthy name))
                    (por (negb (is_str name))
                       (n <- py_len_strip name ;; Ret (n <? 2)%nat)) ;;
      if (bad_name : bool)
      then Ret (false, Some "Field 'name' is required (min 2 chars).")
      else if require_email then
        bad_email <- por (negb (truthy email))
                       (has_at <- py_contains_at email ;;
                        por (negb has_at)
                          (n <- py_len_strip email ;; Ret (n <? 5)%nat)) ;;
        if (bad_email : bool)
        then Ret (false, Some "Field 'email' is required and must look like an email.")
        else Ret (true, None)
      else Ret (true, None)
  | _ => Ret (false, Some "Payload must be a JSON object.")
  end.

(** ** Persistence: [json.dump(users, f, indent=2, ensure_ascii=False)] *)

Definition dquote : ascii := "034"%char.
Definition backslash : ascii := "092"%char.
Definition newline : ascii := "010"%char.

Definition str1 (c : ascii) : string := String c EmptyString.
Definition str2 (a b : ascii) : string := String a (String b EmptyString).

Definition hex_char (n : nat) : ascii :=
  match n with
  | 0 => "0" | 1 => "1" | 2 => "2" | 3 => "3" | 4 => "4" | 5 => "5"
  | 6 => "6" | 7 => "7" | 8 => "8" | 9 => "9" | 10 => "a" | 11 => "b"
  | 12 => "c" | 13 => "d" | 14 => "e" | _ => "f"
  end%char.

(** The replacement of one character inside a JSON string: the quote, the
    backslash and the control characters are escaped, every other
    character is written as it is ([ensure_ascii=False]). *)
Definition escape_char (c : ascii) : string :=
  let n := nat_of_ascii c in
  if (n =? 34)%nat then str2 backslash dquote
  else if (n =? 92)%nat then str2 backslash backslash
  else if (n =? 10)%nat then str2 backslash "n"
  else if (n =? 13)%nat then str2 backslash "r"
  else if (n =? 9)%nat then str2 backslash "t"
  else if (n =? 12)%nat then str2 backslash "f"
  else if (n =? 8)%nat then str2 backslash "b"
  else if (n <? 32)%nat then
    String backslash (String "u" (String "0" (String "0"
      (str2 (hex_char (n / 16)) (hex_char (n mod 16))))))
  else str1 c.

Fixpoint escape (s : string) : string :=
  match s with
  | EmptyString => EmptyString
  | String c r => (escape_char c ++ escape r)%string
  end.

Definition encode_str (s : string) : string :=
  String dquote (escape s ++ str1 dquote)%string.

(** [repr] of an integer, in decimal. *)
Definition encode_int (z : Z) : string :=
  NilZero.string_of_int (Z.to_int z).

Fixpoint spaces (n : nat) : string :=
  match n with
  | O => EmptyString
  | S k => String " " (spaces k)
  end.

(** The line break and the indentation of nesting depth [level]. *)
Definition newline_indent (level : nat) : string :=
  String newline (spaces (2 * level)).

Fixpoint join (sep : string) (xs : list string) : string :=
  match xs with
  | [] => EmptyString
  | [x] => x
  | x :: r => (x ++ sep ++ join sep r)%string
  end.

(** A list at depth [level], from its encoded items. *)
Definition encode_list (level : nat) (items : list string) : string :=
  match items with
  | [] => "[]"
  | _ => ("[" ++ newline_indent (S level)
          ++ join ("," ++ newline_indent (S level)) items
          ++ newline_indent level ++ "]")%string
  end.

(** A dict at depth [level], from its keys and encoded values. *)
Definition encode_dict (level : nat) (items : list (string * string)) : string :=
  match items with
  | [] => "{}"
  | _ => ("{" ++ newline_indent (S level)
          ++ join ("," ++ newline_indent (S level))
               (map (fun kv => encode_str (fst kv) ++ ": " ++ snd kv) items)
          ++ newline_indent level ++ "}")%string
  end.

Definition encode_user (level : nat) (u : user) : string :=
  encode_dict level
    ([("id", encode_int (id u)); ("name", encode_str (name u));
      ("email", encode_str (email u));
      ("created_at", encode_str (created_at u))]
     ++ match updated_at u with
        | Some t => [("updated_at", encode_str t)]
        | None => []
        end).

Definition json_dump (users : list user) : string :=
  encode_list 0 (map (encode_user 1) users).

(** ** The state of the process *)

(** [users] is the module-level list; [data_file] is the text of
    [users.json], [None] while the file does not exist. *)
Record state : Type := mkState {
  users : list user;
  data_file : option string
}.

(** [save_data] (lines 25-28): the file is rewritten in full. *)
Definition save_data (us : list user) (st : state) : state :=
  {| users := users st; data_file := Some (json_dump us) |}.

(** The two sample users written at start-up when nothing was loaded
    (lines 56-61); [c1] and [c2] are the two readings of the clock. *)
Definition sample_users (c1 c2 : string) : list user :=
  [ mkUser 1 "Aman" "aman@example.com" c1 None;
    mkUser 2 "Priya" "priya@example.com" c2 None ].

Definition seeded (c1 c2 : string) : state :=
  save_data (sample_users c1 c2)
    {| users := sample_users c1 c2; data_file := None |}.

(** ** Requests and their outcome *)

Inductive outcome : Type :=
| Response (status : Z) (body : json)
| Unhandled (e : exn).

Definition error_body (msg : json) : json := JDict [("error", msg)].

Definition opt_str (o : option string) : json :=
  match o with Some m => JStr m | None => JNull end.

(** A query parameter that [int(...)] reads: absent, the text of an
    integer, or a text for which [int] raises [ValueError]. *)
Inductive int_arg : Type :=
| Absent
| IntText (z : Z)
| NotInt.

Definition read_int (a : int_arg) (default : Z) : option Z :=
  match a with
  | Absent => Some default
  | IntText z => Some z
  | NotInt => None
  end.

(** [limit or "all"] *)
Definition limit_or_all (limit : Z) : json :=
  if (limit =? 0)%Z then JStr "all" else JInt limit.

(** Lines 88-90 of [get_users]: the records whose name or email contains
    the query, all of them when the query is empty. *)
Definition search (q : string) (us : list user) : list user :=
  if negb (q =? EmptyString)
  then filter (fun u => contains q (lower (name u))
                        || contains q (lower (email u))) us
  else us.

(** Line 81 of [get_users]: the query, trimmed and in lower case; the
    empty text when the parameter is absent. *)
Definition query_of (q_arg : option string) : string :=
  lower (strip (match q_arg with Some s => s | None => EmptyString end)).

(** The [meta] and [data] of the answer of [get_users]. *)
Definition listing (total page : Z) (limit : json) (page_data : list user) : json :=
  JDict [("meta", JDict [("total", JInt total); ("page", JInt page);
                         ("limit", limit)]);
         ("data", JList (map user_to_dict page_data))].

(** [get_users] (lines 78-107) *)
Definition get_users (q_arg : option string) (page_arg limit_arg : int_arg)
    (st : state) : outcome :=
  let q := query_of q_arg in
  match read_int page_arg 1, read_int limit_arg 0 with
  | Some page, Some limit =>
      let filtered := search q (users st) in
      let total := Z.of_nat (List.length filtered) in
      let page_data :=
        if (limit >? 0)%Z
        then let start := ((page - 1) * limit)%Z in
             let stop := (start + limit)%Z in
             slice filtered start stop
        else filtered in
      Response 200 (listing total page (limit_or_all limit) page_data)
  | _, _ =>
      Response 400 (error_body (JStr "page and limit must be integers"))
  end.

(** [get_user] (lines 109-114) *)
Definition get_user (user_id : Z) (st : state) : outcome :=
  match find_user (users st) user_id with
  | None => Response 404 (error_body (JStr "User not found"))
  | Some user => Response 200 (user_to_dict user)
  end.

(** [create_user] (lines 116-135) *)
Definition create_user (now : string) (payload : json) (st : state)
  : outcome * state :=
  match validate_user_payload payload true with
  | Raise e => (Unhandled e, st)
  | Ret (false, err) => (Response 400 (error_body (opt_str err)), st)
  | Ret (true, _) =>
      match any_if (fun u => e <- py_getitem payload "email" ;;
                             el <- py_lower e ;;
                             Ret (lower (email u) =? el)) (users st) with
      | Raise e => (Unhandled e, st)
      | Ret true =>
          (Response 409 (error_body (JStr "User with this email already exists.")), st)
      | Ret false =>
          match (n <- py_getitem payload "name" ;;
                 n' <- py_strip n ;;
                 e <- py_getitem payload "email" ;;
                 e' <- py_strip e ;;
                 Ret (mkUser (next_id (users st)) n' e' now None)) with
          | Raise e => (Unhandled e, st)
          | Ret new_user =>
              let us := users st ++ [new_user] in
              (Response 201 (JDict [("message", JStr "User created");
                                    ("user", user_to_dict new_user)]),
               save_data us {| users := us; data_file := data_file st |})
          end
      end
  end.

(** [user[...] = ...] where [user = find_user(users, user_id)]: the
    dictionary found is an element of [users], so the assignment changes
    the first element of the list whose id is [user_id]. *)
Fixpoint assign (user_id : Z) (f : user -> user) (us : list user) : list user :=
  match us with
  | [] => []
  | u :: r => if (id u =? user_id)%Z then f u :: r else u :: assign user_id f r
  end.

Definition set_name (v : string) (u : user) : user :=
  mkUser (id u) v (email u) (created_at u) (updated_at u).
Definition set_email (v : string) (u : user) : user :=
  mkUser (id u) (name u) v (created_at u) (updated_at u).
Definition set_updated_at (v : string) (u : user) : user :=
  mkUser (id u) (name u) (email u) (created_at u) (Some v).

(** Lines 151-154 of [update_user]: the [name] part.  The result is the
    list after the assignment, or the outcome that ends the request. *)
Definition update_name (user_id : Z) (name : json) (us : list user)
  : list user + outcome :=
  if truthy name then
    match por (negb (is_str name))
            (n <- py_len_strip name ;; Ret (n <? 2)%nat) with
    | Raise e => inr (Unhandled e)
    | Ret true => inr (Response 400 (error_body (JStr "Invalid name")))
    | Ret false =>
        match py_strip name with
        | Raise e => inr (Unhandled e)
        | Ret v => inl (assign user_id (set_name v) us)
        end
    end
  else inl us.

(** Lines 156-162 of [update_user]: the [email] part. *)
Definition update_email (user_id : Z) (email_v : json) (us : list user)
  : list user + outcome :=
  if truthy email_v then
    match (has_at <- py_contains_at email_v ;;
           por (negb has_at) (n <- py_len_strip email_v ;; Ret (n <? 5)%nat)) with
    | Raise e => inr (Unhandled e)
    | Ret true => inr (Response 400 (error_body (JStr "Invalid email")))
    | Ret false =>
        match any_if (fun u => if negb (id u =? user_id)%Z
                               then el <- py_lower email_v ;;
                                    Ret (lower (email u) =? el)
                               else Ret false) us with
        | Raise e => inr (Unhandled e)
        | Ret true =>
            inr (Response 409 (error_body (JStr "Another user with this email exists.")))
        | Ret false =>
            match py_strip email_v with
            | Raise e => inr (Unhandled e)
            | Ret v => inl (assign user_id (set_email v) us)
            end
        end
    end
  else inl us.

(** [update_user] (lines 137-166) *)
Definition update_user (now : string) (user_id : Z) (payload : json)
    (st : state) : outcome * state :=
  match find_user (users st) user_id with
  | None => (Response 404 (error_body (JStr "User not found")), st)
  | Some _ =>
      if negb (truthy payload)
      then (Response 400 (error_body (JStr "No JSON payload provided")), st)
      else
        match (name <- py_get payload "name" ;;
               email <- py_get payload "email" ;;
               Ret (name, email)) with
        | Raise e => (Unhandled e, st)
        | Ret (name, email) =>
            match update_name user_id name (users st) with
            | inr o => (o, st)
            | inl us1 =>
                match update_email user_id email us1 with
                | inr o => (o, {| users := us1; data_file := data_file st |})
                | inl us2 =>
                    let us3 := assign user_id (set_updated_at now) us2 in
                    let st3 := save_data us3 {| users := us3; data_file := data_file st |} in
                    (Response 200
                       (JDict [("message", JStr "User updated");
                               ("user", match find_user us3 user_id with
                                        | Some user => user_to_dict user
                                        | None => JNull
                                        end)]),
                     st3)
                end
            end
        end
  end.

(** [delete_user] (lines 168-176) *)
Definition delete_user (user_id : Z) (st : state) : outcome * state :=
  match find_user (users st) user_id with
  | None => (Response 404 (error_body (JStr "User not found")), st)
  | Some _ =>
      let us := filter (fun u => negb (id u =? user_id)%Z) (users st) in
      (Response 200
         (JDict [("message",
                  JStr ("User (id=" ++ encode_int user_id ++ ") deleted")%string)]),
       save_data us {| users := us; data_file := data_file st |})
  end.

(** The requests that change the state, and the states the process can
    be in after start-up on the sample users.  [get_users] and [get_user]
    read the state and leave it as it is. *)
Inductive request : Type :=
| CreateUser (now : string) (payload : json)
| UpdateUser (now : string) (user_id : Z) (payload : json)
| DeleteUser (user_id : Z).

Definition handle (r : request) (st : state) : outcome * state :=
  match r with
  | CreateUser now payload => create_user now payload st
  | UpdateUser now user_id payload => update_user now user_id payload st
  | DeleteUser user_id => delete_user user_id st
  end.

Inductive reachable : state -> Prop :=
| reachable_seeded (c1 c2 : string) : reachable (seeded c1 c2)
| reachable_step (r : request) (st : state) :
    reachable st -> reachable (snd (handle r st)).

(** ** Persistence: [json.load(f)] *)

(** What scanning a text yields: a value and the text after it, the
    error [json.JSONDecodeError], or [Unmodelled] when the text leaves the
    embedding: a number that is a float, an escape for a character above
    U+00FF, or a scan that is out of fuel. *)
Inductive decoded (A : Type) : Type :=
| Decoded (a : A) (rest : string)
| DecodeError
| Unmodelled.
Arguments Decoded {A} a rest.
Arguments DecodeError {A}.
Arguments Unmodelled {A}.

Definition is_ws (c : ascii) : bool :=
  let n := nat_of_ascii c in
  ((n =? 32) || (n =? 9) || (n =? 10) || (n =? 13))%nat.

Fixpoint skip_ws (s : string) : string :=
  match s with
  | EmptyString => EmptyString
  | String c r => if is_ws c then skip_ws r else s
  end.

Definition hex_val (c : ascii) : option nat :=
  let n := nat_of_ascii c in
  if ((48 <=? n) && (n <=? 57))%nat then Some (n - 48)
  else if ((97 <=? n) && (n <=? 102))%nat then Some (n - 87)
  else if ((65 <=? n) && (n <=? 70))%nat then Some (n - 55)
  else None.

Definition hex4 (a b c d : ascii) : option nat :=
  match hex_val a, hex_val b, hex_val c, hex_val d with
  | Some x, Some y, Some z, Some w => Some (((x * 16 + y) * 16 + z) * 16 + w)
  | _, _, _, _ => None
  end.

(** The character a backslash escape other than [\u] stands for. *)
Definition unescape (e : ascii) : option ascii :=
  let n := nat_of_ascii e in
  if (n =? 34)%nat then Some dquote
  else if (n =? 92)%nat then Some backslash
  else if (n =? 47)%nat then Some "/"%char
  else if (n =? 98)%nat then Some "008"%char
  else if (n =? 102)%nat then Some "012"%char
  else if (n =? 110)%nat then Some "010"%char
  else if (n =? 114)%nat then Some "013"%char
  else if (n =? 116)%nat then Some "009"%char
  else None.

Definition cons_char (c : ascii) (d : decoded string) : decoded string :=
  match d with
  | Decoded x rest => Decoded (String c x) rest
  | DecodeError => DecodeError
  | Unmodelled => Unmodelled
  end.

(** [scanstring] in strict mode, from the character after the opening
    quote. *)
Fixpoint scanstring (s : string) : decoded string :=
  match s with
  | EmptyString => DecodeError
  | String c r =>
      if (nat_of_ascii c =? 34)%nat then Decoded EmptyString r
      else if (nat_of_ascii c =? 92)%nat then
        match r with
        | EmptyString => DecodeError
        | String e r1 =>
            if (nat_of_ascii e =? 117)%nat then
              match r1 with
              | String h1 (String h2 (String h3 (String h4 r2))) =>
                  match hex4 h1 h2 h3 h4 with
                  | None => DecodeError
                  | Some n =>
                      if (n <? 256)%nat
                      then cons_char (ascii_of_nat n) (scanstring r2)
                      else Unmodelled
                  end
              | _ => DecodeError
              end
            else
              match unescape e with
              | Some c' => cons_char c' (scanstring r1)
              | None => DecodeError
              end
        end
      else if (nat_of_ascii c <? 32)%nat then DecodeError
      else cons_char c (scanstring r)
  end.

Definition digit_of (c : ascii) : option (uint -> uint) :=
  match nat_of_ascii c - 48 with
  | 0 => if (48 <=? nat_of_ascii c)%nat then Some D0 else None
  | 1 => Some D1 | 2 => Some D2 | 3 => Some D3 | 4 => Some D4
  | 5 => Some D5 | 6 => Some D6 | 7 => Some D7 | 8 => Some D8
  | 9 => Some D9
  | _ => None
  end.

Definition is_digit (c : ascii) : bool :=
  match digit_of c with Some _ => true | None => false end.

(** The longest run of decimal digits at the head of a text. *)
Fixpoint scan_digits (s : string) : uint * string :=
  match s with
  | EmptyString => (Nil, EmptyString)
  | String c r =>
      match digit_of c with
      | Some d => let (u, r') := scan_digits r in (d u, r')
      | None => (Nil, s)
      end
  end.

(** The integer part of a number: [0|[1-9]\d*]. *)
Definition scan_intpart (s : string) : option (uint * string) :=
  match s with
  | EmptyString => None
  | String c r =>
      if (nat_of_ascii c =? 48)%nat then Some (D0 Nil, r)
      else if is_digit c then Some (scan_digits s)
      else None
  end.

Definition starts_with_digit (s : string) : bool :=
  match s with
  | String c _ => is_digit c
  | EmptyString => false
  end.

(** A fraction [\.\d+] or an exponent [[eE][-+]?\d+] follows. *)
Definition has_frac (s : string) : bool :=
  match s with
  | String c r => (nat_of_ascii c =? 46)%nat && starts_with_digit r
  | EmptyString => false
  end.

Definition has_exp (s : string) : bool :=
  match s with
  | String c r =>
      ((nat_of_ascii c =? 101) || (nat_of_ascii c =? 69))%nat
      && (starts_with_digit r
          || match r with
             | String g r' =>
                 ((nat_of_ascii g =? 43) || (nat_of_ascii g =? 45))%nat
                 && starts_with_digit r'
             | EmptyString => false
             end)
  | EmptyString => false
  end.

(** A number at the head of a text; [None] when the text does not start
    with one. *)
Definition scan_number (s : string) : option (decoded json) :=
  let '(neg, s1) :=
    match s with
    | String c r => if (nat_of_ascii c =? 45)%nat then (true, r) else (false, s)
    | EmptyString => (false, s)
    end in
  match scan_intpart s1 with
  | None => None
  | Some (u, r) =>
      if has_frac r || has_exp r then Some Unmodelled
      else Some (Decoded (JInt (Z.of_int (if (neg : bool) then Neg u else Pos u))) r)
  end.

Fixpoint drop (n : nat) (s : string) : string :=
  match n, s with
  | S k, String _ r => drop k r
  | _, _ => s
  end.

(** The literals and the numbers. *)
Definition scan_atom (s : string) : decoded json :=
  if prefix "null" s then Decoded JNull (drop 4 s)
  else if prefix "true" s then Decoded (JBool true) (drop 4 s)
  else if prefix "false" s then Decoded (JBool false) (drop 5 s)
  else match scan_number s with
       | Some d => d
       | None =>
           if prefix "NaN" s then Decoded (JFloat S754_nan) (drop 3 s)
           else if prefix "Infinity" s
           then Decoded (JFloat (S754_infinity false)) (drop 8 s)
           else if prefix "-Infinity" s
           then Decoded (JFloat (S754_infinity true)) (drop 9 s)
           else DecodeError
       end.

(** [dict(pairs)]: a key met again keeps its place and takes the later
    value. *)
Definition dict_of_pairs (pairs : list (string * json)) : dict :=
  fold_left (fun d kv => dict_set d (fst kv) (snd kv)) pairs [].

(** [scan_once], with [JSONArray] and [JSONObject].  [scan_array] starts
    at an item, [scan_object] after the opening quote of a key; both carry
    the items met so far, latest first. *)
Fixpoint scan_once (fuel : nat) (s : string) : decoded json :=
  match fuel with
  | O => Unmodelled
  | S fuel' =>
      match s with
      | EmptyString => DecodeError
      | String c r =>
          if (nat_of_ascii c =? 34)%nat then
            match scanstring r with
            | Decoded x rest => Decoded (JStr x) rest
            | DecodeError => DecodeError
            | Unmodelled => Unmodelled
            end
          else if (nat_of_ascii c =? 123)%nat then
            match skip_ws r with
            | String c' r' =>
                if (nat_of_ascii c' =? 125)%nat then Decoded (JDict []) r'
                else if (nat_of_ascii c' =? 34)%nat then scan_object fuel' r' []
                else DecodeError
            | EmptyString => DecodeError
            end
          else if (nat_of_ascii c =? 91)%nat then
            match skip_ws r with
            | String c' r' =>
                if (nat_of_ascii c' =? 93)%nat then Decoded (JList []) r'
                else scan_array fuel' (String c' r') []
            | EmptyString => DecodeError
            end
          else scan_atom s
      end
  end

with scan_array (fuel : nat) (s : string) (acc : list json) : decoded json :=
  match fuel with
  | O => Unmodelled
  | S fuel' =>
      match scan_once fuel' s with
      | Decoded v rest =>
          match skip_ws rest with
          | String c r =>
              if (nat_of_ascii c =? 93)%nat then Decoded (JList (List.rev (v :: acc))) r
              else if (nat_of_ascii c =? 44)%nat
              then scan_array fuel' (skip_ws r) (v :: acc)
              else DecodeError
          | EmptyString => DecodeError
          end
      | DecodeError => DecodeError
      | Unmodelled => Unmodelled
      end
  end

with scan_object (fuel : nat) (s : string) (acc : list (string * json))
  : decoded json :=
  match fuel with
  | O => Unmodelled
  | S fuel' =>
      match scanstring s with
      | Decoded key rest =>
          match skip_ws rest with
          | String c r =>
              if (nat_of_ascii c =? 58)%nat then
                match scan_once fuel' (skip_ws r) with
                | Decoded v rest' =>
                    match skip_ws rest' with
                    | String c' r' =>
                        if (nat_of_ascii c' =? 125)%nat
                        then Decoded (JDict (dict_of_pairs (List.rev ((key, v) :: acc)))) r'
                        else if (nat_of_ascii c' =? 44)%nat then
                          match skip_ws r' with
                          | String c'' r'' =>
                              if (nat_of_ascii c'' =? 34)%nat
                              then scan_object fuel' r'' ((key, v) :: acc)
                              else DecodeError
                          | EmptyString => DecodeError
                          end
                        else DecodeError
                    | EmptyString => DecodeError
                    end
                | DecodeError => DecodeError
                | Unmodelled => Unmodelled
                end
              else DecodeError
          | EmptyString => DecodeError
          end
      | DecodeError => DecodeError
      | Unmodelled => Unmodelled
      end
  end.

(** [json.loads]: one value between optional white space, and nothing
    after it.  The scanner is given two units of fuel per character of the
    text: a list spends two on its opening bracket, one in [scan_once] and
    one in [scan_array]. *)
Definition json_loads (s : string) : decoded json :=
  match scan_once (2 * String.length s + 2) (skip_ws s) with
  | Decoded v rest =>
      match skip_ws rest with
      | EmptyString => Decoded v EmptyString
      | String _ _ => DecodeError
      end
  | DecodeError => DecodeError
  | Unmodelled => Unmodelled
  end.

(** [load_data] (lines 15-23): the empty list when the file does not
    exist or does not parse; [None] when the text leaves the embedding. *)
Definition load_data (st : state) : option json :=
  match data_file st with
  | None => Some (JList [])
  | Some text =>
      match json_loads text with
      | Decoded v _ => Some v
      | DecodeError => Some (JList [])
      | Unmodelled => None
      end
  end.

(** ** Sample data used by the examples *)

Definition time0 : string := "2024-01-01 00:00:00.000000".
Definition time1 : string := "2024-01-02 08:30:00.000000".

(** [n] records with ids 1 to [n]. *)
Definition numbered (n : nat) : list user :=
  map (fun i => mkUser (Z.of_nat i) "User" "user@example.com" time0 None) (seq 1 n).

(** * Properties *)

(** ** Helper lemmas *)

Lemma any_if_total {A : Type} (f : A -> bool) (l : list A) :
  any_if (fun x => Ret (f x)) l = Ret (existsb f l).
Proof.
  induction l as [|x r IH]; simpl; [reflexivity|].
  destruct (f x); simpl; [reflexivity|exact IH].
Qed.

Lemma find_user_id us user_id u :
  find_user us user_id = Some u -> id u = user_id /\ In u us.
Proof.
  unfold find_user. intros H. apply find_some in H. destruct H as [Hin Heq].
  apply Z.eqb_eq in Heq. auto.
Qed.

Lemma find_user_assign f us user_id :
  (forall u, id (f u) = id u) ->
  find_user (assign user_id f us) user_id = option_map f (find_user us user_id).
Proof.
  intros Hf. induction us as [|u r IH]; simpl; [reflexivity|].
  destruct (id u =? user_id)%Z eqn:E; simpl.
  - rewrite Hf, E. reflexivity.
  - rewrite E. exact IH.
Qed.

Lemma assign_length f us user_id :
  List.length (assign user_id f us) = List.length us.
Proof.
  induction us as [|u r IH]; simpl; [reflexivity|].
  destruct (id u =? user_id)%Z; simpl; congruence.
Qed.

Lemma assign_ids f us user_id :
  (forall u, id (f u) = id u) ->
  map id (assign user_id f us) = map id us.
Proof.
  intros Hf. induction us as [|u r IH]; simpl; [reflexivity|].
  destruct (id u =? user_id)%Z; simpl; [rewrite Hf|rewrite IH]; reflexivity.
Qed.

Lemma assign_other f us user_id i u :
  nth_error us i = Some u -> id u <> user_id ->
  nth_error (assign user_id f us) i = Some u.
Proof.
  revert i. induction us as [|v r IH]; intros [|i] H Hne; simpl in *; try discriminate.
  - injection H as ->. apply Z.eqb_neq in Hne. rewrite Hne. reflexivity.
  - destruct (id v =? user_id)%Z; simpl; [exact H|apply IH; assumption].
Qed.

Lemma assign_filter_other f us user_id :
  (forall u, id (f u) = id u) ->
  filter (fun u => negb (id u =? user_id)%Z) (assign user_id f us)
  = filter (fun u => negb (id u =? user_id)%Z) us.
Proof.
  intros Hf. induction us as [|u r IH]; simpl; [reflexivity|].
  destruct (id u =? user_id)%Z eqn:E; simpl.
  - rewrite Hf, E. reflexivity.
  - rewrite E. simpl. rewrite IH. reflexivity.
Qed.

(** ** Validation *)

Lemma bad_name_not_str nm k :
  is_str nm = false ->
  por (negb (truthy nm)) (por (negb (is_str nm)) k) = Ret true.
Proof. intros ->. destruct (truthy nm); reflexivity. Qed.

(** What a payload that passes validation looks like. *)
Lemma validate_true_inv payload m :
  validate_user_payload payload true = Ret (true, m) ->
  exists d n e,
    payload = JDict d /\
    dict_get d "name" = Some (JStr n) /\
    dict_get d "email" = Some (JStr e) /\
    n <> EmptyString /\ 2 <= String.length (strip n) /\
    e <> EmptyString /\ contains "@" e = true /\
    5 <= String.length (strip e) /\ m = None.
Proof.
  unfold validate_user_payload.
  destruct payload as [| | | | |l|d]; try discriminate.
  unfold py_get.
  destruct (dict_get d "name") as [nm|] eqn:Hn; simpl; [|discriminate].
  destruct nm as [|b|z|f|n|l|d'];
    try (rewrite bad_name_not_str by reflexivity; simpl; discriminate).
  simpl.
  destruct (n =? EmptyString) eqn:En; simpl; [discriminate|].
  destruct (String.length (strip n) <? 2)%nat eqn:Ln; simpl; [discriminate|].
  destruct (dict_get d "email") as [em|] eqn:He; simpl; [|discriminate].
  destruct em as [| b | z | f | e | l | d']; simpl; try discriminate.
  - destruct b; simpl; discriminate.
  - destruct (z =? 0)%Z; simpl; discriminate.
  - destruct f; simpl; discriminate.
  - destruct (e =? EmptyString) eqn:Ee; simpl; [discriminate|].
    destruct (contains "@" e) eqn:Ce; simpl; [|discriminate].
    destruct (String.length (strip e) <? 5)%nat eqn:Le; simpl; [discriminate|].
    intros H. injection H as <-.
    apply Nat.ltb_ge in Ln. apply Nat.ltb_ge in Le.
    exists d, n, e. repeat split; try reflexivity; try assumption.
    + intros ->. discriminate.
    + intros ->. discriminate.
  - destruct l; simpl; [discriminate|].
    destruct (is_at j || existsb is_at l); simpl; discriminate.
  - destruct d' as [|[k v] d']; simpl; [discriminate|].
    destruct ((k =? "@") || existsb (fun kv => fst kv =? "@") d'); simpl; discriminate.
Qed.

Lemma any_if_ext {A : Type} (f g : A -> res bool) (l : list A) :
  (forall x, f x = g x) -> any_if f l = any_if g l.
Proof.
  intros H. induction l as [|x r IH]; simpl; [reflexivity|].
  rewrite H, IH. reflexivity.
Qed.

Lemma existsb_false_iff {A : Type} (f : A -> bool) (l : list A) :
  existsb f l = false <-> forall x, In x l -> f x = false.
Proof.
  split.
  - intros H x Hin. destruct (f x) eqn:E; [|reflexivity].
    assert (existsb f l = true) by (apply existsb_exists; eauto). congruence.
  - intros H. destruct (existsb f l) eqn:E; [|reflexivity].
    apply existsb_exists in E. destruct E as (x & Hin & Hx).
    rewrite (H x Hin) in Hx. discriminate.
Qed.

(** The duplicate check of [create_user] (line 124) on a dictionary whose
    email is the string [e]. *)
Lemma create_duplicate_check d e us :
  dict_get d "email" = Some (JStr e) ->
  any_if (fun u => x <- py_getitem (JDict d) "email" ;;
                   el <- py_lower x ;;
                   Ret (lower (email u) =? el)) us
  = Ret (existsb (fun u => lower (email u) =? lower e) us).
Proof.
  intros He. rewrite <- any_if_total. apply any_if_ext.
  intros u. simpl. rewrite He. reflexivity.
Qed.

(** ** Creation *)

(** The accepting path of [create_user]: a dictionary with a string name
    and a string email that passes validation, no stored email equal to
    the email up to case. *)
Lemma create_user_accepts now d n e st :
  validate_user_payload (JDict d) true = Ret (true, None) ->
  dict_get d "name" = Some (JStr n) ->
  dict_get d "email" = Some (JStr e) ->
  (forall u, In u (users st) -> lower (email u) <> lower e) ->
  let new_user := mkUser (next_id (users st)) (strip n) (strip e) now None in
  create_user now (JDict d) st =
    (Response 201 (JDict [("message", JStr "User created");
                          ("user", user_to_dict new_user)]),
     {| users := users st ++ [new_user];
        data_file := Some (json_dump (users st ++ [new_user])) |}).
Proof.
  intros Hv Hn He Hfree. unfold create_user.
  rewrite Hv, (create_duplicate_check d e _ He).
  assert (existsb (fun u => lower (email u) =? lower e) (users st) = false) as ->.
  { apply existsb_false_iff. intros u Hu. apply String.eqb_neq. auto. }
  simpl. rewrite Hn, He. reflexivity.
Qed.

(** What [create_user] does where validation returns.  A payload that
    passes validation has a string name and a string
    email; when no stored email equals the payload's email up to case,
    [create_user] answers 201 with a record whose id is [next_id] of the
    collection, whose name and email are the trimmed payload values, whose
    [created_at] is the clock and which has no [updated_at], appends it and
    rewrites the file; when some stored email equals it up to case the
    answer is 409 and nothing changes.  When validation fails the answer is
    400 and nothing changes. *)
Theorem create_user_correct (now : string) (payload : json) (st : state) :
  (validate_user_payload payload true = Ret (true, None) ->
   exists n e,
     py_getitem payload "name" = Ret (JStr n) /\
     py_getitem payload "email" = Ret (JStr e) /\
     ((forall u, In u (users st) -> lower (email u) <> lower e) ->
      let new_user := mkUser (next_id (users st)) (strip n) (strip e) now None in
      create_user now payload st =
        (Response 201 (JDict [("message", JStr "User created");
                              ("user", user_to_dict new_user)]),
         {| users := users st ++ [new_user];
            data_file := Some (json_dump (users st ++ [new_user])) |})
      /\ user_to_dict new_user =
           JDict [("id", JInt (next_id (users st))); ("name", JStr (strip n));
                  ("email", JStr (strip e)); ("created_at", JStr now)]) /\
     ((exists u, In u (users st) /\ lower (email u) = lower e) ->
      create_user now payload st =
        (Response 409 (error_body (JStr "User with this email already exists.")),
         st)))
  /\
  (forall err, validate_user_payload payload true = Ret (false, err) ->
     create_user now payload st = (Response 400 (error_body (opt_str err)), st)).
Proof.
  split.
  - intros Hv. destruct (validate_true_inv _ _ Hv)
      as (d & n & e & -> & Hn & He & _).
    exists n, e. simpl. rewrite Hn, He. repeat split.
    + apply create_user_accepts; assumption.
    + intros (u & Hu & Heq).
      unfold create_user. rewrite Hv, (create_duplicate_check d e _ He).
      assert (existsb (fun u => lower (email u) =? lower e) (users st) = true) as ->.
      { apply existsb_exists. exists u. split; [exact Hu|].
        apply String.eqb_eq. exact Heq. }
      reflexivity.
  - intros err Hv. unfold create_user. rewrite Hv. reflexivity.
Qed.

Definition bo : json := JDict [("name", JStr "Bo"); ("email", JStr "bo@x.co")].
Definition bo_upper : json := JDict [("name", JStr "Bo"); ("email", JStr "BO@X.CO")].
Definition bo_user : user := mkUser 3 "Bo" "bo@x.co" time1 None.

Lemma create_user_correct_witness :
  create_user time1 bo (seeded time0 time0) =
    (Response 201 (JDict [("message", JStr "User created");
                          ("user", user_to_dict bo_user)]),
     {| users := sample_users time0 time0 ++ [bo_user];
        data_file := Some (json_dump (sample_users time0 time0 ++ [bo_user])) |})
  /\ create_user time1 bo_upper (snd (create_user time0 bo (seeded time0 time0))) =
       (Response 409 (error_body (JStr "User with this email already exists.")),
        snd (create_user time0 bo (seeded time0 time0)))
  /\ create_user time1 (JList [JInt 1]) (seeded time0 time0) =
       (Response 400 (error_body (JStr "Payload must be a JSON object.")),
        seeded time0 time0).
Proof.
  split; [|split].
  - destruct (create_user_correct time1 bo (seeded time0 time0)) as [H _].
    destruct (H eq_refl) as (n & e & Hn & He & Hok & _).
    injection Hn as <-. injection He as <-.
    apply Hok. intros u [<-|[<-|[]]]; vm_compute; discriminate.
  - destruct (create_user_correct time1 bo_upper (snd (create_user time0 bo (seeded time0 time0))))
      as [H _].
    destruct (H eq_refl) as (n & e & Hn & He & _ & Hdup).
    injection He as <-.
    apply Hdup. exists (mkUser 3 "Bo" "bo@x.co" time0 None).
    split; [right; right; left; reflexivity | reflexivity].
  - destruct (create_user_correct time1 (JList [JInt 1]) (seeded time0 time0)) as [_ H].
    exact (H _ eq_refl).
Defined.

(** A body that a client can send: the name is fine, the email is the
    number 5. *)
Definition bob_email_5 : json :=
  JDict [("name", JStr "Bob"); ("email", JInt 5)].

(** C2. The clause "if validation fails the result is a 400 error" fails.
    The payload [bob_email_5] does not pass validation, its email being no
    string, yet [create_user] answers no status at all, whatever the clock
    and the collection: the email check of line 48 has no [isinstance]
    guard, where the name check of line 45 has one, so ["@" not in 5]
    raises [TypeError] and the request ends with the exception. *)
Theorem create_user_invalid_email_unhandled (now : string) (st : state) :
  validate_user_payload bob_email_5 true <> Ret (true, None)
  /\ is_str (JInt 5) = false
  /\ create_user now bob_email_5 st = (Unhandled TypeError, st)
  /\ (forall status body,
        fst (create_user now bob_email_5 st) <> Response status body).
Proof.
  split; [discriminate|]. split; [reflexivity|].
  split; [reflexivity|]. intros status body. discriminate.
Qed.

(** Without the email requirement validation always returns a pair. *)
Lemma validate_without_email_returns payload :
  exists r, validate_user_payload payload false = Ret r.
Proof.
  destruct payload as [|b|z|f|s|l|d]; try (eexists; reflexivity).
  unfold validate_user_payload, py_get.
  destruct (dict_get d "name") as [nm|]; simpl; [|eexists; reflexivity].
  destruct nm as [|b|z|f|n|l|d'];
    try (rewrite bad_name_not_str by reflexivity; simpl; eexists; reflexivity).
  simpl. destruct (n =? EmptyString); simpl; [eexists; reflexivity|].
  destruct (String.length (strip n) <? 2)%nat; simpl; eexists; reflexivity.
Qed.

(** C8. With [require_email] set, a payload whose email is a number makes
    ["@" not in email] raise [TypeError], and one whose email is a list
    holding ["@"] makes [email.strip()] raise [AttributeError]: validation
    returns no pair there, and [create_user] ends with the exception. *)
Theorem validate_user_payload_raises :
  validate_user_payload (JDict [("name", JStr "Bob"); ("email", JInt 5)]) true
    = Raise TypeError
  /\ validate_user_payload
       (JDict [("name", JStr "Bob"); ("email", JList [JStr "@"])]) true
    = Raise AttributeError
  /\ create_user time1 (JDict [("name", JStr "Bob"); ("email", JInt 5)]) (seeded time0 time0)
    = (Unhandled TypeError, seeded time0 time0).
Proof. repeat split; reflexivity. Qed.

(** ** Uniqueness of emails *)

(** No two records of the list have the same email up to case. *)
Fixpoint emails_unique (us : list user) : bool :=
  match us with
  | [] => true
  | u :: r =>
      negb (existsb (fun v => lower (email v) =? lower (email u)) r)
      && emails_unique r
  end.

(** C1. From the seeded collection, creating a user whose email is the
    email of a stored record preceded by a space is accepted with 201: the
    duplicate check compares the untrimmed text, the record stores the
    trimmed one, and the state reached holds the same email twice. *)
Theorem create_user_duplicate_after_trim :
  let payload := JDict [("name", JStr "Bo"); ("email", JStr " aman@example.com")] in
  let dup := mkUser 3 "Bo" "aman@example.com" time1 None in
  emails_unique (users (seeded time0 time0)) = true
  /\ create_user time1 payload (seeded time0 time0) =
       (Response 201 (JDict [("message", JStr "User created");
                             ("user", user_to_dict dup)]),
        {| users := sample_users time0 time0 ++ [dup];
           data_file := Some (json_dump (sample_users time0 time0 ++ [dup])) |})
  /\ reachable (snd (create_user time1 payload (seeded time0 time0)))
  /\ emails_unique (users (snd (create_user time1 payload (seeded time0 time0)))) = false.
Proof.
  intros payload dup. split; [reflexivity|]. split; [reflexivity|].
  split; [|reflexivity].
  apply (reachable_step (CreateUser time1 payload)). apply reachable_seeded.
Qed.

(** The same through [update_user]: the second sample user takes the
    email of the first. *)
Lemma update_user_duplicate_after_trim :
  let payload := JDict [("email", JStr "aman@example.com ")] in
  exists body st',
    update_user time1 2 payload (seeded time0 time0) = (Response 200 body, st')
    /\ emails_unique (users st') = false.
Proof. do 2 eexists. split; reflexivity. Qed.

(** ** Listing *)

(** C6. With [limit=-1] every record is returned, and the metadata
    reports the limit as [-1], not as ["all"]. *)
Theorem get_users_negative_limit :
  get_users None Absent (IntText (-1)) (seeded time0 time0)
  = Response 200 (listing 2 1 (JInt (-1)) (sample_users time0 time0)).
Proof. reflexivity. Qed.

(** Without pagination the data are all the records found; the limit is
    reported as ["all"] only when it is 0. *)
Lemma get_users_unpaginated q_arg page limit st :
  (limit <= 0)%Z ->
  get_users q_arg (IntText page) (IntText limit) st
  = Response 200
      (listing (Z.of_nat (List.length (search (query_of q_arg) (users st))))
         page (if (limit =? 0)%Z then JStr "all" else JInt limit)
         (search (query_of q_arg) (users st))).
Proof.
  intros H. unfold get_users. simpl.
  destruct (limit >? 0)%Z eqn:E; [apply Z.gtb_lt in E; lia|].
  reflexivity.
Qed.

Lemma slice_forward {A : Type} (l : list A) (start len : Z) :
  (0 <= start)%Z -> (0 < len)%Z ->
  slice l start (start + len) = firstn (Z.to_nat len) (skipn (Z.to_nat start) l).
Proof.
  intros Hs Hl. unfold slice, slice_bound.
  destruct (start <? 0)%Z eqn:E1; [apply Z.ltb_lt in E1; lia|].
  destruct (start + len <? 0)%Z eqn:E2; [apply Z.ltb_lt in E2; lia|].
  destruct (Z_lt_le_dec start (Z.of_nat (List.length l))) as [Hin|Hout].
  - rewrite (Z.min_l start) by lia.
    destruct (Z_le_gt_dec (start + len) (Z.of_nat (List.length l))) as [Hfit|Hcut].
    + rewrite Z.min_l by lia. f_equal. lia.
    + rewrite Z.min_r by lia.
      rewrite !firstn_all2; [reflexivity| |]; rewrite length_skipn; lia.
  - rewrite !Z.min_r by lia.
    rewrite !skipn_all2 by lia. rewrite !firstn_nil. reflexivity.
Qed.

Lemma slice_length {A : Type} (l : list A) (page limit : Z) :
  (0 < limit)%Z ->
  List.length (slice l ((page - 1) * limit) ((page - 1) * limit + limit))
  <= Z.to_nat limit.
Proof.
  intros Hl. unfold slice.
  etransitivity; [apply firstn_le_length|].
  unfold slice_bound.
  destruct ((page - 1) * limit <? 0)%Z eqn:E1;
    destruct ((page - 1) * limit + limit <? 0)%Z eqn:E2;
    try apply Z.ltb_lt in E1; try apply Z.ltb_lt in E2;
    try apply Z.ltb_ge in E1; try apply Z.ltb_ge in E2; lia.
Qed.

Lemma slice_page_zero {A : Type} (l : list A) (limit : Z) :
  (0 < limit)%Z -> slice l ((0 - 1) * limit) ((0 - 1) * limit + limit) = [].
Proof.
  intros Hl. unfold slice, slice_bound.
  replace ((0 - 1) * limit + limit)%Z with 0%Z by lia.
  destruct ((0 - 1) * limit <? 0)%Z eqn:E1; simpl;
    [|apply Z.ltb_ge in E1; lia].
  replace (Z.to_nat _) with 0 by lia. reflexivity.
Qed.

(** C5 as amended. With [limit > 0] the answer is always 200, [total]
    counts the records found before pagination, and the data are the Python
    slice of the records found between [(page-1)*limit] and [page*limit],
    never more than [limit] records.  For a page of at least 1 that slice
    is the [limit] records from offset [(page-1)*limit], cut at the end of
    the list and empty beyond it; for page 0 it is empty.  With 25 records
    found and a limit of 10, page 2 gives records 11 to 20, page 3 gives
    records 21 to 25 and page 4 gives none. *)
Theorem get_users_paginated (q_arg : option string) (page limit : Z) (st : state) :
  (0 < limit)%Z ->
  let filtered := search (query_of q_arg) (users st) in
  exists page_data,
    get_users q_arg (IntText page) (IntText limit) st
      = Response 200
          (listing (Z.of_nat (List.length filtered)) page (JInt limit) page_data)
    /\ page_data = slice filtered ((page - 1) * limit) ((page - 1) * limit + limit)
    /\ List.length page_data <= Z.to_nat limit
    /\ ((1 <= page)%Z ->
        page_data = firstn (Z.to_nat limit)
                      (skipn (Z.to_nat ((page - 1) * limit)) filtered))
    /\ ((1 <= page)%Z ->
        (Z.of_nat (List.length filtered) <= (page - 1) * limit)%Z ->
        page_data = [])
    /\ (page = 0%Z -> page_data = [])
    /\ (List.length filtered = 25 -> limit = 10%Z ->
        (page = 2%Z -> page_data = firstn 10 (skipn 10 filtered))
        /\ (page = 3%Z -> page_data = skipn 20 filtered)
        /\ (page = 4%Z -> page_data = [])).
Proof.
  intros Hl filtered.
  exists (slice filtered ((page - 1) * limit) ((page - 1) * limit + limit)).
  assert (Hfw : (1 <= page)%Z ->
     slice filtered ((page - 1) * limit) ((page - 1) * limit + limit)
     = firstn (Z.to_nat limit)
         (skipn (Z.to_nat ((page - 1) * limit)) filtered)).
  { intros Hp. apply slice_forward; nia. }
  split; [|split; [|split; [|split; [|split; [|split]]]]].
  - unfold get_users. simpl. fold filtered.
    destruct (limit >? 0)%Z eqn:E; [|rewrite Z.gtb_ltb in E; apply Z.ltb_ge in E; lia].
    unfold limit_or_all.
    destruct (limit =? 0)%Z eqn:E0; [apply Z.eqb_eq in E0; lia|].
    reflexivity.
  - reflexivity.
  - apply slice_length. exact Hl.
  - exact Hfw.
  - intros Hp Hout. rewrite Hfw by exact Hp.
    rewrite skipn_all2 by nia. apply firstn_nil.
  - intros ->. apply slice_page_zero. exact Hl.
  - intros Hlen ->. split; [|split]; intros ->; rewrite Hfw by lia.
    + reflexivity.
    + change (Z.to_nat ((3 - 1) * 10)) with 20. change (Z.to_nat 10) with 10.
      apply firstn_all2. rewrite length_skipn. lia.
    + change (Z.to_nat ((4 - 1) * 10)) with 30.
      rewrite skipn_all2 by lia. apply firstn_nil.
Qed.

Lemma get_users_paginated_witness :
  get_users None (IntText 3) (IntText 10) {| users := numbered 25; data_file := None |}
  = Response 200 (listing 25 3 (JInt 10) (skipn 20 (numbered 25))).
Proof.
  destruct (get_users_paginated None 3 10 {| users := numbered 25; data_file := None |})
    as (page_data & Heq & _ & _ & _ & _ & _ & H25); [lia|].
  destruct (H25 eq_refl eq_refl) as (_ & H3 & _).
  rewrite (H3 eq_refl) in Heq. exact Heq.
Defined.

(** C5 as stated fails for a negative page: with 25 records, [page=-1] and
    [limit=10] the offset [(page-1)*limit] is -20, outside the list, and the
    data are not empty: the slice [filtered[-20:-10]] counts from the end
    and holds records 6 to 15. *)
Lemma get_users_negative_page :
  get_users None (IntText (-1)) (IntText 10)
    {| users := numbered 25; data_file := None |}
  = Response 200 (listing 25 (-1) (JInt 10) (firstn 10 (skipn 5 (numbered 25))))
  /\ map id (firstn 10 (skipn 5 (numbered 25)))
     = [6; 7; 8; 9; 10; 11; 12; 13; 14; 15]%Z
  /\ firstn 10 (skipn 5 (numbered 25)) <> [].
Proof. repeat split. discriminate. Qed.

(** ** Assignment of ids *)

Lemma fold_left_max_spec (l : list Z) (a : Z) :
  (a <= fold_left Z.max l a)%Z
  /\ (forall x, In x l -> (x <= fold_left Z.max l a)%Z)
  /\ (fold_left Z.max l a = a \/ In (fold_left Z.max l a) l).
Proof.
  revert a. induction l as [|y l IH]; intros a; simpl.
  - split; [lia|]. split; [intros x []|left; reflexivity].
  - destruct (IH (Z.max a y)) as (H1 & H2 & H3).
    split; [lia|]. split.
    + intros x [<-|Hx]; [lia|apply H2; exact Hx].
    + destruct H3 as [H3|H3]; [|right; right; exact H3].
      destruct (Z.max_spec a y) as [[_ E]|[_ E]]; rewrite E in *.
      * right. left. symmetry. exact H3.
      * left. exact H3.
Qed.

(** [next_id] is one more than the greatest id of a non-empty list. *)
Lemma next_id_spec (us : list user) (u : user) :
  In u us ->
  (id u < next_id us)%Z /\ exists v, In v us /\ next_id us = (id v + 1)%Z.
Proof.
  destruct us as [|w r]; intros Hin; [destruct Hin|].
  unfold next_id.
  destruct (fold_left_max_spec (map id r) (id w)) as (H1 & H2 & H3).
  split.
  - destruct Hin as [<-|Hin]; [lia|].
    specialize (H2 (id u) (in_map id _ _ Hin)). lia.
  - destruct H3 as [H3|H3].
    + exists w. split; [left; reflexivity|]. rewrite H3. reflexivity.
    + apply in_map_iff in H3. destruct H3 as (v & Hv & Hin').
      exists v. split; [right; exact Hin'|]. rewrite Hv. reflexivity.
Qed.

(** C4 as amended. [next_id] is 1 on the empty collection and one more
    than the greatest id otherwise.  After the record holding the greatest
    id [m] is deleted, the id the next creation assigns is [next_id] of the
    records that remain: it is at most [m], so ids do not come from a
    counter that ignores deletions, and it is the freed id [m] exactly when
    a record with id [m - 1] remains, or none remains and [m] is 1. *)
Theorem next_id_after_delete_max (st : state) (m : Z) :
  find_user (users st) m <> None ->
  (forall u, In u (users st) -> (id u <= m)%Z) ->
  (1 <= m)%Z ->
  let st1 := snd (delete_user m st) in
  next_id [] = 1%Z
  /\ (forall us u, In u us ->
        (id u < next_id us)%Z /\ exists v, In v us /\ next_id us = (id v + 1)%Z)
  /\ users st1 = filter (fun u => negb (id u =? m)%Z) (users st)
  /\ (next_id (users st1) <= m)%Z
  /\ (next_id (users st1) = m <->
      (users st1 = [] /\ m = 1%Z)
      \/ exists u, In u (users st1) /\ id u = (m - 1)%Z)
  /\ (forall now payload n e,
        validate_user_payload payload true = Ret (true, None) ->
        py_getitem payload "name" = Ret (JStr n) ->
        py_getitem payload "email" = Ret (JStr e) ->
        (forall u, In u (users st1) -> lower (email u) <> lower e) ->
        exists new_user st2,
          create_user now payload st1 =
            (Response 201 (JDict [("message", JStr "User created");
                                  ("user", user_to_dict new_user)]), st2)
          /\ users st2 = users st1 ++ [new_user]
          /\ id new_user = next_id (users st1)).
Proof.
  intros Hfound Hmax Hpos st1.
  assert (Hus : users st1 = filter (fun u => negb (id u =? m)%Z) (users st)).
  { unfold st1, delete_user.
    destruct (find_user (users st) m); [reflexivity|congruence]. }
  assert (Hlt : forall u, In u (users st1) -> (id u < m)%Z).
  { intros u Hu. rewrite Hus in Hu. apply filter_In in Hu.
    destruct Hu as [Hin Hne]. apply negb_true_iff, Z.eqb_neq in Hne.
    specialize (Hmax u Hin). lia. }
  split; [reflexivity|]. split; [exact next_id_spec|]. split; [exact Hus|].
  split; [|split].
  - destruct (users st1) as [|w r] eqn:E; [simpl; lia|].
    destruct (next_id_spec (w :: r) w (or_introl eq_refl)) as (_ & v & Hv & ->).
    specialize (Hlt v Hv). lia.
  - split.
    + intros Hn. destruct (users st1) as [|w r] eqn:E.
      * left. split; [reflexivity|]. simpl in Hn. lia.
      * right.
        destruct (next_id_spec (w :: r) w (or_introl eq_refl)) as (_ & v & Hv & Hv').
        exists v. split; [exact Hv|]. lia.
    + intros [[E ->]|(u & Hu & Hid)].
      * rewrite E. reflexivity.
      * destruct (next_id_spec _ u Hu) as (H1 & v & Hv & Hv').
        specialize (Hlt v Hv). lia.
  - intros now payload n e Hv Hn He Hfree.
    destruct (validate_true_inv _ _ Hv) as (d & n' & e' & -> & Hn' & He' & _).
    simpl in Hn, He. rewrite Hn' in Hn. rewrite He' in He.
    injection Hn as ->. injection He as ->.
    do 2 eexists. split; [apply create_user_accepts; eassumption|].
    split; reflexivity.
Qed.

Lemma next_id_after_delete_max_witness :
  let st := snd (create_user time1 bo (seeded time0 time0)) in
  next_id (users (snd (delete_user 3 st))) = 3%Z.
Proof.
  intros st.
  assert (Hf : find_user (users st) 3 <> None) by (vm_compute; discriminate).
  assert (Hm : forall u, In u (users st) -> (id u <= 3)%Z).
  { intros u [<-|[<-|[<-|[]]]]; vm_compute; discriminate. }
  destruct (next_id_after_delete_max st 3 Hf Hm ltac:(lia))
    as (_ & _ & _ & _ & Hiff & _).
  apply Hiff. right. exists (mkUser 2 "Priya" "priya@example.com" time0 None).
  split; [right; left; reflexivity|reflexivity].
Defined.

(** C4 as stated fails.  From the seeded collection: create a user (ids
    1, 2, 3), delete user 2, delete user 3, which holds the greatest id, and
    create again: the new record gets id 2, not the freed greatest id 3. *)
Lemma create_after_delete_max_not_freed_id :
  let st1 := snd (create_user time1 bo (seeded time0 time0)) in
  let st2 := snd (delete_user 2 st1) in
  let st3 := snd (delete_user 3 st2) in
  map id (users st1) = [1; 2; 3]%Z
  /\ map id (users st2) = [1; 3]%Z
  /\ map id (users st3) = [1]%Z
  /\ fst (create_user time1 bo st3)
     = Response 201 (JDict [("message", JStr "User created");
                            ("user", user_to_dict (mkUser 2 "Bo" "bo@x.co" time1 None))])
  /\ map id (users (snd (create_user time1 bo st3))) = [1; 2]%Z
  /\ next_id (users st3) <> 3%Z.
Proof. repeat split. discriminate. Qed.

(** ** Update *)

Lemma assign_assign f g us user_id :
  (forall u, id (g u) = id u) ->
  assign user_id f (assign user_id g us) = assign user_id (fun u => f (g u)) us.
Proof.
  intros Hg. induction us as [|u r IH]; simpl; [reflexivity|].
  destruct (id u =? user_id)%Z eqn:E; simpl.
  - rewrite Hg, E. reflexivity.
  - rewrite E, IH. reflexivity.
Qed.

Lemma assign_found f us user_id u :
  find_user us user_id = Some u ->
  assign user_id f us = assign user_id (fun _ => f u) us.
Proof.
  unfold find_user. induction us as [|v r IH]; simpl; [discriminate|].
  destruct (id v =? user_id)%Z.
  - intros H. injection H as ->. reflexivity.
  - intros H. rewrite (IH H). reflexivity.
Qed.

Lemma assign_changes f us user_id u :
  find_user us user_id = Some u -> f u <> u -> assign user_id f us <> us.
Proof.
  unfold find_user. induction us as [|v r IH]; simpl; [discriminate|].
  destruct (id v =? user_id)%Z.
  - intros H Hne Heq. injection H as ->. injection Heq as Heq. auto.
  - intros H Hne Heq. injection Heq as Heq. exact (IH H Hne Heq).
Qed.

Lemma existsb_assign (p : user -> bool) f us user_id :
  (forall u, p (f u) = p u) ->
  existsb p (assign user_id f us) = existsb p us.
Proof.
  intros Hp. induction us as [|u r IH]; simpl; [reflexivity|].
  destruct (id u =? user_id)%Z; simpl; [rewrite Hp|rewrite IH]; reflexivity.
Qed.

(** The name part either leaves the list as it is (falsy name), assigns
    the trimmed name (a string of two characters or more once trimmed), or
    answers 400; it never raises. *)
Lemma update_name_cases user_id nm us :
  (truthy nm = false /\ update_name user_id nm us = inl us)
  \/ (exists s, nm = JStr s /\ truthy nm = true
               /\ 2 <= String.length (strip s)
               /\ update_name user_id nm us
                  = inl (assign user_id (set_name (strip s)) us))
  \/ (truthy nm = true
      /\ (forall s, nm = JStr s -> String.length (strip s) < 2)
      /\ update_name user_id nm us
         = inr (Response 400 (error_body (JStr "Invalid name")))).
Proof.
  unfold update_name. destruct (truthy nm) eqn:T; [|left; auto].
  right. destruct nm as [|b|z|f|s|l|d];
    try (right; split; [reflexivity|split; [discriminate|reflexivity]]).
  simpl. destruct (String.length (strip s) <? 2)%nat eqn:L.
  - right. apply Nat.ltb_lt in L. split; [reflexivity|].
    split; [|reflexivity]. intros s' H. injection H as <-. exact L.
  - left. apply Nat.ltb_ge in L. exists s. auto.
Qed.

(** The duplicate check of [update_user] (line 160) for a string email. *)
Lemma update_duplicate_check user_id e us :
  any_if (fun u => if negb (id u =? user_id)%Z
                   then el <- py_lower (JStr e) ;; Ret (lower (email u) =? el)
                   else Ret false) us
  = Ret (existsb (fun u => negb (id u =? user_id)%Z
                           && (lower (email u) =? lower e)) us).
Proof.
  rewrite <- any_if_total. apply any_if_ext.
  intros u. destruct (id u =? user_id)%Z; reflexivity.
Qed.

(** The email part on a string. *)
Lemma update_email_str user_id e us :
  update_email user_id (JStr e) us =
  if e =? EmptyString then inl us
  else if negb (contains "@" e) || (String.length (strip e) <? 5)%nat
  then inr (Response 400 (error_body (JStr "Invalid email")))
  else if existsb (fun u => negb (id u =? user_id)%Z
                            && (lower (email u) =? lower e)) us
  then inr (Response 409 (error_body (JStr "Another user with this email exists.")))
  else inl (assign user_id (set_email (strip e)) us).
Proof.
  unfold update_email. rewrite update_duplicate_check. simpl.
  destruct (e =? EmptyString); simpl; [reflexivity|].
  destruct (contains "@" e); simpl; [|reflexivity].
  destruct (String.length (strip e) <? 5)%nat; simpl; [reflexivity|].
  destruct (existsb _ us); reflexivity.
Qed.

(** When the email part goes through, the email was falsy or a string. *)
Lemma update_email_inl user_id em us us' :
  update_email user_id em us = inl us' ->
  (truthy em = false /\ us' = us)
  \/ (exists s, em = JStr s /\ truthy em = true
               /\ contains "@" s = true /\ 5 <= String.length (strip s)
               /\ (forall u, In u us -> id u <> user_id ->
                             lower (email u) <> lower s)
               /\ us' = assign user_id (set_email (strip s)) us).
Proof.
  destruct em as [|b|z|f|s|l|d].
  - intros H. injection H as <-. left. auto.
  - destruct b; [discriminate|]. intros H. injection H as <-. left. auto.
  - destruct z; [|discriminate|discriminate].
    intros H. injection H as <-. left. auto.
  - unfold update_email. destruct f; simpl; try discriminate.
    intros H. injection H as <-. left. auto.
  - rewrite update_email_str.
    destruct (s =? EmptyString) eqn:E.
    + intros H. injection H as <-. left. simpl. rewrite E. auto.
    + destruct (contains "@" s) eqn:C; simpl; [|discriminate].
      destruct (String.length (strip s) <? 5)%nat eqn:L; [discriminate|].
      destruct (existsb _ us) eqn:X; [discriminate|].
      intros H. injection H as <-. right. exists s.
      apply Nat.ltb_ge in L. simpl. rewrite E.
      repeat split; try assumption; try reflexivity.
      intros u Hu Hne Heq.
      rewrite existsb_false_iff in X. specialize (X u Hu). simpl in X.
      apply Z.eqb_neq in Hne. rewrite Hne, Heq, String.eqb_refl in X.
      discriminate.
  - unfold update_email. destruct l as [|x l]; simpl.
    + intros H. injection H as <-. left. auto.
    + destruct (is_at x || existsb is_at l); simpl; discriminate.
  - unfold update_email. destruct d as [|[k v] d]; simpl.
    + intros H. injection H as <-. left. auto.
    + destruct ((k =? "@") || existsb (fun kv => fst kv =? "@") d); simpl;
        discriminate.
Qed.

(** When the email part ends the request, it is with 400, 409 or an
    exception. *)
Lemma update_email_inr user_id em us o :
  update_email user_id em us = inr o ->
  o = Response 400 (error_body (JStr "Invalid email"))
  \/ o = Response 409 (error_body (JStr "Another user with this email exists."))
  \/ exists e, o = Unhandled e.
Proof.
  destruct em as [|b|z|f|s|l|d].
  - discriminate.
  - destruct b; [|discriminate]. intros H. injection H as <-. eauto.
  - destruct z; [discriminate| |]; intros H; injection H as <-; eauto.
  - destruct f; try discriminate; intros H; injection H as <-; eauto.
  - rewrite update_email_str.
    destruct (s =? EmptyString); [discriminate|].
    destruct (negb (contains "@" s) || (String.length (strip s) <? 5)%nat).
    + intros H. injection H as <-. auto.
    + destruct (existsb _ us); [|discriminate].
      intros H. injection H as <-. auto.
  - unfold update_email. destruct l as [|x l]; [discriminate|]. simpl.
    destruct (is_at x || existsb is_at l); simpl;
      intros H; injection H as <-; eauto.
  - unfold update_email. destruct d as [|[k v] d]; [discriminate|]. simpl.
    destruct ((k =? "@") || existsb (fun kv => fst kv =? "@") d); simpl;
      intros H; injection H as <-; eauto.
Qed.

Lemma assign_same us user_id :
  assign user_id (fun u => u) us = us.
Proof.
  induction us as [|u r IH]; simpl; [reflexivity|].
  destruct (id u =? user_id)%Z; [reflexivity|rewrite IH; reflexivity].
Qed.

(** [update_user] on a non-empty dictionary, for an id that is present. *)
Lemma update_user_dict now user_id d st u :
  find_user (users st) user_id = Some u -> d <> [] ->
  update_user now user_id (JDict d) st =
  match update_name user_id
          (match dict_get d "name" with Some x => x | None => JNull end)
          (users st) with
  | inr o => (o, st)
  | inl us1 =>
      match update_email user_id
              (match dict_get d "email" with Some x => x | None => JNull end)
              us1 with
      | inr o => (o, {| users := us1; data_file := data_file st |})
      | inl us2 =>
          let us3 := assign user_id (set_updated_at now) us2 in
          (Response 200
             (JDict [("message", JStr "User updated");
                     ("user", match find_user us3 user_id with
                              | Some user => user_to_dict user
                              | None => JNull
                              end)]),
           {| users := us3; data_file := Some (json_dump us3) |})
      end
  end.
Proof.
  intros Hf Hd. unfold update_user. rewrite Hf.
  destruct d as [|kv d]; [congruence|]. reflexivity.
Qed.

(** The record and the state a successful update leaves, from the two
    functions [fn] and [fe] that the name part and the email part apply. *)
Lemma update_result now user_id us u (fn fe : user -> user) :
  find_user us user_id = Some u ->
  (forall v, id (fn v) = id v) -> (forall v, id (fe v) = id v) ->
  let u' := set_updated_at now (fe (fn u)) in
  let us3 := assign user_id (set_updated_at now)
               (assign user_id fe (assign user_id fn us)) in
  find_user us3 user_id = Some u' /\ us3 = assign user_id (fun _ => u') us.
Proof.
  intros Hf Hn He u' us3. unfold us3. split.
  - rewrite !find_user_assign by (auto; reflexivity).
    rewrite Hf. reflexivity.
  - rewrite assign_assign by exact He.
    rewrite assign_assign by exact Hn.
    apply (assign_found (fun v => set_updated_at now (fe (fn v)))). exact Hf.
Qed.



(** ** Frame *)

(** Whatever its outcome, [create_user] leaves the list as it is or appends
    one record, whose id is [next_id] of the list. *)
Lemma create_user_appends now payload st :
  users (snd (create_user now payload st)) = users st
  \/ exists n e,
       let new_user := mkUser (next_id (users st)) n e now None in
       fst (create_user now payload st)
       = Response 201 (JDict [("message", JStr "User created");
                              ("user", user_to_dict new_user)])
       /\ users (snd (create_user now payload st)) = users st ++ [new_user].
Proof.
  unfold create_user.
  destruct (validate_user_payload payload true) as [[[|] m]|e];
    [|left; reflexivity|left; reflexivity].
  destruct (any_if _ (users st)) as [[|]|e];
    [left; reflexivity| |left; reflexivity].
  destruct (py_getitem payload "name") as [nv|e]; cbn [bind];
    [|left; reflexivity].
  destruct (py_strip nv) as [n|e]; cbn [bind]; [|left; reflexivity].
  destruct (py_getitem payload "email") as [ev|e]; cbn [bind];
    [|left; reflexivity].
  destruct (py_strip ev) as [e'|e]; cbn [bind]; [|left; reflexivity].
  right. exists n, e'. split; reflexivity.
Qed.

(** [f] changes neither the id nor the creation time of a record. *)
Definition keeps (f : user -> user) : Prop :=
  forall v, id (f v) = id v /\ created_at (f v) = created_at v.

Lemma assign_changed f us user_id i v v' :
  nth_error us i = Some v ->
  nth_error (assign user_id f us) i = Some v' ->
  v' <> v ->
  find_user us user_id = Some v /\ v' = f v.
Proof.
  unfold find_user. revert i.
  induction us as [|w r IH]; intros [|i] H H' Hne; simpl in *; try discriminate.
  - injection H as ->.
    destruct (id v =? user_id)%Z; simpl in H'; injection H' as <-;
      [auto|congruence].
  - destruct (id w =? user_id)%Z eqn:E; simpl in H'.
    + congruence.
    + exact (IH i H H' Hne).
Qed.

Lemma update_name_assigns user_id nm us us1 :
  update_name user_id nm us = inl us1 ->
  exists f, keeps f /\ us1 = assign user_id f us.
Proof.
  destruct (update_name_cases user_id nm us)
    as [[_ E]|[(s & _ & _ & _ & E)|(_ & _ & E)]]; rewrite E; intros H.
  - injection H as <-. exists (fun v => v). rewrite assign_same.
    split; [split; reflexivity|reflexivity].
  - injection H as <-. exists (set_name (strip s)).
    split; [split; reflexivity|reflexivity].
  - discriminate.
Qed.

Lemma update_email_assigns user_id em us us2 :
  update_email user_id em us = inl us2 ->
  exists f, keeps f /\ us2 = assign user_id f us.
Proof.
  intros H. apply update_email_inl in H.
  destruct H as [[_ ->]|(s & _ & _ & _ & _ & _ & ->)].
  - exists (fun v => v). rewrite assign_same.
    split; [split; reflexivity|reflexivity].
  - exists (set_email (strip s)). split; [split; reflexivity|reflexivity].
Qed.

(** Whatever its outcome, [update_user] leaves the list as it was up to an
    assignment to the record found. *)
Lemma update_user_assigns now user_id payload st :
  exists f, keeps f
    /\ users (snd (update_user now user_id payload st))
       = assign user_id f (users st).
Proof.
  assert (Hsame : exists f, keeps f /\ users st = assign user_id f (users st)).
  { exists (fun v => v). rewrite assign_same.
    split; [split; reflexivity|reflexivity]. }
  unfold update_user.
  destruct (find_user (users st) user_id) as [u|] eqn:Hf; [|exact Hsame].
  destruct (negb (truthy payload)); [exact Hsame|].
  destruct payload as [|b|z|f|s|l|d]; try exact Hsame.
  simpl py_get. cbv beta iota delta [bind].
  destruct (update_name user_id _ (users st)) as [us1|o] eqn:En; [|exact Hsame].
  apply update_name_assigns in En. destruct En as (fn & Kn & ->).
  destruct (update_email user_id _ _) as [us2|o] eqn:Ee.
  - apply update_email_assigns in Ee. destruct Ee as (fe & Ke & ->).
    exists (fun v => set_updated_at now (fe (fn v))). split.
    + intros v. destruct (Kn v) as [Hn1 Hn2]. destruct (Ke (fn v)) as [He1 He2].
      simpl. split; congruence.
    + simpl. rewrite assign_assign by (intros v; apply Ke).
      rewrite assign_assign by (intros v; apply Kn). reflexivity.
  - exists fn. split; [exact Kn|reflexivity].
Qed.

Lemma find_user_none_filter us user_id :
  find_user us user_id = None ->
  filter (fun u => negb (id u =? user_id)%Z) us = us.
Proof.
  unfold find_user. induction us as [|u r IH]; simpl; [reflexivity|].
  destruct (id u =? user_id)%Z; [discriminate|]. simpl.
  intros H. rewrite (IH H). reflexivity.
Qed.

Lemma filter_unique_id us user_id u :
  NoDup (map id us) -> find_user us user_id = Some u ->
  exists l1 l2, us = l1 ++ u :: l2
    /\ filter (fun v => negb (id v =? user_id)%Z) us = l1 ++ l2.
Proof.
  unfold find_user. induction us as [|w r IH]; simpl; [discriminate|].
  intros Hnd Hf. inversion Hnd as [|x xs Hnotin Hnd' Eq]; subst.
  destruct (id w =? user_id)%Z eqn:E.
  - injection Hf as ->. exists [], r. split; [reflexivity|]. simpl.
    apply Z.eqb_eq in E.
    assert (Hall : forall v, In v r -> negb (id v =? user_id)%Z = true).
    { intros v Hv. apply negb_true_iff, Z.eqb_neq. intros Hid.
      apply Hnotin. rewrite E, <- Hid. apply in_map. exact Hv. }
    clear -Hall. induction r as [|v r IH]; simpl; [reflexivity|].
    rewrite (Hall v (or_introl eq_refl)). rewrite IH; [reflexivity|].
    intros x Hx. apply Hall. right. exact Hx.
  - destruct (IH Hnd' Hf) as (l1 & l2 & -> & Hfl).
    exists (w :: l1), l2. split; [reflexivity|]. simpl. rewrite Hfl. reflexivity.
Qed.

(** The two ways [create_user] ends: with 201, the record of the answer
    appended and the file rewritten, or with another outcome and the state
    as it was. *)
Lemma create_user_cases now payload st :
  (exists n e,
     let new_user := mkUser (next_id (users st)) n e now None in
     create_user now payload st
     = (Response 201 (JDict [("message", JStr "User created");
                             ("user", user_to_dict new_user)]),
        {| users := users st ++ [new_user];
           data_file := Some (json_dump (users st ++ [new_user])) |}))
  \/ (snd (create_user now payload st) = st
      /\ forall body, fst (create_user now payload st) <> Response 201 body).
Proof.
  unfold create_user.
  destruct (validate_user_payload payload true) as [[[|] m]|e];
    [|right; split; [reflexivity|discriminate]
     |right; split; [reflexivity|discriminate]].
  destruct (any_if _ (users st)) as [[|]|e];
    [right; split; [reflexivity|discriminate]|
    |right; split; [reflexivity|discriminate]].
  destruct (py_getitem payload "name") as [nv|e]; cbn [bind];
    [|right; split; [reflexivity|discriminate]].
  destruct (py_strip nv) as [n|e]; cbn [bind];
    [|right; split; [reflexivity|discriminate]].
  destruct (py_getitem payload "email") as [ev|e]; cbn [bind];
    [|right; split; [reflexivity|discriminate]].
  destruct (py_strip ev) as [e'|e]; cbn [bind];
    [|right; split; [reflexivity|discriminate]].
  left. exists n, e'. reflexivity.
Qed.

(** C10. [create_user], when it answers 201, has appended the record of
    the answer at the end of the list, the records before it where and as
    they were; when it answers anything else the state is as it was; and it
    does answer 201 for a payload that passes validation and whose email no
    stored record has up to case.  [update_user] keeps the length of the
    list and every id and creation time, leaves every record with another
    id where and as it was, and a record that did change is the one
    [find_user] returns for the id.  [delete_user] keeps, in their order,
    exactly the records with another id; when ids are unique that removes
    the one record found. *)
Theorem mutations_frame (now : string) (user_id : Z) (payload : json) (st : state) :
  ((forall body, fst (create_user now payload st) = Response 201 body ->
      exists n e,
        let new_user := mkUser (next_id (users st)) n e now None in
        body = JDict [("message", JStr "User created");
                      ("user", user_to_dict new_user)]
        /\ users (snd (create_user now payload st)) = users st ++ [new_user])
   /\ ((forall body, fst (create_user now payload st) <> Response 201 body) ->
       snd (create_user now payload st) = st)
   /\ (forall d e, payload = JDict d ->
         dict_get d "email" = Some (JStr e) ->
         validate_user_payload payload true = Ret (true, None) ->
         (forall u, In u (users st) -> lower (email u) <> lower e) ->
         exists body, fst (create_user now payload st) = Response 201 body))
  /\ (let us' := users (snd (update_user now user_id payload st)) in
      List.length us' = List.length (users st)
      /\ map id us' = map id (users st)
      /\ map created_at us' = map created_at (users st)
      /\ (forall i v, nth_error (users st) i = Some v -> id v <> user_id ->
                      nth_error us' i = Some v)
      /\ (forall i v v', nth_error (users st) i = Some v ->
                         nth_error us' i = Some v' -> v' <> v ->
                         find_user (users st) user_id = Some v))
  /\ (let us' := users (snd (delete_user user_id st)) in
      us' = filter (fun v => negb (id v =? user_id)%Z) (users st)
      /\ (forall v, In v us' <-> In v (users st) /\ id v <> user_id)
      /\ (NoDup (map id (users st)) ->
          forall u, find_user (users st) user_id = Some u ->
          exists l1 l2, users st = l1 ++ u :: l2 /\ us' = l1 ++ l2)).
Proof.
  split; [|split].
  - split; [|split].
    + intros body Hb.
      destruct (create_user_cases now payload st) as [(n & e & H)|[_ H]].
      * rewrite H in Hb |- *. injection Hb as <-.
        exists n, e. split; reflexivity.
      * exfalso. exact (H body Hb).
    + intros Hnot.
      destruct (create_user_cases now payload st) as [(n & e & H)|[H _]];
        [|exact H].
      exfalso. apply (Hnot (JDict [("message", JStr "User created");
                                   ("user", user_to_dict
                                      (mkUser (next_id (users st)) n e now None))])).
      rewrite H. reflexivity.
    + intros d e -> He Hv Hfree.
      destruct (validate_true_inv _ _ Hv) as (d' & n & e' & Hd & Hn & He' & _).
      injection Hd as <-. rewrite He in He'. injection He' as <-.
      rewrite (create_user_accepts now d n e st Hv Hn He Hfree).
      eexists. reflexivity.
  - intros us'. destruct (update_user_assigns now user_id payload st)
      as (f & Kf & Hus). fold us' in Hus. rewrite Hus.
    split; [apply assign_length|].
    split; [apply assign_ids; intros v; apply Kf|].
    split; [|split].
    + clear Hus. induction (users st) as [|w r IH]; simpl; [reflexivity|].
      destruct (id w =? user_id)%Z; simpl.
      * destruct (Kf w) as [_ ->]. reflexivity.
      * rewrite IH. reflexivity.
    + intros i v Hv Hne. apply assign_other; assumption.
    + intros i v v' Hv Hv' Hne.
      exact (proj1 (assign_changed f _ _ _ _ _ Hv Hv' Hne)).
  - intros us'.
    assert (Hus : us' = filter (fun v => negb (id v =? user_id)%Z) (users st)).
    { unfold us', delete_user.
      destruct (find_user (users st) user_id) eqn:Hf; [reflexivity|].
      simpl. symmetry. apply find_user_none_filter. exact Hf. }
    split; [exact Hus|]. split.
    + intros v. rewrite Hus, filter_In, negb_true_iff, Z.eqb_neq. reflexivity.
    + intros Hnd u Hf. rewrite Hus. apply filter_unique_id; assumption.
Qed.

Lemma mutations_frame_witness :
  users (snd (create_user time1 bo (seeded time0 time0)))
  = [mkUser 1 "Aman" "aman@example.com" time0 None;
     mkUser 2 "Priya" "priya@example.com" time0 None;
     mkUser 3 "Bo" "bo@x.co" time1 None]
  /\ snd (create_user time1 bo_upper
            (snd (create_user time0 bo (seeded time0 time0))))
     = snd (create_user time0 bo (seeded time0 time0))
  /\ users (snd (delete_user 1 (seeded time0 time0)))
     = [mkUser 2 "Priya" "priya@example.com" time0 None]
  /\ nth_error (users (snd (update_user time1 1 bo (seeded time0 time0)))) 1
     = Some (mkUser 2 "Priya" "priya@example.com" time0 None).
Proof.
  destruct (mutations_frame time1 1 bo (seeded time0 time0)) as (Hcr & Hup & Hdel).
  split; [|split; [|split]].
  - destruct Hcr as (H201 & _ & Hdoes).
    destruct (Hdoes [("name", JStr "Bo"); ("email", JStr "bo@x.co")] "bo@x.co"
                eq_refl eq_refl eq_refl) as (body & Hbody).
    { intros u [<-|[<-|[]]]; vm_compute; discriminate. }
    destruct (H201 body Hbody) as (n & e & Hb & Hus).
    rewrite Hus. rewrite Hb in Hbody. vm_compute in Hbody.
    injection Hbody as <- <-. reflexivity.
  - destruct (mutations_frame time1 1 bo_upper
                (snd (create_user time0 bo (seeded time0 time0))))
      as ((_ & Hnot & _) & _ & _).
    apply Hnot. intros body Hb. vm_compute in Hb. discriminate.
  - destruct Hdel as (_ & _ & Hone).
    assert (Hnd : NoDup (map id (users (seeded time0 time0)))).
    { simpl. repeat constructor; simpl; intuition discriminate. }
    destruct (Hone Hnd (mkUser 1 "Aman" "aman@example.com" time0 None) eq_refl)
      as (l1 & l2 & Hsplit & ->).
    destruct l1 as [|w l1]; simpl in Hsplit.
    + injection Hsplit as <-. reflexivity.
    + injection Hsplit as <- Hrest.
      destruct l1 as [|w' l1]; simpl in Hrest; [discriminate|].
      injection Hrest as _ Hrest. destruct l1; discriminate.
  - destruct Hup as (_ & _ & _ & Hother & _).
    apply Hother; [reflexivity|discriminate].
Defined.

(** ** Persistence: reading back what was written *)

Lemma append_assoc (a b c : string) :
  ((a ++ b) ++ c = a ++ (b ++ c))%string.
Proof. induction a as [|x a IH]; simpl; [reflexivity|rewrite IH; reflexivity]. Qed.

Lemma length_append (a b : string) :
  String.length (a ++ b)%string = String.length a + String.length b.
Proof. induction a as [|x a IH]; simpl; [reflexivity|rewrite IH; reflexivity]. Qed.

(** The scanner reads an escaped character back as the character. *)
Lemma scanstring_escape_char (c : ascii) (r : string) :
  scanstring (escape_char c ++ r)%string = cons_char c (scanstring r).
Proof.
  destruct c as [[] [] [] [] [] [] [] []]; reflexivity.
Qed.

Lemma scanstring_escape (s rest : string) :
  scanstring (escape s ++ String dquote rest)%string = Decoded s rest.
Proof.
  induction s as [|c s IH]; simpl; [reflexivity|].
  rewrite append_assoc, scanstring_escape_char, IH. reflexivity.
Qed.

Lemma encode_str_app (s rest : string) :
  (encode_str s ++ rest)%string
  = String dquote (escape s ++ String dquote rest)%string.
Proof.
  unfold encode_str. simpl. rewrite append_assoc. reflexivity.
Qed.

Lemma scan_once_str (n : nat) (s rest : string) :
  scan_once (S n) (encode_str s ++ rest)%string = Decoded (JStr s) rest.
Proof.
  rewrite encode_str_app. simpl. rewrite scanstring_escape. reflexivity.
Qed.

(** A decimal numeral that starts with a digit other than 0. *)
Definition leading_nonzero (u : uint) : bool :=
  match u with
  | Nil | D0 _ => false
  | _ => true
  end.

Lemma pos_to_uint_leading (p : positive) :
  leading_nonzero (Pos.to_uint p) = true.
Proof.
  assert (Hn : unorm (Pos.to_uint p) = Pos.to_uint p).
  { rewrite <- DecimalPos.Unsigned.to_of, DecimalPos.Unsigned.of_to. reflexivity. }
  pose proof (DecimalPos.Unsigned.to_uint_nonzero p) as Hz.
  pose proof (DecimalPos.Unsigned.to_uint_nonnil p) as Hnil.
  destruct (Pos.to_uint p) as [|u| | | | | | | | | ]; try reflexivity.
  - congruence.
  - exfalso. rewrite unorm_D0 in Hn.
    assert (Hu : u = Nil \/ u <> Nil)
      by (destruct u; [left; reflexivity|right; discriminate..]).
    destruct Hu as [->|Hu]; [apply Hz; reflexivity|].
    pose proof (nb_digits_unorm u Hu) as Hd.
    rewrite Hn in Hd. simpl in Hd. lia.
Qed.

Lemma scan_digits_uint (u : uint) (rest : string) :
  starts_with_digit rest = false ->
  scan_digits (NilEmpty.string_of_uint u ++ rest)%string = (u, rest).
Proof.
  intros Hr. induction u; simpl; try (rewrite IHu; reflexivity).
  destruct rest as [|c r]; [reflexivity|]. simpl.
  unfold starts_with_digit, is_digit in Hr.
  destruct (digit_of c); [discriminate|reflexivity].
Qed.

(** The scanner reads the decimal text of an integer back, when a comma
    follows. *)
Lemma scan_once_int (n : nat) (z : Z) (rest : string) :
  scan_once (S n) (encode_int z ++ String "," rest)%string
  = Decoded (JInt z) (String "," rest).
Proof.
  unfold encode_int.
  rewrite <- (DecimalZ.of_to z) at 2.
  destruct z as [|p|p]; [reflexivity| |]; simpl Z.to_int;
    pose proof (pos_to_uint_leading p) as Hl;
    unfold NilZero.string_of_int, NilZero.string_of_uint;
    destruct (Pos.to_uint p) as [|u|u|u|u|u|u|u|u|u|u]; try discriminate;
    simpl; unfold scan_atom, scan_number; simpl;
    rewrite scan_digits_uint by reflexivity; reflexivity.
Qed.

(** What follows a value inside a list or a dict that [json_dump] wrote:
    a comma or a line break. *)
Definition delimited (t : string) : Prop :=
  exists r, t = String "," r \/ t = String newline r.

(** The scanner, given fuel [k] or more, reads the text [txt] back as the
    value [v] and stops at what follows; [txt] does not start with white
    space. *)
Definition reads (k : nat) (txt : string) (v : json) : Prop :=
  forall n t, k <= n -> delimited t ->
    skip_ws (txt ++ t)%string = (txt ++ t)%string
    /\ scan_once n (txt ++ t)%string = Decoded v t.

Lemma reads_weaken k k' txt v : k <= k' -> reads k txt v -> reads k' txt v.
Proof. intros Hk H n t Hn Ht. apply H; [lia|exact Ht]. Qed.

Lemma reads_str (s : string) : reads 1 (encode_str s) (JStr s).
Proof.
  intros n t Hn _. split; [reflexivity|].
  destruct n as [|n]; [lia|]. apply scan_once_str.
Qed.

Lemma scan_once_int_newline (n : nat) (z : Z) (rest : string) :
  scan_once (S n) (encode_int z ++ String newline rest)%string
  = Decoded (JInt z) (String newline rest).
Proof.
  unfold encode_int.
  rewrite <- (DecimalZ.of_to z) at 2.
  destruct z as [|p|p]; [reflexivity| |]; simpl Z.to_int;
    pose proof (pos_to_uint_leading p) as Hl;
    unfold NilZero.string_of_int, NilZero.string_of_uint;
    destruct (Pos.to_uint p) as [|u|u|u|u|u|u|u|u|u|u]; try discriminate;
    simpl; unfold scan_atom, scan_number; simpl;
    rewrite scan_digits_uint by reflexivity; reflexivity.
Qed.

Lemma encode_int_no_space (z : Z) (t : string) :
  skip_ws (encode_int z ++ t)%string = (encode_int z ++ t)%string.
Proof.
  unfold encode_int.
  destruct z as [|p|p]; [reflexivity| |reflexivity]. simpl Z.to_int.
  pose proof (pos_to_uint_leading p) as Hl.
  unfold NilZero.string_of_int, NilZero.string_of_uint.
  destruct (Pos.to_uint p); try discriminate; reflexivity.
Qed.

Lemma reads_int (z : Z) : reads 1 (encode_int z) (JInt z).
Proof.
  intros n t Hn (r & [->| ->]); (split; [apply encode_int_no_space|]);
    (destruct n as [|n]; [lia|]).
  - apply scan_once_int.
  - apply scan_once_int_newline.
Qed.

Lemma skip_ws_spaces (k : nat) (s : string) :
  skip_ws (spaces k ++ s)%string = skip_ws s.
Proof. induction k as [|k IH]; simpl; [reflexivity|exact IH]. Qed.

Lemma skip_ws_newline_indent (lvl : nat) (s : string) :
  skip_ws (newline_indent lvl ++ s)%string = skip_ws s.
Proof. unfold newline_indent. simpl. apply skip_ws_spaces. Qed.

(** The text of a dict item after the opening quote of its key, and the
    text that follows an item: the items left, then [close]. *)
Definition item_tail (kv : string * string) : string :=
  (escape (fst kv) ++ String dquote (": " ++ snd kv))%string.

Fixpoint obj_tail (lvl : nat) (items : list (string * string)) (close : string)
  : string :=
  match items with
  | [] => close
  | kv :: r =>
      String "," (newline_indent lvl
                  ++ String dquote (item_tail kv ++ obj_tail lvl r close))%string
  end.

Definition encode_item (kv : string * string) : string :=
  (encode_str (fst kv) ++ ": " ++ snd kv)%string.

Lemma encode_item_app (kv : string * string) (t : string) :
  (encode_item kv ++ t)%string = String dquote (item_tail kv ++ t)%string.
Proof.
  unfold encode_item, item_tail. rewrite append_assoc, encode_str_app.
  rewrite !append_assoc. reflexivity.
Qed.

Lemma join_items_app lvl kv items close :
  (join ("," ++ newline_indent lvl) (map encode_item (kv :: items)) ++ close)%string
  = String dquote (item_tail kv ++ obj_tail lvl items close)%string.
Proof.
  revert kv. induction items as [|kv' r IH]; intros kv.
  - simpl. apply encode_item_app.
  - change (join ("," ++ newline_indent lvl) (map encode_item (kv :: kv' :: r)))
      with (encode_item kv ++ ("," ++ newline_indent lvl)
            ++ join ("," ++ newline_indent lvl) (map encode_item (kv' :: r)))%string.
    rewrite !append_assoc, IH, encode_item_app. reflexivity.
Qed.

Lemma encode_dict_app lvl kv items rest :
  (encode_dict lvl (kv :: items) ++ rest)%string
  = String "{" (newline_indent (S lvl)
       ++ String dquote
            (item_tail kv
             ++ obj_tail (S lvl) items
                  (newline_indent lvl ++ String "}" rest)))%string.
Proof.
  unfold encode_dict.
  change (map (fun kv0 => encode_str (fst kv0) ++ ": " ++ snd kv0)%string (kv :: items))
    with (map encode_item (kv :: items)).
  change ("{" ++ ?x)%string with (String "{" x).
  change (String "{" ?x ++ ?y)%string with (String "{" (x ++ y)%string).
  f_equal. rewrite !append_assoc. f_equal.
  rewrite <- join_items_app. reflexivity.
Qed.

(** One item of a dict: the key, the colon, the value. *)
Lemma scan_object_step n k txt v T acc :
  reads 1 txt v -> delimited T ->
  scan_object (S (S n)) (item_tail (k, txt) ++ T)%string acc =
  match skip_ws T with
  | String c' r' =>
      if (nat_of_ascii c' =? 125)%nat
      then Decoded (JDict (dict_of_pairs (List.rev ((k, v) :: acc)))) r'
      else if (nat_of_ascii c' =? 44)%nat then
        match skip_ws r' with
        | String c'' r'' =>
            if (nat_of_ascii c'' =? 34)%nat
            then scan_object (S n) r'' ((k, v) :: acc)
            else DecodeError
        | EmptyString => DecodeError
        end
      else DecodeError
  | EmptyString => DecodeError
  end.
Proof.
  intros Hr HT. destruct (Hr (S n) T ltac:(lia) HT) as [Hws Hscan].
  unfold item_tail. cbn [fst snd].
  rewrite append_assoc.
  change (String dquote (": " ++ txt) ++ T)%string
    with (String dquote (String ":" (String " " (txt ++ T))))%string.
  remember (txt ++ T)%string as X eqn:EX.
  change (scan_object (S (S n)) ?s acc) with
    (match scanstring s with
     | Decoded key rest =>
         match skip_ws rest with
         | String c r =>
             if (nat_of_ascii c =? 58)%nat then
               match scan_once (S n) (skip_ws r) with
               | Decoded v rest' =>
                   match skip_ws rest' with
                   | String c' r' =>
                       if (nat_of_ascii c' =? 125)%nat
                       then Decoded (JDict (dict_of_pairs (List.rev ((key, v) :: acc)))) r'
                       else if (nat_of_ascii c' =? 44)%nat then
                         match skip_ws r' with
                         | String c'' r'' =>
                             if (nat_of_ascii c'' =? 34)%nat
                             then scan_object (S n) r'' ((key, v) :: acc)
                             else DecodeError
                         | EmptyString => DecodeError
                         end
                       else DecodeError
                   | EmptyString => DecodeError
                   end
               | DecodeError => DecodeError
               | Unmodelled => Unmodelled
               end
             else DecodeError
         | EmptyString => DecodeError
         end
     | DecodeError => DecodeError
     | Unmodelled => Unmodelled
     end).
  rewrite scanstring_escape.
  change (skip_ws (String ":" (String " " X))) with (String ":" (String " " X)).
  change (nat_of_ascii ":" =? 58)%nat with true. cbv iota.
  change (skip_ws (String " " X)) with (skip_ws X).
  rewrite Hws, Hscan. reflexivity.
Qed.

Lemma delimited_newline_indent lvl s : delimited (newline_indent lvl ++ s)%string.
Proof. eexists. right. reflexivity. Qed.

Lemma delimited_comma s : delimited (String "," s).
Proof. eexists. left. reflexivity. Qed.

(** The items of a dict, from the first key to the closing brace. *)
Lemma scan_object_items lvl close_lvl rest :
  forall items kv v vals acc n,
    reads 1 (snd kv) v ->
    Forall2 (fun kv v => reads 1 (snd kv) v) items vals ->
    List.length items + 2 <= n ->
    scan_object n
      (item_tail kv
       ++ obj_tail lvl items (newline_indent close_lvl ++ String "}" rest))%string
      acc
    = Decoded (JDict (dict_of_pairs
                        (List.rev acc ++ (fst kv, v) :: combine (map fst items) vals)))
        rest.
Proof.
  induction items as [|kv' r IH]; intros [k txt] v vals acc n Hr Hall Hn;
    inversion Hall as [|? v' ? vals' Hr' Hall']; subst;
    (destruct n as [|[|n]]; [simpl in Hn; lia|simpl in Hn; lia|]).
  - cbn [obj_tail].
    rewrite (scan_object_step n k txt v _ acc Hr (delimited_newline_indent _ _)).
    rewrite skip_ws_newline_indent. reflexivity.
  - cbn [obj_tail].
    rewrite (scan_object_step n k txt v _ acc Hr (delimited_comma _)).
    change (skip_ws (String "," ?x)) with (String "," x).
    change (nat_of_ascii "," =? 125)%nat with false.
    change (nat_of_ascii "," =? 44)%nat with true. cbv iota.
    rewrite skip_ws_newline_indent.
    change (skip_ws (String dquote ?x)) with (String dquote x).
    change (nat_of_ascii dquote =? 34)%nat with true. cbv iota.
    rewrite (IH kv' v' vals' ((k, v) :: acc) (S n) Hr' Hall')
      by (simpl in Hn; lia).
    cbn [List.rev fst map combine]. rewrite <- app_assoc. reflexivity.
Qed.

(** A dict of one item or more, of values the scanner reads with fuel 1. *)
Lemma reads_dict lvl kv items v vals :
  reads 1 (snd kv) v ->
  Forall2 (fun kv v => reads 1 (snd kv) v) items vals ->
  reads (List.length items + 3) (encode_dict lvl (kv :: items))
    (JDict (dict_of_pairs ((fst kv, v) :: combine (map fst items) vals))).
Proof.
  intros Hr Hall n t Hn Ht. rewrite encode_dict_app.
  split; [reflexivity|].
  destruct n as [|n]; [lia|].
  change (scan_once (S n) (String "{" ?r)) with
    (match skip_ws r with
     | String c' r' =>
         if (nat_of_ascii c' =? 125)%nat then Decoded (JDict []) r'
         else if (nat_of_ascii c' =? 34)%nat then scan_object n r' []
         else DecodeError
     | EmptyString => DecodeError
     end).
  rewrite skip_ws_newline_indent.
  change (skip_ws (String dquote ?x)) with (String dquote x).
  change (nat_of_ascii dquote =? 125)%nat with false.
  change (nat_of_ascii dquote =? 34)%nat with true. cbv iota.
  apply (scan_object_items _ _ _ items kv v vals [] n Hr Hall). lia.
Qed.

Lemma reads_user (u : user) : reads 7 (encode_user 1 u) (user_to_dict u).
Proof.
  unfold encode_user, user_to_dict.
  destruct (updated_at u) as [t|].
  - apply (reads_dict 1 ("id", encode_int (id u))
             [("name", encode_str (name u)); ("email", encode_str (email u));
              ("created_at", encode_str (created_at u));
              ("updated_at", encode_str t)]
             (JInt (id u))
             [JStr (name u); JStr (email u); JStr (created_at u); JStr t]).
    + apply reads_int.
    + repeat (apply Forall2_cons; [apply reads_str|]). apply Forall2_nil.
  - apply (reads_weaken 6); [lia|].
    apply (reads_dict 1 ("id", encode_int (id u))
             [("name", encode_str (name u)); ("email", encode_str (email u));
              ("created_at", encode_str (created_at u))]
             (JInt (id u))
             [JStr (name u); JStr (email u); JStr (created_at u)]).
    + apply reads_int.
    + repeat (apply Forall2_cons; [apply reads_str|]). apply Forall2_nil.
Qed.

(** The text that follows an item of a list: the items left, then
    [close]. *)
Fixpoint arr_tail (lvl : nat) (items : list string) (close : string) : string :=
  match items with
  | [] => close
  | x :: r => String "," (newline_indent lvl ++ x ++ arr_tail lvl r close)%string
  end.

Lemma join_app lvl x items close :
  (join ("," ++ newline_indent lvl) (x :: items) ++ close)%string
  = (x ++ arr_tail lvl items close)%string.
Proof.
  revert x. induction items as [|y r IH]; intros x; [reflexivity|].
  change (join ("," ++ newline_indent lvl) (x :: y :: r))
    with (x ++ ("," ++ newline_indent lvl)
          ++ join ("," ++ newline_indent lvl) (y :: r))%string.
  rewrite !append_assoc, IH. reflexivity.
Qed.

Lemma length_arr_tail lvl items close :
  List.length items + String.length close
  <= String.length (arr_tail lvl items close).
Proof.
  induction items as [|x r IH]; simpl; [lia|].
  rewrite !length_append. lia.
Qed.

(** The items of a list, from the first one to the closing bracket. *)
Lemma scan_array_items k lvl close_lvl rest :
  forall items x v vals acc n,
    reads k x v -> Forall2 (reads k) items vals ->
    k + List.length items + 1 <= n ->
    scan_array n
      (x ++ arr_tail lvl items (newline_indent close_lvl ++ String "]" rest))%string
      acc
    = Decoded (JList (List.rev acc ++ v :: vals)) rest.
Proof.
  induction items as [|y r IH]; intros x v vals acc n Hr Hall Hn;
    inversion Hall as [|? w ? vals' Hr' Hall']; subst;
    (destruct n as [|n]; [lia|]); simpl in Hn;
    change (scan_array (S n) ?s acc) with
      (match scan_once n s with
       | Decoded v rest =>
           match skip_ws rest with
           | String c r =>
               if (nat_of_ascii c =? 93)%nat
               then Decoded (JList (List.rev (v :: acc))) r
               else if (nat_of_ascii c =? 44)%nat
               then scan_array n (skip_ws r) (v :: acc)
               else DecodeError
           | EmptyString => DecodeError
           end
       | DecodeError => DecodeError
       | Unmodelled => Unmodelled
       end).
  - cbn [arr_tail].
    destruct (Hr n _ ltac:(lia) (delimited_newline_indent close_lvl (String "]" rest)))
      as [_ ->].
    rewrite skip_ws_newline_indent. reflexivity.
  - cbn [arr_tail].
    destruct (Hr n _ ltac:(lia)
                (delimited_comma (newline_indent lvl ++ y
                    ++ arr_tail lvl r (newline_indent close_lvl ++ String "]" rest))))
      as [_ ->].
    change (skip_ws (String "," ?s)) with (String "," s).
    change (nat_of_ascii "," =? 93)%nat with false.
    change (nat_of_ascii "," =? 44)%nat with true. cbv iota.
    rewrite skip_ws_newline_indent.
    assert (Hd : delimited (arr_tail lvl r (newline_indent close_lvl ++ String "]" rest))).
    { destruct r; [apply delimited_newline_indent|apply delimited_comma]. }
    destruct (Hr' n _ ltac:(lia) Hd) as [-> _].
    rewrite (IH y w vals' (v :: acc) n Hr' Hall') by lia.
    cbn [List.rev]. rewrite <- app_assoc. reflexivity.
Qed.

Lemma encode_user_head (u : user) (t : string) :
  exists r, (encode_user 1 u ++ t)%string = String "{" r
            /\ 1 <= String.length r.
Proof.
  unfold encode_user. cbn [List.app]. rewrite encode_dict_app.
  eexists. split; [reflexivity|].
  simpl. lia.
Qed.

Lemma Forall2_reads_users (us : list user) :
  Forall2 (reads 7) (map (encode_user 1) us) (map user_to_dict us).
Proof.
  induction us as [|u r IH]; simpl; constructor; [apply reads_user|exact IH].
Qed.

(** The text of a collection of one record or more. *)
Lemma json_dump_text (u : user) (r : list user) (rest : string) :
  (json_dump (u :: r) ++ rest)%string
  = String "["
      (newline_indent 1 ++ encode_user 1 u
       ++ arr_tail 1 (map (encode_user 1) r)
            (newline_indent 0 ++ String "]" rest))%string.
Proof.
  unfold json_dump, encode_list. cbn [map].
  change ("[" ++ ?x)%string with (String "[" x).
  change (String "[" ?x ++ ?y)%string with (String "[" (x ++ y)%string).
  rewrite !append_assoc, join_app. reflexivity.
Qed.

(** Scanning what [json_dump] wrote gives the dictionaries of the records
    back, in their order, whatever fuel above the number of records plus 8
    the scanner has. *)
Lemma scan_once_json_dump (us : list user) (n : nat) (rest : string) :
  List.length us + 8 <= n ->
  scan_once n (json_dump us ++ rest)%string
  = Decoded (JList (map user_to_dict us)) rest.
Proof.
  intros Hn. destruct n as [|n]; [lia|].
  destruct us as [|u r]; [reflexivity|].
  rewrite json_dump_text.
  change (scan_once (S n) (String "[" ?s)) with
    (match skip_ws s with
     | String c' r' =>
         if (nat_of_ascii c' =? 93)%nat then Decoded (JList []) r'
         else scan_array n (String c' r') []
     | EmptyString => DecodeError
     end).
  rewrite skip_ws_newline_indent.
  assert (Hd : delimited (arr_tail 1 (map (encode_user 1) r)
                            (newline_indent 0 ++ String "]" rest))).
  { destruct r; [apply delimited_newline_indent|apply delimited_comma]. }
  destruct (reads_user u n _ ltac:(simpl in Hn; lia) Hd) as [-> _].
  destruct (encode_user_head u (arr_tail 1 (map (encode_user 1) r)
                                  (newline_indent 0 ++ String "]" rest)))
    as (x & Hx & _).
  rewrite Hx.
  change (nat_of_ascii "{" =? 93)%nat with false. cbv iota.
  rewrite <- Hx.
  apply (scan_array_items 7 1 0 rest (map (encode_user 1) r) (encode_user 1 u)
           (user_to_dict u) (map user_to_dict r) [] n (reads_user u)
           (Forall2_reads_users r)).
  rewrite length_map. simpl in Hn. lia.
Qed.

Lemma append_empty (s : string) : (s ++ EmptyString)%string = s.
Proof. induction s as [|c s IH]; simpl; [reflexivity|rewrite IH; reflexivity]. Qed.

Lemma length_json_dump (us : list user) :
  us <> [] -> List.length us + 7 <= String.length (json_dump us).
Proof.
  destruct us as [|u r]; [congruence|]. intros _.
  rewrite <- (append_empty (json_dump (u :: r))), json_dump_text.
  destruct (encode_user_head u (arr_tail 1 (map (encode_user 1) r)
                                  (newline_indent 0 ++ String "]" EmptyString)))
    as (x & Hx & Hlen).
  pose proof (length_arr_tail 1 (map (encode_user 1) r)
                (newline_indent 0 ++ String "]" EmptyString)) as Ht.
  rewrite length_map in Ht.
  cbn [String.length]. rewrite !length_append.
  change (String.length (newline_indent 1)) with 3.
  change (String.length (newline_indent 0 ++ String "]" EmptyString)) with 2 in Ht.
  assert (He : 2 <= String.length (encode_user 1 u)).
  { destruct (encode_user_head u EmptyString) as (y & Hy & Hy1).
    rewrite append_empty in Hy. rewrite Hy. simpl. lia. }
  simpl List.length. lia.
Qed.

Lemma json_loads_json_dump (us : list user) :
  json_loads (json_dump us) = Decoded (JList (map user_to_dict us)) EmptyString.
Proof.
  destruct us as [|u r]; [reflexivity|].
  unfold json_loads.
  assert (Hws : skip_ws (json_dump (u :: r)) = json_dump (u :: r)).
  { rewrite <- (append_empty (json_dump (u :: r))), json_dump_text. reflexivity. }
  rewrite Hws.
  rewrite <- (append_empty (json_dump (u :: r))) at 2.
  rewrite scan_once_json_dump; [reflexivity|].
  pose proof (length_json_dump (u :: r) ltac:(discriminate)). lia.
Qed.

Lemma user_to_dict_inj (u v : user) : user_to_dict u = user_to_dict v -> u = v.
Proof.
  destruct u as [i n e c [t|]], v as [i' n' e' c' [t'|]]; unfold user_to_dict;
    simpl; intros H; injection H; intros; subst; try reflexivity; discriminate.
Qed.

Lemma map_user_to_dict_inj (us vs : list user) :
  map user_to_dict us = map user_to_dict vs -> us = vs.
Proof.
  revert vs. induction us as [|u r IH]; intros [|v vs] H; simpl in H;
    try discriminate; [reflexivity|].
  remember (user_to_dict u) as a eqn:Ea. remember (user_to_dict v) as b eqn:Eb.
  injection H as Hu Hr. subst a b.
  rewrite (user_to_dict_inj _ _ Hu), (IH _ Hr). reflexivity.
Qed.

Lemma load_data_saved (us : list user) (st : state) :
  load_data (save_data us st) = Some (JList (map user_to_dict us)).
Proof.
  unfold load_data, save_data. simpl. rewrite json_loads_json_dump. reflexivity.
Qed.

(** C7. For every collection of records, [load_data] after [save_data]
    returns the list of the dictionaries of the records, in their order;
    two collections with the same dictionaries in the same order are the
    same collection.  (Records are those of the embedding: integer id,
    texts over code points below 256.) *)
Theorem load_after_save (us : list user) (st : state) :
  load_data (save_data us st) = Some (JList (map user_to_dict us))
  /\ (forall vs, load_data (save_data vs st) = load_data (save_data us st) ->
                 vs = us).
Proof.
  split; [apply load_data_saved|].
  intros vs H. rewrite !load_data_saved in H. injection H as H.
  apply map_user_to_dict_inj. exact H.
Qed.

(** A successful update has rewritten the file from the list in memory. *)
Lemma update_user_saves now user_id payload st body st' :
  update_user now user_id payload st = (Response 200 body, st') ->
  data_file st' = Some (json_dump (users st')).
Proof.
  unfold update_user.
  destruct (find_user (users st) user_id) as [u|]; [|discriminate].
  destruct (negb (truthy payload)); [discriminate|].
  destruct payload as [|b|z|f|s|l|d]; try discriminate.
  simpl py_get. cbv beta iota delta [bind].
  destruct (update_name_cases user_id
              (match dict_get d "name" with Some x => x | None => JNull end)
              (users st))
    as [[_ E]|[(s & _ & _ & _ & E)|(_ & _ & E)]]; rewrite E;
    try discriminate;
    (destruct (update_email user_id _ _) as [us2|o] eqn:Ee;
     [intros H; injection H as _ <-; reflexivity
     |apply update_email_inr in Ee;
      destruct Ee as [->|[->|[e ->]]]; discriminate]).
Qed.

(** After a successful creation, update or deletion the file reads back
    as the collection in memory. *)
Lemma file_consistent_after_mutation now user_id payload st :
  (forall body st', create_user now payload st = (Response 201 body, st') ->
     load_data st' = Some (JList (map user_to_dict (users st'))))
  /\ (forall body st', update_user now user_id payload st = (Response 200 body, st') ->
     load_data st' = Some (JList (map user_to_dict (users st'))))
  /\ (forall body st', delete_user user_id st = (Response 200 body, st') ->
     load_data st' = Some (JList (map user_to_dict (users st')))).
Proof.
  split; [|split]; intros body st' H.
  - unfold create_user in H.
    destruct (validate_user_payload payload true) as [[[|] m]|e];
      try discriminate.
    destruct (any_if _ (users st)) as [[|]|e]; try discriminate.
    match type of H with
    | context [match ?c with Ret _ => _ | Raise _ => _ end] =>
        destruct c as [new_user|e]
    end; [|discriminate].
    injection H as _ <-. apply load_data_saved.
  - unfold load_data. rewrite (update_user_saves _ _ _ _ _ _ H).
    rewrite json_loads_json_dump. reflexivity.
  - unfold delete_user in H.
    destruct (find_user (users st) user_id); [|discriminate].
    injection H as _ <-. apply load_data_saved.
Qed.

(** ** A failed update *)

(** Email texts.  An update of a present record whose payload carries a
    valid name and a non-empty email text that is invalid, or that another
    record already has up to case, is answered 400 or 409; the name of the record
    in memory is by then the trimmed new name, its [updated_at] is what it
    was and the file is not rewritten.  When the trimmed name differs from
    the stored one the list in memory is no longer the one it was, and a
    file that held the collection before no longer reads back as the
    collection in memory. *)
Theorem update_user_not_atomic (now : string) (user_id : Z) (d : dict)
    (st : state) (u : user) (nm e : string) :
  find_user (users st) user_id = Some u ->
  dict_get d "name" = Some (JStr nm) ->
  nm <> EmptyString -> 2 <= String.length (strip nm) ->
  dict_get d "email" = Some (JStr e) ->
  e <> EmptyString ->
  (contains "@" e = false \/ String.length (strip e) < 5
   \/ exists v, In v (users st) /\ id v <> user_id
                /\ lower (email v) = lower e) ->
  exists status msg st',
    update_user now user_id (JDict d) st
    = (Response status (error_body (JStr msg)), st')
    /\ (status = 400%Z \/ status = 409%Z)
    /\ (contains "@" e = false \/ String.length (strip e) < 5 -> status = 400%Z)
    /\ (contains "@" e = true -> 5 <= String.length (strip e) -> status = 409%Z)
    /\ users st' = assign user_id (set_name (strip nm)) (users st)
    /\ find_user (users st') user_id = Some (set_name (strip nm) u)
    /\ name (set_name (strip nm) u) = strip nm
    /\ updated_at (set_name (strip nm) u) = updated_at u
    /\ data_file st' = data_file st
    /\ (strip nm <> name u -> users st' <> users st)
    /\ (strip nm <> name u -> data_file st = Some (json_dump (users st)) ->
        load_data st' = Some (JList (map user_to_dict (users st)))
        /\ load_data st' <> Some (JList (map user_to_dict (users st')))).
Proof.
  intros Hf Hn Hne Hln He Hee Hbad.
  assert (Hd : d <> []) by (intros ->; discriminate).
  rewrite (update_user_dict now user_id d st u Hf Hd), Hn, He.
  destruct (update_name_cases user_id (JStr nm) (users st))
    as [[Tn _]|[(s' & Hs' & _ & _ & En)|(_ & Hl & _)]].
  { simpl in Tn. apply negb_false_iff, String.eqb_eq in Tn. contradiction. }
  2:{ specialize (Hl nm eq_refl). lia. }
  injection Hs' as <-. rewrite En, update_email_str.
  apply String.eqb_neq in Hee. rewrite Hee.
  assert (Hfind : find_user (assign user_id (set_name (strip nm)) (users st)) user_id
                  = Some (set_name (strip nm) u)).
  { rewrite find_user_assign by reflexivity. rewrite Hf. reflexivity. }
  assert (Hdiff : strip nm <> name u ->
                  assign user_id (set_name (strip nm)) (users st) <> users st).
  { intros Hx. apply (assign_changes _ _ _ u Hf).
    intros Heq. apply Hx. rewrite <- Heq. reflexivity. }
  assert (Hfile : strip nm <> name u ->
            data_file st = Some (json_dump (users st)) ->
            load_data {| users := assign user_id (set_name (strip nm)) (users st);
                         data_file := data_file st |}
            = Some (JList (map user_to_dict (users st)))
            /\ load_data {| users := assign user_id (set_name (strip nm)) (users st);
                            data_file := data_file st |}
               <> Some (JList (map user_to_dict
                                 (assign user_id (set_name (strip nm)) (users st))))).
  { intros Hx Hsaved. unfold load_data. simpl data_file.
    rewrite Hsaved, json_loads_json_dump. split; [reflexivity|].
    intros Heq. injection Heq as Heq. apply map_user_to_dict_inj in Heq.
    apply (Hdiff Hx). symmetry. exact Heq. }
  destruct (negb (contains "@" e) || (String.length (strip e) <? 5)%nat) eqn:Einv.
  - exists 400%Z, "Invalid email". eexists. split; [reflexivity|].
    apply orb_true_iff in Einv.
    repeat match goal with |- _ /\ _ => split end; auto.
    intros Hc Hl. destruct Einv as [Einv|Einv].
    + rewrite Hc in Einv. discriminate.
    + apply Nat.ltb_lt in Einv. lia.
  - apply orb_false_iff in Einv. destruct Einv as [Ec El].
    apply negb_false_iff in Ec. apply Nat.ltb_ge in El.
    destruct Hbad as [Hc|[Hl|(v & Hv & Hvid & Hvm)]];
      [congruence|lia|].
    rewrite (existsb_assign _ (set_name (strip nm))) by reflexivity.
    assert (existsb (fun u0 => negb (id u0 =? user_id)%Z
                               && (lower (email u0) =? lower e)) (users st) = true) as ->.
    { apply existsb_exists. exists v. split; [exact Hv|].
      apply Z.eqb_neq in Hvid. rewrite Hvid, Hvm, String.eqb_refl. reflexivity. }
    exists 409%Z, "Another user with this email exists.". eexists.
    split; [reflexivity|].
    repeat match goal with |- _ /\ _ => split end; auto.
    intros [Hc|Hl]; [congruence|lia].
Qed.

Lemma update_user_not_atomic_witness :
  update_user time1 2
    (JDict [("name", JStr " Priya K "); ("email", JStr "AMAN@example.com")])
    (seeded time0 time0)
  = (Response 409 (error_body (JStr "Another user with this email exists.")),
     {| users := [ mkUser 1 "Aman" "aman@example.com" time0 None;
                   mkUser 2 "Priya K" "priya@example.com" time0 None ];
        data_file := Some (json_dump (sample_users time0 time0)) |}).
Proof.
  assert (Hlen : 2 <= String.length (strip " Priya K ")) by (vm_compute; lia).
  assert (Hdup : contains "@" "AMAN@example.com" = false
                 \/ String.length (strip "AMAN@example.com") < 5
                 \/ exists v, In v (users (seeded time0 time0)) /\ id v <> 2%Z
                              /\ lower (email v) = lower "AMAN@example.com").
  { right. right. exists (mkUser 1 "Aman" "aman@example.com" time0 None).
    split; [left; reflexivity|]. split; [discriminate|reflexivity]. }
  destruct (update_user_not_atomic time1 2
              [("name", JStr " Priya K "); ("email", JStr "AMAN@example.com")]
              (seeded time0 time0)
              (mkUser 2 "Priya" "priya@example.com" time0 None)
              " Priya K " "AMAN@example.com"
              eq_refl eq_refl ltac:(discriminate) Hlen eq_refl
              ltac:(discriminate) Hdup)
    as (status & msg & st' & Heq & _ & _ & H409 & Hus & _ & _ & _ & Hfile & _).
  rewrite Heq. rewrite (H409 eq_refl ltac:(vm_compute; lia)) in *.
  destruct st' as [us' file']. simpl in Hus, Hfile. subst us' file'.
  assert (Hmsg : msg = "Another user with this email exists.").
  { vm_compute in Heq. injection Heq as Heq. symmetry. exact Heq. }
  rewrite Hmsg. reflexivity.
Defined.

(** C9. The clause "returns an error (400 or 409)" fails for a truthy
    email that is invalid by being no string.  From the seeded collection,
    the update of record 1 with the name [" Aman K "] and the email [5]
    answers no status at all: the email check of line 157 has no
    [isinstance] guard, where the name check of line 152 has one, so
    ["@" not in 5] raises [TypeError].  What the claim says of the state
    holds there all the same: the name in memory is the trimmed new name,
    [updated_at] is not stamped, the file is the one written before and no
    longer reads back as the list in memory. *)
Theorem update_user_invalid_email_unhandled (now : string) :
  let payload := JDict [("name", JStr " Aman K "); ("email", JInt 5)] in
  let st' := snd (update_user now 1 payload (seeded time0 time0)) in
  fst (update_user now 1 payload (seeded time0 time0)) = Unhandled TypeError
  /\ (forall status body,
        fst (update_user now 1 payload (seeded time0 time0))
        <> Response status body)
  /\ users st' = [ mkUser 1 "Aman K" "aman@example.com" time0 None;
                   mkUser 2 "Priya" "priya@example.com" time0 None ]
  /\ users st' <> users (seeded time0 time0)
  /\ data_file st' = data_file (seeded time0 time0)
  /\ load_data st' = Some (JList (map user_to_dict (users (seeded time0 time0))))
  /\ load_data st' <> Some (JList (map user_to_dict (users st'))).
Proof.
  intros payload st'.
  assert (Hst : st' = {| users := [ mkUser 1 "Aman K" "aman@example.com" time0 None;
                                     mkUser 2 "Priya" "priya@example.com" time0 None ];
                         data_file := Some (json_dump (sample_users time0 time0)) |})
    by reflexivity.
  assert (Hload : load_data st'
                  = Some (JList (map user_to_dict (users (seeded time0 time0))))).
  { rewrite Hst. unfold load_data. cbn [data_file].
    rewrite json_loads_json_dump. reflexivity. }
  split; [reflexivity|]. split; [intros status body; discriminate|].
  split; [rewrite Hst; reflexivity|].
  split; [rewrite Hst; discriminate|].
  split; [rewrite Hst; reflexivity|].
  split; [exact Hload|].
  rewrite Hload, Hst. intros H.
  apply (f_equal (fun o => match o with Some (JList l) => l | _ => [] end)) in H.
  cbv beta iota in H. apply map_user_to_dict_inj in H. discriminate.
Qed.

(** ** Reachable states *)

(** Removing records keeps the ids of the records left distinct. *)
Lemma ids_distinct_filter (keep : user -> bool) (us : list user) :
  NoDup (map id us) -> NoDup (map id (filter keep us)).
Proof.
  intros Hnd. induction us as [|u r IH]; [exact Hnd|].
  simpl in Hnd. apply NoDup_cons_iff in Hnd. destruct Hnd as [Hfresh Hrest].
  simpl. destruct (keep u); [|exact (IH Hrest)].
  simpl. apply NoDup_cons_iff. split; [|exact (IH Hrest)].
  rewrite in_map_iff. intros (v & Hid & Hv).
  apply filter_In in Hv. apply Hfresh.
  rewrite <- Hid. apply in_map. exact (proj1 Hv).
Qed.

(** In every reachable state the ids are positive and pairwise distinct. *)
Lemma reachable_ids (st : state) :
  reachable st ->
  NoDup (map id (users st)) /\ Forall (fun i => (1 <= i)%Z) (map id (users st)).
Proof.
  induction 1 as [c1 c2|r st Hreach [Hnd Hpos]].
  - split.
    + simpl. repeat constructor; simpl; intuition discriminate.
    + simpl. repeat constructor; lia.
  - destruct r as [now payload|now user_id payload|user_id]; simpl handle.
    + destruct (create_user_appends now payload st) as [->|(n & e & _ & ->)];
        [split; assumption|].
      rewrite map_app. simpl map.
      assert (Hnew : forall i, In i (map id (users st)) ->
                               (i < next_id (users st))%Z).
      { intros i Hi. apply in_map_iff in Hi. destruct Hi as (u & <- & Hu).
        exact (proj1 (next_id_spec _ u Hu)). }
      split.
      * apply NoDup_app; [exact Hnd|repeat constructor; intros []|].
        intros i Hi [<-|[]]. specialize (Hnew _ Hi). lia.
      * apply Forall_app. split; [exact Hpos|]. constructor; [|constructor].
        destruct (users st) as [|u us] eqn:E; [simpl; lia|].
        specialize (Hnew (id u) (or_introl eq_refl)).
        inversion Hpos; subst. lia.
    + destruct (update_user_assigns now user_id payload st) as (f & Kf & ->).
      rewrite assign_ids by (intros v; apply Kf). split; assumption.
    + assert (Hus : users (snd (delete_user user_id st))
                    = filter (fun v => negb (id v =? user_id)%Z) (users st)).
      { unfold delete_user.
        destruct (find_user (users st) user_id) eqn:Hf; [reflexivity|].
        simpl. symmetry. apply find_user_none_filter. exact Hf. }
      rewrite Hus. split; [apply ids_distinct_filter; exact Hnd|].
      rewrite Forall_forall in *. intros i Hi. apply Hpos.
      apply in_map_iff in Hi. destruct Hi as (u & <- & Hu).
      apply filter_In in Hu. apply in_map. exact (proj1 Hu).
Qed.

(** ** When uniqueness of emails does hold *)

(** The email of a record up to case. *)
Definition email_key (u : user) : string := lower (email u).

Lemma emails_unique_NoDup (us : list user) :
  emails_unique us = true <-> NoDup (map email_key us).
Proof.
  induction us as [|u r IH]; simpl; [split; [constructor|reflexivity]|].
  rewrite andb_true_iff, negb_true_iff, NoDup_cons_iff, IH.
  assert (Hex : existsb (fun v => lower (email v) =? lower (email u)) r = false
                <-> ~ In (email_key u) (map email_key r)).
  { rewrite existsb_false_iff, in_map_iff. split.
    - intros H (v & Hk & Hv). specialize (H v Hv).
      unfold email_key in Hk. rewrite Hk, String.eqb_refl in H. discriminate.
    - intros H v Hv. apply String.eqb_neq. intros Hk. apply H.
      exists v. split; [exact Hk|exact Hv]. }
  rewrite Hex. reflexivity.
Qed.

Lemma assign_split f us user_id u :
  NoDup (map id us) -> find_user us user_id = Some u ->
  exists l1 l2,
    us = l1 ++ u :: l2
    /\ assign user_id f us = l1 ++ f u :: l2
    /\ forall v, In v (l1 ++ l2) -> id v <> user_id.
Proof.
  unfold find_user. induction us as [|w r IH]; simpl; [discriminate|].
  intros Hnd Hf. apply NoDup_cons_iff in Hnd. destruct Hnd as [Hfresh Hrest].
  destruct (id w =? user_id)%Z eqn:E.
  - injection Hf as ->. apply Z.eqb_eq in E.
    exists [], r. split; [reflexivity|]. split; [reflexivity|].
    intros v Hv Hid. apply Hfresh. rewrite E, <- Hid. apply in_map. exact Hv.
  - destruct (IH Hrest Hf) as (l1 & l2 & -> & Ha & Hother).
    exists (w :: l1), l2. split; [reflexivity|].
    split; [simpl; rewrite Ha; reflexivity|].
    intros v [<-|Hv]; [apply Z.eqb_neq; exact E|exact (Hother v Hv)].
Qed.

(** Assigning a new email to the record found keeps the emails distinct
    when no record with another id has that email. *)
Lemma email_keys_assign f us user_id u :
  NoDup (map id us) -> find_user us user_id = Some u ->
  NoDup (map email_key us) ->
  (forall v, In v us -> id v <> user_id -> email_key v <> email_key (f u)) ->
  NoDup (map email_key (assign user_id f us)).
Proof.
  intros Hids Hf Hkeys Hfree.
  destruct (assign_split f us user_id u Hids Hf) as (l1 & l2 & -> & -> & Hother).
  rewrite map_app in *. simpl map in *.
  apply NoDup_remove in Hkeys. destruct Hkeys as [Hrest _].
  apply (NoDup_Add (Add_app (email_key (f u)) (map email_key l1) (map email_key l2))).
  split; [exact Hrest|].
  rewrite <- map_app, in_map_iff. intros (v & Hk & Hv).
  apply (Hfree v); [|exact (Hother v Hv)|exact Hk].
  apply in_app_iff in Hv. apply in_app_iff.
  destruct Hv as [Hv|Hv]; [left; exact Hv|right; right; exact Hv].
Qed.

Lemma email_keys_assign_same f us user_id :
  (forall v, email (f v) = email v) ->
  map email_key (assign user_id f us) = map email_key us.
Proof.
  intros Hf. induction us as [|u r IH]; simpl; [reflexivity|].
  destruct (id u =? user_id)%Z; simpl.
  - unfold email_key. rewrite Hf. reflexivity.
  - rewrite IH. reflexivity.
Qed.

Lemma email_keys_filter (keep : user -> bool) (us : list user) :
  NoDup (map email_key us) -> NoDup (map email_key (filter keep us)).
Proof.
  intros Hnd. induction us as [|u r IH]; [exact Hnd|].
  simpl in Hnd. apply NoDup_cons_iff in Hnd. destruct Hnd as [Hfresh Hrest].
  simpl. destruct (keep u); [|exact (IH Hrest)].
  simpl. apply NoDup_cons_iff. split; [|exact (IH Hrest)].
  rewrite in_map_iff. intros (v & Hk & Hv).
  apply filter_In in Hv. apply Hfresh.
  rewrite <- Hk. apply in_map. exact (proj1 Hv).
Qed.

(** The email a request submits carries no white space around it. *)
Definition trimmed_email (r : request) : Prop :=
  match r with
  | CreateUser _ payload | UpdateUser _ _ payload =>
      forall e, py_get payload "email" = Ret (JStr e) -> strip e = e
  | DeleteUser _ => True
  end.

(** The duplicate checks do what they are there for on trimmed emails:
    a request whose email has no white space around it keeps the emails of
    the collection distinct up to case (ids being distinct, as they are in
    every reachable state). *)
Lemma emails_unique_step (r : request) (st : state) :
  NoDup (map id (users st)) ->
  emails_unique (users st) = true ->
  trimmed_email r ->
  emails_unique (users (snd (handle r st))) = true.
Proof.
  rewrite !emails_unique_NoDup. intros Hids Hkeys Htrim.
  destruct r as [now payload|now user_id payload|user_id]; simpl handle.
  - (* create *)
    unfold create_user.
    destruct (validate_user_payload payload true) as [[[|] m]|ex] eqn:Hv;
      try exact Hkeys.
    destruct (validate_true_inv _ _ Hv) as (d & n & e & -> & Hn & He & _).
    rewrite (create_duplicate_check d e _ He).
    destruct (existsb _ (users st)) eqn:Hdup; [exact Hkeys|].
    simpl. rewrite Hn, He. simpl.
    rewrite map_app. simpl map.
    specialize (Htrim e). simpl in Htrim. rewrite He in Htrim.
    rewrite (Htrim eq_refl).
    apply NoDup_app; [exact Hkeys|repeat constructor; intros []|].
    intros k Hk [<-|[]]. apply in_map_iff in Hk. destruct Hk as (v & Hvk & Hvin).
    rewrite existsb_false_iff in Hdup. specialize (Hdup v Hvin).
    unfold email_key in Hvk. simpl in Hvk.
    rewrite Hvk, String.eqb_refl in Hdup. discriminate.
  - (* update *)
    unfold update_user.
    destruct (find_user (users st) user_id) as [u|] eqn:Hf; [|exact Hkeys].
    destruct (negb (truthy payload)); [exact Hkeys|].
    destruct payload as [|b|z|f|s|l|d]; try exact Hkeys.
    simpl py_get. cbv beta iota delta [bind].
    destruct (update_name user_id _ (users st)) as [us1|o] eqn:En;
      [|exact Hkeys].
    assert (Hname : exists fn, (forall v, id (fn v) = id v)
                      /\ (forall v, email (fn v) = email v)
                      /\ us1 = assign user_id fn (users st)).
    { destruct (update_name_cases user_id
                  (match dict_get d "name" with Some x => x | None => JNull end)
                  (users st))
        as [[_ E]|[(s & _ & _ & _ & E)|(_ & _ & E)]];
        rewrite E in En; try discriminate; injection En as <-.
      - exists (fun v => v). rewrite assign_same. auto.
      - exists (set_name (strip s)). auto. }
    destruct Hname as (fn & Hfn_id & Hfn_email & ->).
    assert (Hkeys1 : NoDup (map email_key (assign user_id fn (users st))))
      by (rewrite email_keys_assign_same by exact Hfn_email; exact Hkeys).
    assert (Hids1 : NoDup (map id (assign user_id fn (users st))))
      by (rewrite assign_ids by exact Hfn_id; exact Hids).
    assert (Hf1 : find_user (assign user_id fn (users st)) user_id = Some (fn u))
      by (rewrite find_user_assign by exact Hfn_id; rewrite Hf; reflexivity).
    destruct (update_email user_id _ _) as [us2|o] eqn:Ee; [|exact Hkeys1].
    simpl users.
    rewrite email_keys_assign_same by reflexivity.
    apply update_email_inl in Ee.
    destruct Ee as [[_ ->]|(s & Hs & _ & _ & _ & Hfree & ->)]; [exact Hkeys1|].
    apply (email_keys_assign _ _ _ (fn u) Hids1 Hf1 Hkeys1).
    intros v Hv Hid. unfold email_key at 2. simpl email.
    specialize (Htrim s). simpl in Htrim. rewrite Hs in Htrim.
    rewrite (Htrim eq_refl). exact (Hfree v Hv Hid).
  - (* delete *)
    unfold delete_user.
    destruct (find_user (users st) user_id); [|exact Hkeys].
    simpl. apply email_keys_filter. exact Hkeys.
Qed.

(** ** What validation rejects *)

(** X18. The rejections of [validate_user_payload]: a payload that is not an
    object; a name that is absent, not a string, or shorter than two
    characters once trimmed; and, the name being accepted and the email
    required, an email that is absent or a string without ["@"] or shorter
    than five characters once trimmed. *)
Lemma validate_rejects (payload : json) (require_email : bool) :
  ((forall d, payload <> JDict d) ->
   validate_user_payload payload require_email
   = Ret (false, Some "Payload must be a JSON object."))
  /\ (forall d, payload = JDict d ->
      ((dict_get d "name" = None
        \/ (exists v, dict_get d "name" = Some v /\ is_str v = false)
        \/ (exists s, dict_get d "name" = Some (JStr s)
                      /\ String.length (strip s) < 2)) ->
       validate_user_payload payload require_email
       = Ret (false, Some "Field 'name' is required (min 2 chars)."))
      /\ (forall n, dict_get d "name" = Some (JStr n) ->
          2 <= String.length (strip n) ->
          require_email = true ->
          (dict_get d "email" = None
           \/ (exists s, dict_get d "email" = Some (JStr s)
                         /\ (contains "@" s = false
                             \/ String.length (strip s) < 5))) ->
          validate_user_payload payload require_email
          = Ret (false, Some "Field 'email' is required and must look like an email."))).
Proof.
  split.
  - intros H. destruct payload as [|b|z|f|s|l|d]; try reflexivity.
    exfalso. exact (H d eq_refl).
  - intros d ->. unfold validate_user_payload, py_get. split.
    + intros [Hn|[(v & Hn & Hv)|(s & Hn & Hl)]]; rewrite Hn; simpl.
      * reflexivity.
      * rewrite bad_name_not_str by exact Hv. reflexivity.
      * destruct (s =? EmptyString); simpl; [reflexivity|].
        apply Nat.ltb_lt in Hl. rewrite Hl. reflexivity.
    + intros n Hn Hl -> He. rewrite Hn. simpl.
      assert (Hne : (n =? EmptyString) = false).
      { destruct n; [simpl in Hl; lia|reflexivity]. }
      rewrite Hne. simpl.
      apply Nat.ltb_ge in Hl. rewrite Hl. simpl.
      destruct He as [He|(s & He & Hs)]; rewrite He; simpl; [reflexivity|].
      destruct (s =? EmptyString); simpl; [reflexivity|].
      destruct Hs as [Hc|Hs].
      * rewrite Hc. reflexivity.
      * destruct (contains "@" s); simpl; [|reflexivity].
        apply Nat.ltb_lt in Hs. rewrite Hs. reflexivity.
Qed.

(** ** A failed update, whatever ends it *)

(** X17. Once the name part has assigned the trimmed name, every outcome other
    than success, an exception of the email part included, leaves that
    name in memory and the file as it was. *)
Lemma update_user_failure_keeps_name now user_id d st u nm o st' :
  find_user (users st) user_id = Some u ->
  dict_get d "name" = Some (JStr nm) ->
  nm <> EmptyString -> 2 <= String.length (strip nm) ->
  update_user now user_id (JDict d) st = (o, st') ->
  (forall body, o <> Response 200 body) ->
  users st' = assign user_id (set_name (strip nm)) (users st)
  /\ data_file st' = data_file st.
Proof.
  intros Hf Hn Hne Hl Hup Hfail.
  assert (Hd : d <> []) by (intros ->; discriminate).
  rewrite (update_user_dict now user_id d st u Hf Hd), Hn in Hup.
  destruct (update_name_cases user_id (JStr nm) (users st))
    as [[Tn _]|[(s' & Hs' & _ & _ & En)|(_ & Hlt & _)]].
  - simpl in Tn. apply negb_false_iff, String.eqb_eq in Tn. contradiction.
  - injection Hs' as <-. rewrite En in Hup.
    destruct (update_email user_id _ _) as [us2|o'].
    + injection Hup as <- _. exfalso. exact (Hfail _ eq_refl).
    + injection Hup as _ <-. split; reflexivity.
  - specialize (Hlt nm eq_refl). lia.
Qed.

(** * The rest of the program *)

(** ** The routes map and start-up *)

(** [home] (lines 65-76) *)
Definition home : outcome :=
  Response 200
    (JDict [("message", JStr "User Management REST API");
            ("routes",
             JDict [("GET /users", JStr "list users (supports ?q=&page=&limit=)");
                    ("POST /users", JStr "create user");
                    ("GET /users/<id>", JStr "get user by id");
                    ("PUT /users/<id>", JStr "update user");
                    ("DELETE /users/<id>", JStr "delete user")])]).

(** The record a dictionary stands for: the inverse of [user_to_dict], on
    the dictionaries the program writes. *)
Definition dict_to_user (v : json) : option user :=
  match v with
  | JDict ((k1, JInt i) :: (k2, JStr n) :: (k3, JStr e) :: (k4, JStr c) :: rest) =>
      if (k1 =? "id") && (k2 =? "name") && (k3 =? "email") && (k4 =? "created_at")
      then match rest with
           | [] => Some (mkUser i n e c None)
           | [(k5, JStr t)] =>
               if k5 =? "updated_at" then Some (mkUser i n e c (Some t)) else None
           | _ => None
           end
      else None
  | _ => None
  end.

Fixpoint dicts_to_users (l : list json) : option (list user) :=
  match l with
  | [] => Some []
  | v :: r =>
      match dict_to_user v, dicts_to_users r with
      | Some u, Some us => Some (u :: us)
      | _, _ => None
      end
  end.

Definition users_of_json (v : json) : option (list user) :=
  match v with
  | JList l => dicts_to_users l
  | _ => None
  end.

(** Start-up (lines 52-61), from the file found: the collection is what
    [load_data] returns and, when that is falsy, the two sample users,
    which are saved at once.  [None] when what was loaded is not a list of
    user dictionaries the embedding has records for. *)
Definition startup (file : option string) (c1 c2 : string) : option state :=
  match load_data {| users := []; data_file := file |} with
  | None => None
  | Some v =>
      if negb (truthy v)
      then Some (save_data (sample_users c1 c2)
                   {| users := sample_users c1 c2; data_file := file |})
      else match users_of_json v with
           | Some us => Some {| users := us; data_file := file |}
           | None => None
           end
  end.

(** ** Facts on Python strings *)

Lemma lstrip_fixed (s : string) :
  match s with
  | EmptyString => True
  | String c _ => isspace c = false
  end -> lstrip s = s.
Proof. destruct s as [|c r]; simpl; [reflexivity|]. intros ->. reflexivity. Qed.

Lemma lstrip_head (s : string) :
  match lstrip s with
  | EmptyString => True
  | String c _ => isspace c = false
  end.
Proof.
  induction s as [|c r IH]; simpl; [exact I|].
  destruct (isspace c) eqn:E; [exact IH|exact E].
Qed.

Lemma rstrip_head (s : string) :
  match s with
  | EmptyString => True
  | String c _ => isspace c = false
  end ->
  match rstrip s with
  | EmptyString => True
  | String c _ => isspace c = false
  end.
Proof.
  destruct s as [|c r]; simpl; [trivial|]. intros H.
  destruct (rstrip r); [rewrite H|]; exact H.
Qed.

Lemma rstrip_rstrip (s : string) : rstrip (rstrip s) = rstrip s.
Proof.
  induction s as [|c r IH]; simpl; [reflexivity|].
  destruct (rstrip r) as [|c' r'] eqn:E.
  - destruct (isspace c) eqn:Ec; simpl; [reflexivity|]. rewrite Ec. reflexivity.
  - simpl. simpl in IH. rewrite IH. reflexivity.
Qed.

(** [strip] is idempotent. *)
Lemma strip_strip (s : string) : strip (strip s) = strip s.
Proof.
  unfold strip.
  rewrite (lstrip_fixed (rstrip (lstrip s)) (rstrip_head _ (lstrip_head s))).
  apply rstrip_rstrip.
Qed.

Lemma length_lower (s : string) : String.length (lower s) = String.length s.
Proof. induction s as [|c r IH]; simpl; [reflexivity|rewrite IH; reflexivity]. Qed.

Lemma prefix_same (s : string) : prefix s s = true.
Proof.
  induction s as [|c r IH]; simpl; [reflexivity|].
  destruct (ascii_dec c c) as [_|H]; [exact IH|congruence].
Qed.

Lemma contains_same (s : string) : contains s s = true.
Proof.
  destruct s as [|c r]; [reflexivity|].
  change (contains (String c r) (String c r))
    with (prefix (String c r) (String c r) || contains (String c r) r).
  rewrite prefix_same. reflexivity.
Qed.

Lemma contains_at_cons (c : ascii) (r : string) :
  contains "@" (String c r) = Ascii.eqb c "@" || contains "@" r.
Proof.
  change (contains "@" (String c r))
    with (prefix "@" (String c r) || contains "@" r).
  f_equal. destruct c as [[] [] [] [] [] [] [] []]; destruct r; reflexivity.
Qed.

Lemma space_not_at (c : ascii) : isspace c = true -> Ascii.eqb c "@" = false.
Proof.
  destruct c as [[] [] [] [] [] [] [] []]; intros H; try reflexivity;
    discriminate.
Qed.

Lemma contains_at_lstrip (s : string) :
  contains "@" (lstrip s) = contains "@" s.
Proof.
  induction s as [|c r IH]; [reflexivity|].
  cbn [lstrip]. destruct (isspace c) eqn:E; [|reflexivity].
  rewrite contains_at_cons, (space_not_at c E), IH. reflexivity.
Qed.

Lemma contains_at_rstrip (s : string) :
  contains "@" (rstrip s) = contains "@" s.
Proof.
  induction s as [|c r IH]; [reflexivity|].
  cbn [rstrip]. rewrite (contains_at_cons c r), <- IH.
  destruct (rstrip r) as [|c' r'].
  - destruct (isspace c) eqn:E.
    + rewrite (space_not_at c E). reflexivity.
    + rewrite contains_at_cons. reflexivity.
  - rewrite contains_at_cons. reflexivity.
Qed.

Lemma contains_at_strip (s : string) :
  contains "@" (strip s) = contains "@" s.
Proof. unfold strip. rewrite contains_at_rstrip. apply contains_at_lstrip. Qed.

(** ** Validation, exactly *)

(** X1. With the email required, validation accepts exactly the objects
    whose name is a string of two characters or more once trimmed and whose
    email is a string that holds ["@"] and has five characters or more once
    trimmed. *)
Theorem validate_accepts_iff (payload : json) :
  validate_user_payload payload true = Ret (true, None) <->
  exists d n e,
    payload = JDict d
    /\ dict_get d "name" = Some (JStr n)
    /\ dict_get d "email" = Some (JStr e)
    /\ 2 <= String.length (strip n)
    /\ contains "@" e = true
    /\ 5 <= String.length (strip e).
Proof.
  split.
  - intros H. destruct (validate_true_inv _ _ H)
      as (d & n & e & Hp & Hn & He & _ & Hln & _ & Hc & Hle & _).
    exists d, n, e. repeat split; assumption.
  - intros (d & n & e & -> & Hn & He & Hln & Hc & Hle).
    unfold validate_user_payload, py_get. rewrite Hn, He. simpl.
    assert (En : (n =? EmptyString) = false)
      by (destruct n; [simpl in Hln; lia|reflexivity]).
    assert (Ee : (e =? EmptyString) = false)
      by (destruct e; [discriminate|reflexivity]).
    apply Nat.ltb_ge in Hln. apply Nat.ltb_ge in Hle.
    rewrite En, Ee. simpl. rewrite Hln. simpl. rewrite Hc. simpl.
    rewrite Hle. reflexivity.
Qed.

(** The exception the email check of line 48 raises on a value, if any:
    [TypeError] from ["@" not in email] on a truthy boolean or number,
    [AttributeError] from [email.strip()] on a list that holds ["@"] or a
    dict that has the key ["@"]. *)
Definition email_check_raises (em : json) : option exn :=
  match em with
  | JBool true => Some TypeError
  | JInt z => if (z =? 0)%Z then None else Some TypeError
  | JFloat f => if truthy (JFloat f) then Some TypeError else None
  | JList l => if existsb is_at l then Some AttributeError else None
  | JDict d => if existsb (fun kv => fst kv =? "@") d then Some AttributeError else None
  | _ => None
  end.

Lemma validate_raises_inv (payload : json) (require_email : bool) (ex : exn) :
  validate_user_payload payload require_email = Raise ex ->
  require_email = true
  /\ exists d n em,
       payload = JDict d
       /\ dict_get d "name" = Some (JStr n)
       /\ 2 <= String.length (strip n)
       /\ dict_get d "email" = Some em
       /\ email_check_raises em = Some ex.
Proof.
  unfold validate_user_payload.
  destruct payload as [| | | | |l|d]; try discriminate.
  unfold py_get.
  destruct (dict_get d "name") as [nm|] eqn:Hn; simpl; [|discriminate].
  destruct nm as [|b|z|f|n|l|d'];
    try (rewrite bad_name_not_str by reflexivity; simpl; discriminate).
  simpl.
  destruct (n =? EmptyString) eqn:En; simpl; [discriminate|].
  destruct (String.length (strip n) <? 2)%nat eqn:Ln; simpl; [discriminate|].
  apply Nat.ltb_ge in Ln.
  destruct require_email; [|discriminate].
  destruct (dict_get d "email") as [em|] eqn:He; simpl; [|discriminate].
  intros H. split; [reflexivity|]. exists d, n, em.
  repeat split; try assumption; try reflexivity.
  destruct em as [|b|z|f|e|l|d']; simpl in H |- *; try discriminate.
  + destruct b; simpl in H; [congruence|discriminate].
  + destruct (z =? 0)%Z; simpl in H; [discriminate|congruence].
  + destruct f; simpl in H; try discriminate; congruence.
  + destruct (e =? EmptyString); simpl in H; [discriminate|].
    destruct (contains "@" e); simpl in H; [|discriminate].
    destruct (String.length (strip e) <? 5)%nat; discriminate.
  + destruct l as [|x l]; simpl in H; [discriminate|].
    simpl. destruct (is_at x || existsb is_at l); simpl in H;
      [congruence|discriminate].
  + destruct d' as [|[k v] d']; simpl in H; [discriminate|].
    simpl. destruct ((k =? "@") || existsb (fun kv => fst kv =? "@") d');
      simpl in H; [congruence|discriminate].
Qed.

(** X2. Validation raises only in the email check: exactly when the email
    is required, the payload is an object whose name is accepted, and the
    email is a truthy boolean or number ([TypeError]) or a list or dict
    holding ["@"] ([AttributeError]).  It never raises [KeyError]. *)
Theorem validate_raises_iff (payload : json) (require_email : bool) (ex : exn) :
  validate_user_payload payload require_email = Raise ex <->
  require_email = true
  /\ exists d n em,
       payload = JDict d
       /\ dict_get d "name" = Some (JStr n)
       /\ 2 <= String.length (strip n)
       /\ dict_get d "email" = Some em
       /\ email_check_raises em = Some ex.
Proof.
  split.
  - apply validate_raises_inv.
  - intros (-> & d & n & em & -> & Hn & Hl & He & Hr).
    unfold validate_user_payload, py_get. rewrite Hn, He. simpl.
    assert (En : (n =? EmptyString) = false)
      by (destruct n; [simpl in Hl; lia|reflexivity]).
    apply Nat.ltb_ge in Hl. rewrite En. simpl. rewrite Hl. simpl.
    destruct em as [|b|z|f|e|l|d']; simpl in Hr; try discriminate.
    + destruct b; [|discriminate]. injection Hr as <-. reflexivity.
    + destruct (z =? 0)%Z eqn:Ez; [discriminate|]. injection Hr as <-.
      simpl. rewrite Ez. reflexivity.
    + destruct f; try discriminate; injection Hr as <-; reflexivity.
    + destruct l as [|x l]; [discriminate|]. simpl in Hr |- *.
      destruct (is_at x || existsb is_at l); [|discriminate].
      injection Hr as <-. reflexivity.
    + destruct d' as [|[k v] d']; [discriminate|]. simpl in Hr |- *.
      destruct ((k =? "@") || existsb (fun kv => fst kv =? "@") d');
        [|discriminate].
      injection Hr as <-. reflexivity.
Qed.

Lemma email_check_raises_kind (em : json) (ex : exn) :
  email_check_raises em = Some ex -> ex = TypeError \/ ex = AttributeError.
Proof.
  destruct em as [|b|z|f|e|l|d]; simpl; try discriminate.
  - destruct b; [|discriminate]. intros H. injection H as <-. auto.
  - destruct (z =? 0)%Z; [discriminate|]. intros H. injection H as <-. auto.
  - destruct f; try discriminate; intros H; injection H as <-; auto.
  - destruct (existsb is_at l); [|discriminate]. intros H. injection H as <-. auto.
  - destruct (existsb _ d); [|discriminate]. intros H. injection H as <-. auto.
Qed.

(** The three messages of a failed validation. *)
Definition validation_messages : list string :=
  [ "Payload must be a JSON object.";
    "Field 'name' is required (min 2 chars).";
    "Field 'email' is required and must look like an email." ].

Lemma validate_false_msg (payload : json) (require_email : bool) err :
  validate_user_payload payload require_email = Ret (false, err) ->
  exists msg, err = Some msg /\ In msg validation_messages.
Proof.
  unfold validate_user_payload, validation_messages.
  destruct payload as [| | | | |l|d];
    try (intros H; injection H as <-; eexists; split;
         [reflexivity|left; reflexivity]).
  unfold py_get.
  destruct (dict_get d "name") as [nm|]; simpl;
    [|intros H; injection H as <-; eexists; split;
      [reflexivity|right; left; reflexivity]].
  destruct (por (negb (truthy nm)) _) as [[|]|ex]; simpl; try discriminate.
  - intros H; injection H as <-. eexists. split;
      [reflexivity|right; left; reflexivity].
  - destruct require_email; [|discriminate].
    destruct (por _ _) as [[|]|ex]; simpl; try discriminate.
    intros H; injection H as <-. eexists. split;
      [reflexivity|right; right; left; reflexivity].
Qed.

Lemma update_email_raise_kind user_id em us ex :
  update_email user_id em us = inr (Unhandled ex) ->
  ex = TypeError \/ ex = AttributeError.
Proof.
  destruct em as [|b|z|f|s|l|d].
  - discriminate.
  - destruct b; [|discriminate]. intros H. injection H as <-. auto.
  - destruct z; [discriminate| |]; intros H; injection H as <-; auto.
  - destruct f; try discriminate; intros H; injection H as <-; auto.
  - rewrite update_email_str.
    destruct (s =? EmptyString); [discriminate|].
    destruct (negb (contains "@" s) || (String.length (strip s) <? 5)%nat);
      [discriminate|].
    destruct (existsb _ us); discriminate.
  - unfold update_email. destruct l as [|x l]; [discriminate|]. simpl.
    destruct (is_at x || existsb is_at l); simpl; [|discriminate].
    intros H. injection H as <-. auto.
  - unfold update_email. destruct d as [|[k v] d]; [discriminate|]. simpl.
    destruct ((k =? "@") || existsb (fun kv => fst kv =? "@") d); simpl;
      [|discriminate].
    intros H. injection H as <-. auto.
Qed.

(** The email part of [update_user] on a truthy value that is no string:
    it raises where the check of validation raises, and answers 400
    otherwise. *)
Lemma update_email_not_str user_id em us :
  truthy em = true -> is_str em = false ->
  update_email user_id em us
  = inr (match email_check_raises em with
         | Some ex => Unhandled ex
         | None => Response 400 (error_body (JStr "Invalid email"))
         end).
Proof.
  destruct em as [|b|z|f|s|l|d]; try discriminate.
  - destruct b; [reflexivity|discriminate].
  - destruct z; [discriminate|reflexivity|reflexivity].
  - intros Ht _. unfold update_email. rewrite Ht.
    cbn [email_check_raises]. rewrite Ht. reflexivity.
  - intros Ht _. unfold update_email. destruct l as [|x l]; [discriminate Ht|].
    simpl. destruct (is_at x || existsb is_at l); reflexivity.
  - intros Ht _. unfold update_email.
    destruct d as [|[k v] d]; [discriminate Ht|].
    simpl. destruct ((k =? "@") || existsb (fun kv => fst kv =? "@") d);
      reflexivity.
Qed.

(** A failed update on such an email: whether the answer is 400 or the
    request ends with an exception, the trimmed name is assigned and the
    file is left as it was. *)
Lemma update_user_email_not_str now user_id d st u nm em :
  find_user (users st) user_id = Some u ->
  dict_get d "name" = Some (JStr nm) ->
  nm <> EmptyString -> 2 <= String.length (strip nm) ->
  dict_get d "email" = Some em ->
  truthy em = true -> is_str em = false ->
  update_user now user_id (JDict d) st
  = (match email_check_raises em with
     | Some ex => Unhandled ex
     | None => Response 400 (error_body (JStr "Invalid email"))
     end,
     {| users := assign user_id (set_name (strip nm)) (users st);
        data_file := data_file st |}).
Proof.
  intros Hf Hn Hne Hl He Ht Hs.
  assert (Hd : d <> []) by (intros ->; discriminate).
  rewrite (update_user_dict now user_id d st u Hf Hd), Hn, He.
  destruct (update_name_cases user_id (JStr nm) (users st))
    as [[Tn _]|[(s' & Hs' & _ & _ & En)|(_ & Hlt & _)]].
  - simpl in Tn. apply negb_false_iff, String.eqb_eq in Tn. contradiction.
  - injection Hs' as <-. rewrite En, (update_email_not_str _ _ _ Ht Hs).
    reflexivity.
  - specialize (Hlt nm eq_refl). lia.
Qed.

Lemma update_user_email_not_str_witness :
  update_user time1 1
    (JDict [("name", JStr "Aman K"); ("email", JList [JInt 1])])
    (seeded time0 time0)
  = (Response 400 (error_body (JStr "Invalid email")),
     {| users := [ mkUser 1 "Aman K" "aman@example.com" time0 None;
                   mkUser 2 "Priya" "priya@example.com" time0 None ];
        data_file := data_file (seeded time0 time0) |}).
Proof.
  assert (Hl : 2 <= String.length (strip "Aman K")) by (vm_compute; lia).
  exact (update_user_email_not_str time1 1
           [("name", JStr "Aman K"); ("email", JList [JInt 1])]
           (seeded time0 time0)
           (mkUser 1 "Aman" "aman@example.com" time0 None)
           "Aman K" (JList [JInt 1])
           eq_refl eq_refl ltac:(discriminate) Hl eq_refl eq_refl eq_refl).
Defined.

(** ** Outcomes of the handlers *)

(** X3. [create_user] either answers 201, appending one record with id
    [next_id] and rewriting the file, or leaves the list in memory and the
    file exactly as they were and answers 400 with one of the three
    validation messages, 409, or ends with [TypeError] or
    [AttributeError]; it never raises [KeyError]. *)
Theorem create_user_outcomes (now : string) (payload : json) (st : state) :
  (exists n e,
     let new_user := mkUser (next_id (users st)) n e now None in
     create_user now payload st
     = (Response 201 (JDict [("message", JStr "User created");
                             ("user", user_to_dict new_user)]),
        {| users := users st ++ [new_user];
           data_file := Some (json_dump (users st ++ [new_user])) |}))
  \/ (snd (create_user now payload st) = st
      /\ ((exists msg, In msg validation_messages
                       /\ fst (create_user now payload st)
                          = Response 400 (error_body (JStr msg)))
          \/ fst (create_user now payload st)
             = Response 409 (error_body (JStr "User with this email already exists."))
          \/ fst (create_user now payload st) = Unhandled TypeError
          \/ fst (create_user now payload st) = Unhandled AttributeError)).
Proof.
  unfold create_user.
  destruct (validate_user_payload payload true) as [[[|] m]|ex] eqn:Hv.
  - destruct (validate_true_inv _ _ Hv) as (d & n & e & -> & Hn & He & _).
    rewrite (create_duplicate_check d e _ He).
    destruct (existsb _ (users st)).
    + right. split; [reflexivity|]. right. left. reflexivity.
    + left. exists (strip n), (strip e). simpl. rewrite Hn, He. reflexivity.
  - right. split; [reflexivity|]. left.
    destruct (validate_false_msg _ _ _ Hv) as (msg & -> & Hin).
    exists msg. split; [exact Hin|reflexivity].
  - right. split; [reflexivity|]. right. right.
    destruct (validate_raises_inv _ _ _ Hv) as (_ & d & n & em & _ & _ & _ & _ & Hr).
    destruct (email_check_raises_kind _ _ Hr) as [-> | ->];
      [left|right]; reflexivity.
Qed.

(** X4. [update_user] answers 404 exactly when no record has the id, and
    then changes nothing, whatever the payload.  For a present id, a truthy
    payload that is not an object ends with [AttributeError] and changes
    nothing.  Its outcomes are 200, 400, 404, 409, [TypeError] and
    [AttributeError]. *)
Theorem update_user_outcomes (now : string) (user_id : Z) (payload : json)
    (st : state) :
  (find_user (users st) user_id = None <->
   fst (update_user now user_id payload st)
   = Response 404 (error_body (JStr "User not found")))
  /\ (find_user (users st) user_id = None ->
      snd (update_user now user_id payload st) = st)
  /\ (find_user (users st) user_id <> None ->
      truthy payload = true -> (forall d, payload <> JDict d) ->
      update_user now user_id payload st = (Unhandled AttributeError, st))
  /\ ((exists body, fst (update_user now user_id payload st) = Response 200 body)
      \/ fst (update_user now user_id payload st)
         = Response 404 (error_body (JStr "User not found"))
      \/ (exists msg, fst (update_user now user_id payload st)
                      = Response 400 (error_body (JStr msg)))
      \/ fst (update_user now user_id payload st)
         = Response 409 (error_body (JStr "Another user with this email exists."))
      \/ fst (update_user now user_id payload st) = Unhandled TypeError
      \/ fst (update_user now user_id payload st) = Unhandled AttributeError).
Proof.
  assert (Hcases :
    forall u, find_user (users st) user_id = Some u ->
    (exists body, fst (update_user now user_id payload st) = Response 200 body)
    \/ (exists msg, fst (update_user now user_id payload st)
                    = Response 400 (error_body (JStr msg)))
    \/ fst (update_user now user_id payload st)
       = Response 409 (error_body (JStr "Another user with this email exists."))
    \/ fst (update_user now user_id payload st) = Unhandled TypeError
    \/ fst (update_user now user_id payload st) = Unhandled AttributeError).
  { intros u Hf. unfold update_user. rewrite Hf.
    destruct (negb (truthy payload)); [right; left; eexists; reflexivity|].
    destruct payload as [|b|z|f|s|l|d];
      try (right; right; right; right; reflexivity).
    simpl py_get. cbv beta iota delta [bind].
    destruct (update_name_cases user_id
                (match dict_get d "name" with Some x => x | None => JNull end)
                (users st))
      as [[_ E]|[(s & _ & _ & _ & E)|(_ & _ & E)]]; rewrite E;
      try (right; left; eexists; reflexivity);
      (destruct (update_email user_id _ _) as [us2|o] eqn:Ee;
       [left; eexists; reflexivity|];
       destruct (update_email_inr _ _ _ _ Ee) as [->|[->|[ex ->]]];
       [right; left; eexists; reflexivity
       |right; right; left; reflexivity
       |destruct (update_email_raise_kind _ _ _ _ Ee) as [-> | ->];
        [right; right; right; left|right; right; right; right]; reflexivity]). }
  split; [|split; [|split]].
  - split.
    + intros Hf. unfold update_user. rewrite Hf. reflexivity.
    + intros H404. destruct (find_user (users st) user_id) as [u|] eqn:Hf;
        [|reflexivity].
      exfalso.
      destruct (Hcases u eq_refl) as [(b & H)|[(m & H)|[H|[H|H]]]];
        rewrite H in H404; discriminate.
  - intros Hf. unfold update_user. rewrite Hf. reflexivity.
  - intros Hf Ht Hnd. unfold update_user.
    destruct (find_user (users st) user_id); [|congruence].
    rewrite Ht. simpl negb. cbv iota.
    destruct payload as [|b|z|f|s|l|d]; try reflexivity.
    exfalso. exact (Hnd d eq_refl).
  - destruct (find_user (users st) user_id) as [u|] eqn:Hf.
    + destruct (Hcases u eq_refl) as [H|[H|[H|[H|H]]]]; auto 10.
    + right. left. unfold update_user. rewrite Hf. reflexivity.
Qed.

Lemma update_user_outcomes_witness :
  update_user time1 1 (JList [JInt 1]) (seeded time0 time0)
  = (Unhandled AttributeError, seeded time0 time0)
  /\ snd (update_user time1 7 (JList [JInt 1]) (seeded time0 time0))
     = seeded time0 time0.
Proof.
  destruct (update_user_outcomes time1 1 (JList [JInt 1]) (seeded time0 time0))
    as (_ & _ & H & _).
  destruct (update_user_outcomes time1 7 (JList [JInt 1]) (seeded time0 time0))
    as (_ & H' & _).
  split.
  - apply H; [discriminate|reflexivity|discriminate].
  - apply H'. reflexivity.
Defined.

(** ** Reading after writing *)

Lemma find_user_filter_self us user_id :
  find_user (filter (fun u => negb (id u =? user_id)%Z) us) user_id = None.
Proof.
  unfold find_user. induction us as [|u r IH]; simpl; [reflexivity|].
  destruct (id u =? user_id)%Z eqn:E; simpl; [exact IH|].
  rewrite E. exact IH.
Qed.

Lemma find_user_filter_other us user_id j :
  j <> user_id ->
  find_user (filter (fun u => negb (id u =? user_id)%Z) us) j = find_user us j.
Proof.
  intros Hj. unfold find_user. induction us as [|u r IH]; simpl; [reflexivity|].
  destruct (id u =? user_id)%Z eqn:E; simpl.
  - apply Z.eqb_eq in E.
    destruct (id u =? j)%Z eqn:Ej; [apply Z.eqb_eq in Ej; congruence|exact IH].
  - destruct (id u =? j)%Z; [reflexivity|exact IH].
Qed.

Lemma find_user_assign_other f us user_id j :
  (forall v, id (f v) = id v) -> j <> user_id ->
  find_user (assign user_id f us) j = find_user us j.
Proof.
  intros Hf Hj. unfold find_user. induction us as [|u r IH]; simpl; [reflexivity|].
  destruct (id u =? user_id)%Z eqn:E; simpl.
  - rewrite Hf. apply Z.eqb_eq in E.
    destruct (id u =? j)%Z eqn:Ej; [apply Z.eqb_eq in Ej; congruence|reflexivity].
  - destruct (id u =? j)%Z; [reflexivity|exact IH].
Qed.

Lemma find_user_appended us new_user j :
  find_user (us ++ [new_user]) j
  = match find_user us j with
    | Some u => Some u
    | None => if (id new_user =? j)%Z then Some new_user else None
    end.
Proof.
  unfold find_user. induction us as [|u r IH]; simpl; [reflexivity|].
  destruct (id u =? j)%Z; [reflexivity|exact IH].
Qed.

Lemma find_user_next_id us :
  find_user us (next_id us) = None.
Proof.
  destruct (find_user us (next_id us)) as [u|] eqn:Hf; [|reflexivity].
  apply find_user_id in Hf. destruct Hf as [Hid Hin].
  pose proof (proj1 (next_id_spec us u Hin)). lia.
Qed.

Lemma body_user_inj (m : string) (u v : user) :
  JDict [("message", JStr m); ("user", user_to_dict u)]
  = JDict [("message", JStr m); ("user", user_to_dict v)] ->
  u = v.
Proof.
  remember (user_to_dict u) as a eqn:Ea. remember (user_to_dict v) as b eqn:Eb.
  intros H. injection H as H. subst a b. apply user_to_dict_inj. exact H.
Qed.

(** X5. After [delete_user], whatever its answer, no record has the id:
    [get_user] answers 404 for it and a second [delete_user] answers 404
    and changes nothing; [get_user] for any other id answers what it
    answered before.  When no record has the id to begin with, the answer
    is 404 and nothing changes. *)
Theorem delete_user_then (user_id : Z) (st : state) :
  let st' := snd (delete_user user_id st) in
  find_user (users st') user_id = None
  /\ get_user user_id st' = Response 404 (error_body (JStr "User not found"))
  /\ delete_user user_id st'
     = (Response 404 (error_body (JStr "User not found")), st')
  /\ (forall j, j <> user_id -> get_user j st' = get_user j st)
  /\ (find_user (users st) user_id = None ->
      delete_user user_id st
      = (Response 404 (error_body (JStr "User not found")), st)).
Proof.
  intros st'.
  assert (Hus : users st' = filter (fun v => negb (id v =? user_id)%Z) (users st)).
  { unfold st', delete_user.
    destruct (find_user (users st) user_id) eqn:Hf; [reflexivity|].
    simpl. symmetry. apply find_user_none_filter. exact Hf. }
  assert (Hnone : find_user (users st') user_id = None)
    by (rewrite Hus; apply find_user_filter_self).
  split; [exact Hnone|]. split; [|split; [|split]].
  - unfold get_user. rewrite Hnone. reflexivity.
  - unfold delete_user. rewrite Hnone. reflexivity.
  - intros j Hj. unfold get_user. rewrite Hus.
    rewrite find_user_filter_other by exact Hj. reflexivity.
  - intros Hf. unfold delete_user. rewrite Hf. reflexivity.
Qed.

Lemma delete_user_then_witness :
  get_user 2 (snd (delete_user 1 (seeded time0 time0)))
  = Response 200 (user_to_dict (mkUser 2 "Priya" "priya@example.com" time0 None))
  /\ delete_user 9 (seeded time0 time0)
     = (Response 404 (error_body (JStr "User not found")), seeded time0 time0).
Proof.
  destruct (delete_user_then 1 (seeded time0 time0)) as (_ & _ & _ & Hother & _).
  destruct (delete_user_then 9 (seeded time0 time0)) as (_ & _ & _ & _ & Habsent).
  split.
  - rewrite (Hother 2%Z) by discriminate. reflexivity.
  - apply Habsent. reflexivity.
Defined.

(** X6. After a creation answered 201, [get_user] for the id in the answer
    returns the record in the answer, and [get_user] for any other id
    answers what it answered before. *)
Theorem get_user_after_create (now : string) (payload : json) (st st' : state)
    (body : json) :
  create_user now payload st = (Response 201 body, st') ->
  exists new_user,
    body = JDict [("message", JStr "User created");
                  ("user", user_to_dict new_user)]
    /\ id new_user = next_id (users st)
    /\ get_user (id new_user) st' = Response 200 (user_to_dict new_user)
    /\ (forall j, j <> id new_user -> get_user j st' = get_user j st).
Proof.
  intros Hc.
  destruct (create_user_appends now payload st) as [Hsame|(n & e & Hfst & Hsnd)].
  - exfalso. unfold create_user in Hc, Hsame.
    destruct (validate_user_payload payload true) as [[[|] m]|ex];
      try discriminate.
    destruct (any_if _ (users st)) as [[|]|ex]; try discriminate.
    match type of Hc with
    | context [match ?c with Ret _ => _ | Raise _ => _ end] =>
        destruct c as [new_user|ex]
    end; [|discriminate].
    simpl in Hsame.
    apply (f_equal (@List.length user)) in Hsame.
    rewrite length_app in Hsame. simpl in Hsame. lia.
  - rewrite Hc in Hfst, Hsnd. simpl in Hfst, Hsnd.
    injection Hfst as ->.
    exists (mkUser (next_id (users st)) n e now None).
    split; [reflexivity|]. split; [reflexivity|].
    unfold get_user. rewrite Hsnd. simpl id. split.
    + rewrite find_user_appended, find_user_next_id. simpl id.
      rewrite Z.eqb_refl. reflexivity.
    + intros j Hj. rewrite find_user_appended.
      destruct (find_user (users st) j); [reflexivity|].
      simpl id. apply not_eq_sym in Hj. apply Z.eqb_neq in Hj. rewrite Hj.
      reflexivity.
Qed.

Lemma get_user_after_create_witness :
  get_user 3 (snd (create_user time1 bo (seeded time0 time0)))
  = Response 200 (user_to_dict bo_user).
Proof.
  destruct (get_user_after_create time1 bo (seeded time0 time0)
              (snd (create_user time1 bo (seeded time0 time0)))
              (JDict [("message", JStr "User created");
                      ("user", user_to_dict bo_user)]) eq_refl)
    as (new_user & Hbody & Hid & Hget & _).
  apply body_user_inj in Hbody. subst new_user. exact Hget.
Defined.

(** X7. After an update answered 200, [get_user] for the id returns the
    record in the answer; and whatever the outcome of [update_user],
    [get_user] for any other id answers what it answered before. *)
Theorem get_user_after_update (now : string) (user_id : Z) (payload : json)
    (st : state) :
  (forall body st',
     update_user now user_id payload st = (Response 200 body, st') ->
     exists u',
       body = JDict [("message", JStr "User updated");
                     ("user", user_to_dict u')]
       /\ get_user user_id st' = Response 200 (user_to_dict u'))
  /\ (forall j, j <> user_id ->
      get_user j (snd (update_user now user_id payload st)) = get_user j st).
Proof.
  split.
  - intros body st' Hup.
    destruct (update_user_assigns now user_id payload st) as (f & Kf & Hus).
    rewrite Hup in Hus. simpl in Hus.
    unfold update_user in Hup.
    destruct (find_user (users st) user_id) as [u|] eqn:Hf; [|discriminate].
    destruct (negb (truthy payload)); [discriminate|].
    destruct payload as [|b|z|fl|s|l|d]; try discriminate.
    simpl py_get in Hup. cbv beta iota delta [bind] in Hup.
    destruct (update_name user_id _ (users st)) as [us1|o] eqn:En;
      [|destruct (update_name_cases user_id
                    (match dict_get d "name" with Some x => x | None => JNull end)
                    (users st))
          as [[_ E]|[(s & _ & _ & _ & E)|(_ & _ & E)]];
        rewrite E in En; try discriminate; injection En as <-; discriminate].
    destruct (update_email user_id _ us1) as [us2|o] eqn:Ee;
      [|apply update_email_inr in Ee;
        destruct Ee as [->|[->|[ex ->]]]; discriminate].
    injection Hup as <- <-.
    assert (Hfound : find_user (assign user_id f (users st)) user_id = Some (f u)).
    { rewrite find_user_assign by (intros v; apply Kf). rewrite Hf. reflexivity. }
    simpl users in Hus. unfold get_user. simpl users.
    rewrite Hus, Hfound. exists (f u). split; reflexivity.
  - intros j Hj.
    destruct (update_user_assigns now user_id payload st) as (f & Kf & Hus).
    unfold get_user. rewrite Hus.
    rewrite find_user_assign_other by (try (intros v; apply Kf); exact Hj).
    reflexivity.
Qed.

Lemma get_user_after_update_witness :
  get_user 2 (snd (update_user time1 1 bo (seeded time0 time0)))
  = Response 200 (user_to_dict (mkUser 2 "Priya" "priya@example.com" time0 None))
  /\ get_user 1 (snd (update_user time1 1 bo (seeded time0 time0)))
     = Response 200 (user_to_dict (mkUser 1 "Bo" "bo@x.co" time0 (Some time1))).
Proof.
  destruct (get_user_after_update time1 1 bo (seeded time0 time0)) as [Hok Hother].
  split.
  - rewrite (Hother 2%Z) by discriminate. reflexivity.
  - destruct (Hok _ _ eq_refl) as (u' & Hbody & Hget).
    apply body_user_inj in Hbody. subst u'. exact Hget.
Defined.

(** ** Invariants of the reachable states *)

Lemma find_user_unique us u :
  NoDup (map id us) -> In u us -> find_user us (id u) = Some u.
Proof.
  unfold find_user. induction us as [|w r IH]; simpl; [intros _ []|].
  intros Hnd Hin. apply NoDup_cons_iff in Hnd. destruct Hnd as [Hfresh Hrest].
  destruct Hin as [->|Hin]; [rewrite Z.eqb_refl; reflexivity|].
  destruct (id w =? id u)%Z eqn:E; [|exact (IH Hrest Hin)].
  exfalso. apply Z.eqb_eq in E. apply Hfresh. rewrite E. apply in_map. exact Hin.
Qed.

(** X8. In every reachable state the ids are positive and pairwise
    distinct, so [get_user] for the id of a stored record returns that
    record, and no stored record has the id [next_id] would assign. *)
Theorem reachable_ids_retrievable (st : state) :
  reachable st ->
  NoDup (map id (users st))
  /\ (forall u, In u (users st) ->
        (1 <= id u)%Z
        /\ (id u < next_id (users st))%Z
        /\ get_user (id u) st = Response 200 (user_to_dict u)).
Proof.
  intros Hr. destruct (reachable_ids st Hr) as [Hnd Hpos].
  split; [exact Hnd|]. intros u Hu. split; [|split].
  - rewrite Forall_forall in Hpos. apply Hpos. apply in_map. exact Hu.
  - exact (proj1 (next_id_spec _ u Hu)).
  - unfold get_user. rewrite (find_user_unique _ _ Hnd Hu). reflexivity.
Qed.

Lemma reachable_ids_retrievable_witness :
  get_user 3 (snd (handle (CreateUser time1 bo) (seeded time0 time0)))
  = Response 200 (user_to_dict bo_user).
Proof.
  destruct (reachable_ids_retrievable
              (snd (handle (CreateUser time1 bo) (seeded time0 time0)))
              (reachable_step _ _ (reachable_seeded time0 time0)))
    as [_ H].
  destruct (H bo_user) as (_ & _ & Hget); [|exact Hget].
  right. right. left. reflexivity.
Defined.

(** What validation asks of a name and an email holds of a record, on the
    texts as they are stored: no white space around them, two characters
    or more in the name, five or more and an ["@"] in the email. *)
Definition well_formed (u : user) : Prop :=
  2 <= String.length (name u) /\ strip (name u) = name u
  /\ 5 <= String.length (email u) /\ strip (email u) = email u
  /\ contains "@" (email u) = true.

Lemma well_formed_assign f us user_id :
  (forall v, well_formed v -> well_formed (f v)) ->
  Forall well_formed us -> Forall well_formed (assign user_id f us).
Proof.
  intros Hf. induction us as [|u r IH]; simpl; intros H; [constructor|].
  inversion H as [|? ? Hu Hr]; subst.
  destruct (id u =? user_id)%Z; constructor; auto.
Qed.

Lemma update_name_well_formed user_id nm us us1 :
  update_name user_id nm us = inl us1 ->
  Forall well_formed us -> Forall well_formed us1.
Proof.
  destruct (update_name_cases user_id nm us)
    as [[_ E]|[(s & _ & _ & Hl & E)|(_ & _ & E)]]; rewrite E; intros H;
    try discriminate; injection H as <-; [trivial|].
  apply well_formed_assign. intros v (_ & _ & He).
  split; [exact Hl|]. split; [apply strip_strip|exact He].
Qed.

Lemma update_email_well_formed user_id em us us2 :
  update_email user_id em us = inl us2 ->
  Forall well_formed us -> Forall well_formed us2.
Proof.
  intros H. apply update_email_inl in H.
  destruct H as [[_ ->]|(s & _ & _ & Hc & Hl & _ & ->)]; [trivial|].
  apply well_formed_assign. intros v (Hn1 & Hn2 & _).
  split; [exact Hn1|]. split; [exact Hn2|]. split; [exact Hl|].
  split; [apply strip_strip|]. simpl. rewrite contains_at_strip. exact Hc.
Qed.

(** X9. Every record of every reachable state satisfies what validation
    asks: its name has two characters or more, its email has five or more
    and holds ["@"], and neither has white space around it. *)
Theorem reachable_well_formed (st : state) :
  reachable st -> Forall well_formed (users st).
Proof.
  induction 1 as [c1 c2|r st Hreach IH].
  - repeat constructor; vm_compute; lia.
  - destruct r as [now payload|now user_id payload|user_id]; simpl handle.
    + unfold create_user.
      destruct (validate_user_payload payload true) as [[[|] m]|ex] eqn:Hv;
        try exact IH.
      destruct (validate_true_inv _ _ Hv)
        as (d & n & e & -> & Hn & He & _ & Hln & _ & Hc & Hle & _).
      rewrite (create_duplicate_check d e _ He).
      destruct (existsb _ (users st)); [exact IH|].
      simpl. rewrite Hn, He. simpl.
      apply Forall_app. split; [exact IH|]. constructor; [|constructor].
      split; [exact Hln|]. split; [apply strip_strip|]. split; [exact Hle|].
      split; [apply strip_strip|]. simpl. rewrite contains_at_strip. exact Hc.
    + unfold update_user.
      destruct (find_user (users st) user_id) as [u|]; [|exact IH].
      destruct (negb (truthy payload)); [exact IH|].
      destruct payload as [|b|z|f|s|l|d]; try exact IH.
      simpl py_get. cbv beta iota delta [bind].
      destruct (update_name user_id _ (users st)) as [us1|o] eqn:En;
        [|exact IH].
      pose proof (update_name_well_formed _ _ _ _ En IH) as H1.
      destruct (update_email user_id _ us1) as [us2|o] eqn:Ee; [|exact H1].
      pose proof (update_email_well_formed _ _ _ _ Ee H1) as H2.
      simpl. apply well_formed_assign; [|exact H2].
      intros v Hv. exact Hv.
    + unfold delete_user.
      destruct (find_user (users st) user_id); [|exact IH].
      simpl. rewrite Forall_forall in *. intros v Hv.
      apply filter_In in Hv. apply IH. exact (proj1 Hv).
Qed.

Lemma reachable_well_formed_witness :
  Forall well_formed
    (users (snd (handle (UpdateUser time1 2
                           (JDict [("name", JStr "  Priya K  ")]))
                   (seeded time0 time0)))).
Proof.
  apply reachable_well_formed. apply reachable_step. apply reachable_seeded.
Defined.

(** The states reached from the sample users by requests that all
    satisfy [ok]. *)
Inductive reachable_by (ok : request -> Prop) : state -> Prop :=
| reachable_by_seeded (c1 c2 : string) : reachable_by ok (seeded c1 c2)
| reachable_by_step (r : request) (st : state) :
    reachable_by ok st -> ok r -> reachable_by ok (snd (handle r st)).

Lemma reachable_by_reachable ok st : reachable_by ok st -> reachable st.
Proof.
  induction 1 as [c1 c2|r st _ IH _]; [apply reachable_seeded|].
  apply reachable_step. exact IH.
Qed.

(** X10. As long as every email submitted has no white space around it,
    no two records of a reachable state have the same email up to case:
    on such requests the duplicate checks of [create_user] and
    [update_user] keep the emails unique. *)
Theorem emails_unique_when_trimmed (st : state) :
  reachable_by trimmed_email st -> emails_unique (users st) = true.
Proof.
  induction 1 as [c1 c2|r st Hreach IH Hok]; [reflexivity|].
  apply emails_unique_step; [|exact IH|exact Hok].
  exact (proj1 (reachable_ids st (reachable_by_reachable _ _ Hreach))).
Qed.

Lemma emails_unique_when_trimmed_witness :
  emails_unique
    (users (snd (handle (CreateUser time1 bo_upper)
                   (snd (handle (CreateUser time1 bo) (seeded time0 time0))))))
  = true.
Proof.
  apply emails_unique_when_trimmed.
  apply reachable_by_step; [apply reachable_by_step|].
  - apply reachable_by_seeded.
  - intros e H. injection H as <-. reflexivity.
  - intros e H. injection H as <-. reflexivity.
Defined.

(** ** The file and the list in memory *)

(** The file reads back as the list in memory. *)
Definition file_in_step (st : state) : Prop :=
  load_data st = Some (JList (map user_to_dict (users st))).

(** [update_user] rewrites the file from the list in memory when it answers
    200 and leaves the file as it was otherwise. *)
Lemma update_user_file now user_id payload st :
  ((exists body, fst (update_user now user_id payload st) = Response 200 body)
   /\ data_file (snd (update_user now user_id payload st))
      = Some (json_dump (users (snd (update_user now user_id payload st)))))
  \/ data_file (snd (update_user now user_id payload st)) = data_file st.
Proof.
  unfold update_user.
  destruct (find_user (users st) user_id) as [u|]; [|right; reflexivity].
  destruct (negb (truthy payload)); [right; reflexivity|].
  destruct payload as [|b|z|f|s|l|d]; try (right; reflexivity).
  simpl py_get. cbv beta iota delta [bind].
  destruct (update_name user_id _ (users st)) as [us1|o]; [|right; reflexivity].
  destruct (update_email user_id _ us1) as [us2|o]; [|right; reflexivity].
  left. split; [eexists; reflexivity|reflexivity].
Qed.

(** X11. The file written at start-up reads back as the sample users, and
    every request keeps the file in step with the list in memory, except
    an update that is not answered 200 and yet changed the list. *)
Theorem file_in_step_kept (r : request) (st : state) :
  (forall c1 c2, file_in_step (seeded c1 c2))
  /\ (file_in_step st ->
      match r with
      | UpdateUser _ _ _ =>
          (exists body, fst (handle r st) = Response 200 body)
          \/ users (snd (handle r st)) = users st
      | _ => True
      end ->
      file_in_step (snd (handle r st))).
Proof.
  split; [intros c1 c2; apply load_data_saved|].
  intros Hst Hr. unfold file_in_step in *.
  destruct r as [now payload|now user_id payload|user_id]; simpl handle in *.
  - destruct (create_user now payload st) as [o st'] eqn:Hc.
    assert (Hs : st' = st \/ exists body, o = Response 201 body).
    { unfold create_user in Hc.
      destruct (validate_user_payload payload true) as [[[|] m]|ex];
        try (injection Hc as _ <-; left; reflexivity).
      destruct (any_if _ (users st)) as [[|]|ex];
        try (injection Hc as _ <-; left; reflexivity).
      match type of Hc with
      | context [match ?c with Ret _ => _ | Raise _ => _ end] =>
          destruct c as [new_user|ex]
      end; injection Hc as <- <-; [right; eexists; reflexivity|left; reflexivity]. }
    destruct Hs as [->|(body & ->)]; [exact Hst|].
    exact (proj1 (file_consistent_after_mutation now 0%Z payload st) _ _ Hc).
  - destruct (update_user_file now user_id payload st) as [[_ Hsaved]|Hfile].
    + unfold load_data. rewrite Hsaved, json_loads_json_dump. reflexivity.
    + destruct Hr as [(body & Hok)|Hsame].
      * destruct (update_user now user_id payload st) as [o st'] eqn:Hu.
        simpl in Hok. subst o.
        exact (proj1 (proj2 (file_consistent_after_mutation now user_id payload st))
                 _ _ Hu).
      * unfold load_data in *. rewrite Hfile, Hsame. exact Hst.
  - unfold delete_user.
    destruct (find_user (users st) user_id); [|exact Hst].
    apply load_data_saved.
Qed.

Lemma file_in_step_kept_witness :
  file_in_step (snd (handle (DeleteUser 1) (seeded time0 time0))).
Proof.
  destruct (file_in_step_kept (DeleteUser 1) (seeded time0 time0)) as [H0 Hstep].
  apply Hstep; [apply H0|exact I].
Defined.

(** ** Starting again *)

Lemma dict_to_user_of_user (u : user) : dict_to_user (user_to_dict u) = Some u.
Proof. destruct u as [i n e c [t|]]; reflexivity. Qed.

Lemma users_of_json_of_users (us : list user) :
  users_of_json (JList (map user_to_dict us)) = Some us.
Proof.
  simpl. induction us as [|u r IH]; [reflexivity|].
  cbn [map dicts_to_users]. rewrite dict_to_user_of_user, IH. reflexivity.
Qed.

(** X12. Start-up on a missing file, or on a file whose text does not
    parse, installs the two sample users and saves them.  Start-up on the
    file that [save_data] wrote for a collection restores that collection,
    in its order, unless the collection was empty: then the two sample
    users are installed again. *)
Theorem startup_restores (c1 c2 : string) :
  startup None c1 c2 = Some (seeded c1 c2)
  /\ (forall text, json_loads text = DecodeError ->
        startup (Some text) c1 c2 = Some (seeded c1 c2))
  /\ (forall us,
        startup (Some (json_dump us)) c1 c2
        = Some (match us with
                | [] => seeded c1 c2
                | _ => {| users := us; data_file := Some (json_dump us) |}
                end)).
Proof.
  split; [reflexivity|]. split.
  - intros text H. unfold startup, load_data. cbn [data_file].
    rewrite H. reflexivity.
  - intros us. unfold startup, load_data. cbn [data_file].
    rewrite json_loads_json_dump.
    destruct us as [|u r]; [reflexivity|].
    change (negb (truthy (JList (map user_to_dict (u :: r))))) with false.
    cbv iota. rewrite users_of_json_of_users. reflexivity.
Qed.

Lemma startup_restores_witness :
  startup (Some "not json") time0 time1 = Some (seeded time0 time1).
Proof.
  destruct (startup_restores time0 time1) as (_ & H & _).
  apply H. reflexivity.
Defined.

(** ** Pages *)

(** The data of page [page] with [limit] records a page (lines 94-96). *)
Definition page_slice (filtered : list user) (page limit : Z) : list user :=
  slice filtered ((page - 1) * limit) ((page - 1) * limit + limit).

Lemma get_users_page q_arg page limit st :
  (0 < limit)%Z ->
  get_users q_arg (IntText page) (IntText limit) st
  = Response 200
      (listing (Z.of_nat (List.length (search (query_of q_arg) (users st))))
         page (JInt limit)
         (page_slice (search (query_of q_arg) (users st)) page limit)).
Proof.
  intros Hl.
  assert (E : (limit >? 0)%Z = true) by (rewrite Z.gtb_ltb; apply Z.ltb_lt; exact Hl).
  assert (E0 : (limit =? 0)%Z = false) by (apply Z.eqb_neq; lia).
  unfold get_users, page_slice, limit_or_all, read_int. cbv beta iota zeta.
  rewrite E, E0. reflexivity.
Qed.

Lemma firstn_add {A : Type} (a b : nat) (l : list A) :
  firstn (a + b) l = firstn a l ++ firstn b (skipn a l).
Proof.
  revert l. induction a as [|a IH]; intros l; [reflexivity|].
  destruct l as [|x l]; simpl; [rewrite firstn_nil; reflexivity|].
  rewrite IH. reflexivity.
Qed.

Lemma pages_concat (filtered : list user) (limit : Z) (n : nat) :
  (0 < limit)%Z ->
  List.concat (map (fun p => page_slice filtered (Z.of_nat p) limit) (seq 1 n))
  = firstn (n * Z.to_nat limit) filtered.
Proof.
  intros Hl. induction n as [|n IH]; [reflexivity|].
  rewrite seq_S, map_app, concat_app, IH. cbn [List.concat map].
  rewrite List.app_nil_r.
  unfold page_slice. rewrite slice_forward by lia.
  replace (Z.to_nat ((Z.of_nat (1 + n) - 1) * limit)) with (n * Z.to_nat limit)
    by nia.
  rewrite <- firstn_add. f_equal. lia.
Qed.

(** X13. With a limit above zero the pages 1, 2, ... follow one another in
    the records found: the data of the first [n] pages, put end to end,
    are the first [n * limit] records found, so they are all the records
    found, each once and in order, as soon as [n * limit] reaches their
    number. *)
Theorem get_users_pages_cover (q_arg : option string) (limit : Z) (st : state)
    (n : nat) :
  (0 < limit)%Z ->
  let filtered := search (query_of q_arg) (users st) in
  (forall page,
     get_users q_arg (IntText page) (IntText limit) st
     = Response 200 (listing (Z.of_nat (List.length filtered)) page (JInt limit)
                       (page_slice filtered page limit)))
  /\ List.concat (map (fun p => page_slice filtered (Z.of_nat p) limit) (seq 1 n))
     = firstn (n * Z.to_nat limit) filtered
  /\ (List.length filtered <= n * Z.to_nat limit ->
      List.concat (map (fun p => page_slice filtered (Z.of_nat p) limit) (seq 1 n))
      = filtered).
Proof.
  intros Hl filtered. split; [|split].
  - intros page. apply get_users_page. exact Hl.
  - apply pages_concat. exact Hl.
  - intros Hn. rewrite pages_concat by exact Hl. apply firstn_all2. exact Hn.
Qed.

Lemma get_users_pages_cover_witness :
  List.concat (map (fun p => page_slice (numbered 25) (Z.of_nat p) 10) (seq 1 3))
  = numbered 25.
Proof.
  destruct (get_users_pages_cover None 10 {| users := numbered 25; data_file := None |} 3)
    as (_ & _ & H); [lia|].
  apply H. vm_compute. lia.
Defined.

(** X14. Whatever the page and the limit, the data [get_users] returns are
    a run of consecutive records of the records found, in their order;
    [total] is the number of records found; and when the query is not
    empty every record returned has it in its name or its email, up to
    case. *)
Theorem get_users_data_run (q_arg : option string) (page limit : Z) (st : state) :
  let filtered := search (query_of q_arg) (users st) in
  exists data before after,
    get_users q_arg (IntText page) (IntText limit) st
    = Response 200 (listing (Z.of_nat (List.length filtered)) page
                      (limit_or_all limit) data)
    /\ filtered = before ++ data ++ after
    /\ (query_of q_arg <> EmptyString ->
        forall u, In u data ->
          In u (users st)
          /\ (contains (query_of q_arg) (lower (name u)) = true
              \/ contains (query_of q_arg) (lower (email u)) = true)).
Proof.
  intros filtered.
  assert (Hmatch : forall data before after,
            filtered = before ++ data ++ after ->
            query_of q_arg <> EmptyString ->
            forall u, In u data ->
              In u (users st)
              /\ (contains (query_of q_arg) (lower (name u)) = true
                  \/ contains (query_of q_arg) (lower (email u)) = true)).
  { intros data before after Hsplit Hq u Hu.
    assert (Hin : In u filtered).
    { rewrite Hsplit. apply in_or_app. right. apply in_or_app. left. exact Hu. }
    unfold filtered, search in Hin.
    apply String.eqb_neq in Hq. rewrite Hq in Hin. simpl in Hin.
    apply filter_In in Hin. destruct Hin as [Hin Hm].
    split; [exact Hin|]. apply orb_true_iff. exact Hm. }
  unfold get_users, read_int. cbv beta iota zeta. fold filtered.
  destruct (limit >? 0)%Z.
  - set (a := Z.to_nat (slice_bound (Z.of_nat (List.length filtered))
                          ((page - 1) * limit))).
    set (k := Z.to_nat
                (slice_bound (Z.of_nat (List.length filtered))
                   ((page - 1) * limit + limit)
                 - slice_bound (Z.of_nat (List.length filtered))
                     ((page - 1) * limit))).
    exists (slice filtered ((page - 1) * limit) ((page - 1) * limit + limit)),
      (firstn a filtered), (skipn k (skipn a filtered)).
    assert (Hsplit : filtered
              = firstn a filtered
                ++ slice filtered ((page - 1) * limit) ((page - 1) * limit + limit)
                ++ skipn k (skipn a filtered)).
    { unfold slice. fold a k. rewrite firstn_skipn, firstn_skipn. reflexivity. }
    split; [reflexivity|]. split; [exact Hsplit|].
    exact (Hmatch _ _ _ Hsplit).
  - exists filtered, [], [].
    assert (Hsplit : filtered = [] ++ filtered ++ [])
      by (rewrite List.app_nil_r; reflexivity).
    split; [reflexivity|]. split; [exact Hsplit|].
    exact (Hmatch _ _ _ Hsplit).
Qed.

Lemma get_users_data_run_witness :
  exists data before after,
    get_users (Some "PRI") Absent Absent (seeded time0 time0)
    = Response 200 (listing 1 1 (JStr "all") data)
    /\ sample_users time0 time0 = before ++ data ++ after
    /\ forall u, In u data -> contains "pri" (lower (name u)) = true
                              \/ contains "pri" (lower (email u)) = true.
Proof.
  destruct (get_users_data_run (Some "PRI") 1 0 (seeded time0 time0))
    as (data & before & after & Heq & Hrun & Hmatch).
  assert (Hd : data = [mkUser 2 "Priya" "priya@example.com" time0 None]).
  { vm_compute in Heq. injection Heq as Heq.
    apply map_user_to_dict_inj. symmetry. exact Heq. }
  subst data.
  exists [mkUser 2 "Priya" "priya@example.com" time0 None],
    [mkUser 1 "Aman" "aman@example.com" time0 None], [].
  split; [reflexivity|]. split; [reflexivity|].
  intros u Hu. exact (proj2 (Hmatch ltac:(discriminate) u Hu)).
Defined.

(** ** Finding what was created *)

(** What an answer 201 of [create_user] tells. *)
Lemma create_user_created_inv now payload st body st' :
  create_user now payload st = (Response 201 body, st') ->
  exists d n e,
    payload = JDict d
    /\ dict_get d "name" = Some (JStr n)
    /\ dict_get d "email" = Some (JStr e)
    /\ 2 <= String.length (strip n)
    /\ contains "@" e = true
    /\ 5 <= String.length (strip e)
    /\ (forall u, In u (users st) -> lower (email u) <> lower e)
    /\ body = JDict [("message", JStr "User created");
                     ("user", user_to_dict
                                (mkUser (next_id (users st)) (strip n) (strip e)
                                   now None))]
    /\ st' = {| users := users st
                         ++ [mkUser (next_id (users st)) (strip n) (strip e)
                               now None];
                data_file :=
                  Some (json_dump
                          (users st
                           ++ [mkUser (next_id (users st)) (strip n) (strip e)
                                 now None])) |}.
Proof.
  intros Hc. unfold create_user in Hc.
  destruct (validate_user_payload payload true) as [[[|] m]|ex] eqn:Hv;
    try discriminate.
  destruct (validate_true_inv _ _ Hv)
    as (d & n & e & -> & Hn & He & _ & Hln & _ & Hat & Hle & _).
  rewrite (create_duplicate_check d e _ He) in Hc.
  destruct (existsb _ (users st)) eqn:Hdup; [discriminate|].
  simpl in Hc. rewrite Hn, He in Hc. simpl in Hc.
  injection Hc as <- <-.
  exists d, n, e. repeat split; try assumption.
  intros u Hu. rewrite existsb_false_iff in Hdup.
  apply String.eqb_neq. exact (Hdup u Hu).
Qed.

(** X15. A record just created is found by a search for the name or for
    the email it was submitted with, in any letter case of the stored
    text: after an answer 201, listing with [q] set to the submitted name
    (or email) and no pagination returns data that hold the new record. *)
Theorem get_users_finds_created (now : string) (payload : json)
    (st st' : state) (body : json) :
  create_user now payload st = (Response 201 body, st') ->
  exists n e new_user,
    py_getitem payload "name" = Ret (JStr n)
    /\ py_getitem payload "email" = Ret (JStr e)
    /\ body = JDict [("message", JStr "User created");
                     ("user", user_to_dict new_user)]
    /\ (forall q, q = n \/ q = e ->
          exists data,
            get_users (Some q) Absent Absent st'
            = Response 200
                (listing (Z.of_nat (List.length data)) 1 (JStr "all") data)
            /\ In new_user data).
Proof.
  intros Hc.
  destruct (create_user_created_inv _ _ _ _ _ Hc)
    as (d & n & e & -> & Hn & He & Hln & _ & Hle & _ & -> & ->).
  exists n, e, (mkUser (next_id (users st)) (strip n) (strip e) now None).
  simpl py_getitem. rewrite Hn, He.
  split; [reflexivity|]. split; [reflexivity|]. split; [reflexivity|].
  intros q Hq.
  exists (search (query_of (Some q))
            (users st ++ [mkUser (next_id (users st)) (strip n) (strip e) now None])).
  split; [reflexivity|].
  unfold search, query_of.
  assert (Hne : (lower (strip q) =? EmptyString) = false).
  { apply String.eqb_neq. intros H0.
    apply (f_equal String.length) in H0. rewrite length_lower in H0.
    simpl in H0. destruct Hq as [-> | ->]; lia. }
  rewrite Hne. simpl negb. cbv iota.
  apply filter_In. split; [apply in_or_app; right; left; reflexivity|].
  simpl name. simpl email.
  destruct Hq as [-> | ->]; rewrite contains_same;
    [reflexivity|apply orb_true_r].
Qed.

Lemma get_users_finds_created_witness :
  exists data,
    get_users (Some "bo@x.co") Absent Absent
      (snd (create_user time1 bo (seeded time0 time0)))
    = Response 200 (listing (Z.of_nat (List.length data)) 1 (JStr "all") data)
    /\ In bo_user data.
Proof.
  destruct (get_users_finds_created time1 bo (seeded time0 time0)
              (snd (create_user time1 bo (seeded time0 time0)))
              (JDict [("message", JStr "User created");
                      ("user", user_to_dict bo_user)]) eq_refl)
    as (n & e & new_user & Hn & He & Hbody & Hfind).
  apply body_user_inj in Hbody. subst new_user.
  injection He as <-.
  exact (Hfind "bo@x.co" (or_intror eq_refl)).
Defined.

(** ** Updating with the values a record has *)

Lemma set_same (u : user) : set_email (email u) (set_name (name u) u) = u.
Proof. destruct u; reflexivity. Qed.

(** X16. Submitting to [update_user] the name and the email a well-formed
    record already has is answered 200 and changes nothing but
    [updated_at]: the duplicate check leaves the record's own email out,
    so it only looks at the records with another id. *)
Theorem update_user_same_values (now : string) (user_id : Z) (st : state)
    (u : user) :
  find_user (users st) user_id = Some u ->
  well_formed u ->
  (forall v, In v (users st) -> id v <> user_id ->
             lower (email v) <> lower (email u)) ->
  update_user now user_id
    (JDict [("name", JStr (name u)); ("email", JStr (email u))]) st
  = (Response 200 (JDict [("message", JStr "User updated");
                          ("user", user_to_dict (set_updated_at now u))]),
     {| users := assign user_id (set_updated_at now) (users st);
        data_file :=
          Some (json_dump (assign user_id (set_updated_at now) (users st))) |}).
Proof.
  intros Hf (Hn1 & Hn2 & He1 & He2 & Hat) Hfree.
  rewrite (update_user_dict now user_id _ st u Hf) by discriminate.
  cbn [dict_get]. change ("name" =? "name") with true.
  change ("name" =? "email") with false. change ("email" =? "email") with true.
  cbv iota.
  destruct (update_name_cases user_id (JStr (name u)) (users st))
    as [[Tn _]|[(s & Hs & _ & _ & En)|(_ & Hl & _)]].
  - simpl in Tn. apply negb_false_iff, String.eqb_eq in Tn.
    rewrite Tn in Hn1. simpl in Hn1. lia.
  - injection Hs as <-. rewrite En, Hn2, update_email_str.
    assert (E0 : (email u =? EmptyString) = false).
    { apply String.eqb_neq. intros H0. rewrite H0 in He1. simpl in He1. lia. }
    assert (E5 : (String.length (strip (email u)) <? 5)%nat = false).
    { apply Nat.ltb_ge. rewrite He2. exact He1. }
    rewrite E0, Hat, E5. simpl negb. simpl orb. cbv iota.
    rewrite (existsb_assign _ (set_name (name u))) by reflexivity.
    assert (existsb (fun u0 => negb (id u0 =? user_id)%Z
                               && (lower (email u0) =? lower (email u)))
              (users st) = false) as ->.
    { apply existsb_false_iff. intros v Hv.
      destruct (id v =? user_id)%Z eqn:Ei; [reflexivity|]. simpl.
      apply String.eqb_neq. apply Hfree; [exact Hv|].
      apply Z.eqb_neq. exact Ei. }
    rewrite He2.
    destruct (update_result now user_id (users st) u (set_name (name u))
                (set_email (email u)) Hf) as [H1 H2]; try reflexivity.
    rewrite set_same in H1, H2.
    cbv zeta. rewrite H1, H2.
    rewrite <- (assign_found (set_updated_at now) _ _ _ Hf). reflexivity.
  - specialize (Hl (name u) eq_refl). rewrite Hn2 in Hl. lia.
Qed.

Lemma update_user_same_values_witness :
  fst (update_user time1 1
         (JDict [("name", JStr "Aman"); ("email", JStr "aman@example.com")])
         (seeded time0 time0))
  = Response 200 (JDict [("message", JStr "User updated");
                         ("user", user_to_dict
                                    (mkUser 1 "Aman" "aman@example.com" time0
                                       (Some time1)))]).
Proof.
  assert (Hwf : well_formed (mkUser 1 "Aman" "aman@example.com" time0 None))
    by (repeat split; vm_compute; lia).
  assert (Hfree : forall v, In v (users (seeded time0 time0)) -> id v <> 1%Z ->
             lower (email v)
             <> lower (email (mkUser 1 "Aman" "aman@example.com" time0 None))).
  { intros v [<-|[<-|[]]] Hid; [exfalso; apply Hid; reflexivity|discriminate]. }
  exact (f_equal fst
           (update_user_same_values time1 1 (seeded time0 time0)
              (mkUser 1 "Aman" "aman@example.com" time0 None) eq_refl Hwf Hfree)).
Defined.

Lemma validate_rejects_witness :
  validate_user_payload (JStr "Bo") true
  = Ret (false, Some "Payload must be a JSON object.")
  /\ validate_user_payload (JDict [("name", JStr " B ")]) true
     = Ret (false, Some "Field 'name' is required (min 2 chars).")
  /\ validate_user_payload (JDict [("name", JStr "Bo"); ("email", JStr "b.co")]) true
     = Ret (false, Some "Field 'email' is required and must look like an email.").
Proof.
  split; [|split].
  - destruct (validate_rejects (JStr "Bo") true) as [H _].
    apply H. discriminate.
  - destruct (validate_rejects (JDict [("name", JStr " B ")]) true) as [_ H].
    destruct (H _ eq_refl) as [Hname _].
    apply Hname. right. right. exists " B ". split; [reflexivity|].
    vm_compute. lia.
  - destruct (validate_rejects
                (JDict [("name", JStr "Bo"); ("email", JStr "b.co")]) true)
      as [_ H].
    destruct (H _ eq_refl) as [_ Hemail].
    apply (Hemail "Bo"); [reflexivity|vm_compute; lia|reflexivity|].
    right. exists "b.co". split; [reflexivity|left; reflexivity].
Defined.

Lemma update_user_failure_keeps_name_witness :
  users (snd (update_user time1 2
                (JDict [("name", JStr "Priya K"); ("email", JInt 5)])
                (seeded time0 time0)))
  = assign 2 (set_name (strip "Priya K")) (users (seeded time0 time0))
  /\ fst (update_user time1 2
            (JDict [("name", JStr "Priya K"); ("email", JInt 5)])
            (seeded time0 time0))
     = Unhandled TypeError.
Proof.
  split; [|reflexivity].
  apply (update_user_failure_keeps_name time1 2
           [("name", JStr "Priya K"); ("email", JInt 5)]
           (seeded time0 time0)
           (mkUser 2 "Priya" "priya@example.com" time0 None)
           "Priya K" (Unhandled TypeError)
           (snd (update_user time1 2
                   (JDict [("name", JStr "Priya K"); ("email", JInt 5)])
                   (seeded time0 time0))));
    try reflexivity; try discriminate.
  vm_compute. lia.
Defined.

(** ** Creating and deleting in a row *)

Lemma next_id_appended (us : list user) (u : user) :
  id u = next_id us -> next_id (us ++ [u]) = (next_id us + 1)%Z.
Proof.
  intros Hid.
  assert (Hin : In u (us ++ [u])) by (apply in_or_app; right; left; reflexivity).
  destruct (next_id_spec (us ++ [u]) u Hin) as (Hlt & v & Hv & Heq).
  apply in_app_or in Hv. destruct Hv as [Hv|[<-|[]]].
  - pose proof (proj1 (next_id_spec us v Hv)). lia.
  - lia.
Qed.

Lemma filter_next_id (us : list user) :
  filter (fun v => negb (id v =? next_id us)%Z) us = us.
Proof. apply find_user_none_filter. apply find_user_next_id. Qed.

(** X19. Two creations in a row that are both answered 201 assign
    consecutive ids: the second record gets the id of the first plus one. *)
Theorem create_user_consecutive_ids (now1 now2 : string) (p1 p2 : json)
    (st st1 st2 : state) (body1 body2 : json) :
  create_user now1 p1 st = (Response 201 body1, st1) ->
  create_user now2 p2 st1 = (Response 201 body2, st2) ->
  exists u1 u2,
    body1 = JDict [("message", JStr "User created"); ("user", user_to_dict u1)]
    /\ body2 = JDict [("message", JStr "User created"); ("user", user_to_dict u2)]
    /\ id u2 = (id u1 + 1)%Z
    /\ users st2 = users st ++ [u1; u2].
Proof.
  intros H1 H2.
  destruct (create_user_created_inv _ _ _ _ _ H1)
    as (d1 & n1 & e1 & _ & _ & _ & _ & _ & _ & _ & -> & ->).
  destruct (create_user_created_inv _ _ _ _ _ H2)
    as (d2 & n2 & e2 & _ & _ & _ & _ & _ & _ & _ & -> & ->).
  do 2 eexists. split; [reflexivity|]. split; [reflexivity|].
  cbn [users id]. split.
  - apply next_id_appended. reflexivity.
  - rewrite <- app_assoc. reflexivity.
Qed.

Lemma create_user_consecutive_ids_witness :
  map id (users (snd (create_user time1 bo_upper
                        (snd (create_user time1
                                (JDict [("name", JStr "Al"); ("email", JStr "al@x.co")])
                                (seeded time0 time0))))))
  = [1; 2; 3; 4]%Z.
Proof.
  destruct (create_user_consecutive_ids time1 time1
              (JDict [("name", JStr "Al"); ("email", JStr "al@x.co")]) bo_upper
              (seeded time0 time0) _ _ _ _ eq_refl eq_refl)
    as (u1 & u2 & Hb1 & Hb2 & Hid & Hus).
  apply body_user_inj in Hb1.
  transitivity (map id (users (seeded time0 time0) ++ [u1; u2])).
  - apply (f_equal (map id)). exact Hus.
  - rewrite map_app. cbn [map]. rewrite Hid, <- Hb1. reflexivity.
Defined.

(** X20. Deleting the record a creation has just added gives the list
    before the creation back, and the file then holds that list. *)
Theorem delete_after_create_restores (now : string) (payload : json)
    (st st' : state) (body : json) :
  create_user now payload st = (Response 201 body, st') ->
  snd (delete_user (next_id (users st)) st')
  = {| users := users st; data_file := Some (json_dump (users st)) |}.
Proof.
  intros Hc.
  destruct (create_user_created_inv _ _ _ _ _ Hc)
    as (d & n & e & _ & _ & _ & _ & _ & _ & _ & _ & ->).
  unfold delete_user. cbn [users].
  rewrite find_user_appended, find_user_next_id. cbn [id].
  rewrite Z.eqb_refl. cbn [snd save_data users data_file].
  rewrite filter_app, filter_next_id. cbn [filter id].
  rewrite Z.eqb_refl. cbn [negb]. rewrite List.app_nil_r. reflexivity.
Qed.

Lemma delete_after_create_restores_witness :
  users (snd (delete_user 3 (snd (create_user time1 bo (seeded time0 time0)))))
  = sample_users time0 time0.
Proof.
  exact (f_equal users
           (delete_after_create_restores time1 bo (seeded time0 time0) _ _ eq_refl)).
Defined.

(** ** Validation at concrete payloads *)

Lemma validate_accepts_iff_witness :
  validate_user_payload bo true = Ret (true, None).
Proof.
  apply (proj2 (validate_accepts_iff bo)).
  exists [("name", JStr "Bo"); ("email", JStr "bo@x.co")], "Bo", "bo@x.co".
  repeat split; try reflexivity; vm_compute; lia.
Defined.

Lemma validate_raises_iff_witness :
  validate_user_payload (JDict [("name", JStr "Bo"); ("email", JInt 5)]) true
  = Raise TypeError.
Proof.
  apply (proj2 (validate_raises_iff
                  (JDict [("name", JStr "Bo"); ("email", JInt 5)]) true TypeError)).
  split; [reflexivity|].
  exists [("name", JStr "Bo"); ("email", JInt 5)], "Bo", (JInt 5).
  repeat split; try reflexivity; vm_compute; lia.
Defined.
